(** * STM32 on-chip peripherals (hw/stm32.c): a shallow embedding

    The general purpose timer module (GPTM), the system controller
    (SSYS), the I2C master and the ADC of [hw/stm32.c] are register
    blocks: a C struct, a [read] and a [write] entry point decoding an
    offset, and callbacks.  Each struct becomes a record, every
    [uint32_t] a [Z] with the wrap-around written where C truncates,
    every function a function on the record.
    [hw_error] aborts the emulator: functions that can reach it return
    a [result].  The level last driven on a [qemu_irq] output is kept
    in the record of the device that owns the line. *)

From Stdlib Require Import ZArith Lia Bool String.
From coqutil Require Import Z.bitblast.
From stdpp Require Import base list.

Local Open Scope Z_scope.

(** ** Machine integers *)

(** Truncation to [uint32_t]. *)
Definition u32 (x : Z) : Z := x mod 2 ^ 32.

(** Two's complement wrap-around of [int64_t]. *)
Definition s64 (x : Z) : Z := (x + 2 ^ 63) mod 2 ^ 64 - 2 ^ 63.

(** [x != 0] on C integers. *)
Definition nonzero (x : Z) : bool := negb (x =? 0).

(** ** [hw_error] *)

Inductive result (A : Type) : Type :=
| Ok (a : A)
| HwError (msg : string).

Arguments Ok {A} a.
Arguments HwError {A} msg.

Definition rbind {A B : Type} (c : result A) (k : A -> result B) : result B :=
  match c with
  | Ok a => k a
  | HwError msg => HwError msg
  end.

Notation "x <- c ;; k" := (rbind c (fun x => k))
  (at level 100, c at next level, right associativity).

(** The value of a computation that did not abort, [d] otherwise. *)
Definition result_get {A : Type} (d : A) (c : result A) : A :=
  match c with
  | Ok a => a
  | HwError _ => d
  end.

(** ** Two-element arrays ([uint32_t mode[2]], [int64_t tick[2]], ...)

    The index is [0] or [1] wherever the source indexes one. *)

Definition sel {A : Type} (n : Z) (a : A * A) : A :=
  if n =? 0 then fst a else snd a.

Definition upd {A : Type} (n : Z) (v : A) (a : A * A) : A * A :=
  if n =? 0 then (v, snd a) else (fst a, v).

(** ** Collaborators declared outside [hw/stm32.c] *)

(** The macros of [stm32f2xx_defines.h] used by the system controller.
    The header is not part of the sources: the four masks are
    parameters of the model. *)
Class stm32f2xx_defines : Type := {
  RCC_CR_PLLON : Z;
  RCC_CR_PLLRDY : Z;
  RCC_CFGR_SW : Z;
  RCC_CFGR_SWS : Z
}.

(** The masks of the STM32F2 reference manual; [ssys_write] itself says
    that selected is the mask 0x03 and used is the mask 0x0c. *)
Definition stm32f2xx_reference : stm32f2xx_defines := {|
  RCC_CR_PLLON := 0x01000000;
  RCC_CR_PLLRDY := 0x02000000;
  RCC_CFGR_SW := 0x3;
  RCC_CFGR_SWS := 0xc
|}.

(** [get_ticks_per_sec] of [qemu-timer.h]: the length of one second of
    the virtual clock, a parameter of the model. *)
Class qemu_clock : Type := {
  get_ticks_per_sec : Z
}.

(** The nanosecond virtual clock [vm_clock] that the timers are created
    on. *)
Definition vm_clock_ns : qemu_clock := {| get_ticks_per_sec := 1000000000 |}.

(** ** System controller *)

Module Ssys.

Record stm32_board_info : Type := {
  name : string;
  did0 : Z;
  did1 : Z;
  dc0 : Z;
  dc1 : Z;
  dc2 : Z;
  dc3 : Z;
  dc4 : Z;
  peripherals : Z
}.

Record ssys_state : Type := {
  pborctl : Z;
  ldopctl : Z;
  int_status : Z;
  int_mask : Z;
  resc : Z;
  rcc : Z;
  rcc_cr : Z;
  rcc_cfgr : Z;
  rcc_anything_else : Z;
  rcc2 : Z;
  rcgc : list Z;
  scgc : list Z;
  dcgc : list Z;
  clkvclr : Z;
  ldoarst : Z;
  irq : bool;
  board : stm32_board_info
}.

Definition set_pborctl (v : Z) (s : ssys_state) : ssys_state :=
  {| pborctl := v; ldopctl := ldopctl s; int_status := int_status s;
     int_mask := int_mask s; resc := resc s; rcc := rcc s; rcc_cr := rcc_cr s;
     rcc_cfgr := rcc_cfgr s; rcc_anything_else := rcc_anything_else s;
     rcc2 := rcc2 s; rcgc := rcgc s; scgc := scgc s; dcgc := dcgc s;
     clkvclr := clkvclr s; ldoarst := ldoarst s; irq := irq s;
     board := board s |}.

Definition set_rcc (v : Z) (s : ssys_state) : ssys_state :=
  {| pborctl := pborctl s; ldopctl := ldopctl s; int_status := int_status s;
     int_mask := int_mask s; resc := resc s; rcc := v; rcc_cr := rcc_cr s;
     rcc_cfgr := rcc_cfgr s; rcc_anything_else := rcc_anything_else s;
     rcc2 := rcc2 s; rcgc := rcgc s; scgc := scgc s; dcgc := dcgc s;
     clkvclr := clkvclr s; ldoarst := ldoarst s; irq := irq s;
     board := board s |}.

Definition set_rcc_cr (v : Z) (s : ssys_state) : ssys_state :=
  {| pborctl := pborctl s; ldopctl := ldopctl s; int_status := int_status s;
     int_mask := int_mask s; resc := resc s; rcc := rcc s; rcc_cr := v;
     rcc_cfgr := rcc_cfgr s; rcc_anything_else := rcc_anything_else s;
     rcc2 := rcc2 s; rcgc := rcgc s; scgc := scgc s; dcgc := dcgc s;
     clkvclr := clkvclr s; ldoarst := ldoarst s; irq := irq s;
     board := board s |}.

Definition set_rcc_cfgr (v : Z) (s : ssys_state) : ssys_state :=
  {| pborctl := pborctl s; ldopctl := ldopctl s; int_status := int_status s;
     int_mask := int_mask s; resc := resc s; rcc := rcc s; rcc_cr := rcc_cr s;
     rcc_cfgr := v; rcc_anything_else := rcc_anything_else s;
     rcc2 := rcc2 s; rcgc := rcgc s; scgc := scgc s; dcgc := dcgc s;
     clkvclr := clkvclr s; ldoarst := ldoarst s; irq := irq s;
     board := board s |}.

Definition set_rcc_anything_else (v : Z) (s : ssys_state) : ssys_state :=
  {| pborctl := pborctl s; ldopctl := ldopctl s; int_status := int_status s;
     int_mask := int_mask s; resc := resc s; rcc := rcc s; rcc_cr := rcc_cr s;
     rcc_cfgr := rcc_cfgr s; rcc_anything_else := v;
     rcc2 := rcc2 s; rcgc := rcgc s; scgc := scgc s; dcgc := dcgc s;
     clkvclr := clkvclr s; ldoarst := ldoarst s; irq := irq s;
     board := board s |}.

Definition set_rcc2 (v : Z) (s : ssys_state) : ssys_state :=
  {| pborctl := pborctl s; ldopctl := ldopctl s; int_status := int_status s;
     int_mask := int_mask s; resc := resc s; rcc := rcc s; rcc_cr := rcc_cr s;
     rcc_cfgr := rcc_cfgr s; rcc_anything_else := rcc_anything_else s;
     rcc2 := v; rcgc := rcgc s; scgc := scgc s; dcgc := dcgc s;
     clkvclr := clkvclr s; ldoarst := ldoarst s; irq := irq s;
     board := board s |}.

Definition set_gating (r sc d : list Z) (s : ssys_state) : ssys_state :=
  {| pborctl := pborctl s; ldopctl := ldopctl s; int_status := int_status s;
     int_mask := int_mask s; resc := resc s; rcc := rcc s; rcc_cr := rcc_cr s;
     rcc_cfgr := rcc_cfgr s; rcc_anything_else := rcc_anything_else s;
     rcc2 := rcc2 s; rcgc := r; scgc := sc; dcgc := d;
     clkvclr := clkvclr s; ldoarst := ldoarst s; irq := irq s;
     board := board s |}.

Definition set_irq (v : bool) (s : ssys_state) : ssys_state :=
  {| pborctl := pborctl s; ldopctl := ldopctl s; int_status := int_status s;
     int_mask := int_mask s; resc := resc s; rcc := rcc s; rcc_cr := rcc_cr s;
     rcc_cfgr := rcc_cfgr s; rcc_anything_else := rcc_anything_else s;
     rcc2 := rcc2 s; rcgc := rcgc s; scgc := scgc s; dcgc := dcgc s;
     clkvclr := clkvclr s; ldoarst := ldoarst s; irq := v;
     board := board s |}.

(** [qemu_set_irq(s->irq, (s->int_status & s->int_mask) != 0)] *)
Definition ssys_update (s : ssys_state) : ssys_state :=
  set_irq (nonzero (Z.land (int_status s) (int_mask s))) s.

Definition DID0_VER_MASK : Z := 0x70000000.
Definition DID0_VER_0 : Z := 0x00000000.
Definition DID0_VER_1 : Z := 0x10000000.
Definition DID0_CLASS_MASK : Z := 0x00FF0000.
Definition DID0_CLASS_SANDSTORM : Z := 0x00000000.
Definition DID0_CLASS_FURY : Z := 0x00010000.

Definition ssys_board_class (s : ssys_state) : result Z :=
  let d := did0 (board s) in
  if Z.land d DID0_VER_MASK =? DID0_VER_0 then Ok DID0_CLASS_SANDSTORM
  else if Z.land d DID0_VER_MASK =? DID0_VER_1 then
    if (Z.land d DID0_CLASS_MASK =? DID0_CLASS_SANDSTORM)
       || (Z.land d DID0_CLASS_MASK =? DID0_CLASS_FURY)
    then Ok (Z.land d DID0_CLASS_MASK)
    else HwError "ssys_board_class: Unknown class"
  else HwError "ssys_board_class: Unknown class".

Definition ssys_use_rcc2 (s : ssys_state) : bool :=
  nonzero (Z.land (Z.shiftr (rcc2 s) 31) 0x1).

(** The value that [ssys_calculate_system_clock] assigns to the global
    [system_clock_scale]. *)
Definition ssys_calculate_system_clock (s : ssys_state) : Z :=
  if ssys_use_rcc2 s
  then 5 * (Z.land (Z.shiftr (rcc2 s) 23) 0x3f + 1)
  else 5 * (Z.land (Z.shiftr (rcc s) 23) 0xf + 1).

Section Write.
Context {D : stm32f2xx_defines}.

(** [ssys_write]; the two [printf] traces are left out.  The global
    [system_clock_scale] is neither read nor assigned here. *)
Definition ssys_write (s : ssys_state) (offset value : Z) : ssys_state :=
  let s :=
    if offset =? 0x00 then
      let s := set_rcc_cr (u32 value) s in
      if nonzero (Z.lor (rcc_cr s) RCC_CR_PLLON)
      then set_rcc_cr (u32 (Z.lor (rcc_cr s) RCC_CR_PLLRDY)) s
      else s
    else if offset =? 0x08 then
      let s := set_rcc_cfgr (u32 (Z.land value (Z.lnot RCC_CFGR_SWS))) s in
      set_rcc_cfgr
        (u32 (Z.lor (rcc_cfgr s) (Z.shiftl (Z.land (rcc_cfgr s) RCC_CFGR_SW) 2))) s
    else set_rcc_anything_else (u32 value) s in
  ssys_update s.

End Write.

(** The device together with the global it drives. *)
Record machine : Type := {
  dev : ssys_state;
  system_clock_scale : Z
}.

Definition ssys_reset (m : machine) : result machine :=
  let s := set_pborctl 0x7ffd (dev m) in
  let s := set_rcc 0x078e3ac0 s in
  c <- ssys_board_class s ;;
  let s := if c =? DID0_CLASS_SANDSTORM then set_rcc2 0 s
           else set_rcc2 0x07802810 s in
  let s := set_gating (<[0%nat := 1]> (rcgc s)) (<[0%nat := 1]> (scgc s))
                      (<[0%nat := 1]> (dcgc s)) s in
  Ok {| dev := s; system_clock_scale := ssys_calculate_system_clock s |}.

Definition stm32_sys_post_load (m : machine) : machine :=
  {| dev := dev m; system_clock_scale := ssys_calculate_system_clock (dev m) |}.

(** The fields [vmstate_stm32_sys] lists are taken from the snapshot
    [saved]; the others stay. *)
Definition vmstate_load (saved s : ssys_state) : ssys_state :=
  {| pborctl := pborctl saved; ldopctl := ldopctl saved;
     int_status := int_status saved; int_mask := int_mask saved;
     resc := resc saved; rcc := rcc saved; rcc_cr := rcc_cr s;
     rcc_cfgr := rcc_cfgr s; rcc_anything_else := rcc_anything_else s;
     rcc2 := rcc2 saved; rcgc := rcgc saved; scgc := scgc saved;
     dcgc := dcgc saved; clkvclr := clkvclr saved; ldoarst := ldoarst saved;
     irq := irq s; board := board s |}.

(** [g_malloc0]: every register is zero before the reset. *)
Definition ssys_zero (i : bool) (b : stm32_board_info) : ssys_state :=
  {| pborctl := 0; ldopctl := 0; int_status := 0; int_mask := 0; resc := 0;
     rcc := 0; rcc_cr := 0; rcc_cfgr := 0; rcc_anything_else := 0; rcc2 := 0;
     rcgc := [0; 0; 0]; scgc := [0; 0; 0]; dcgc := [0; 0; 0];
     clkvclr := 0; ldoarst := 0; irq := i; board := b |}.

(** [stm32_sys_init]: [scale0] is what the global holds before, [i] the
    level of the output line. *)
Definition stm32_sys_init (scale0 : Z) (i : bool) (b : stm32_board_info)
  : result machine :=
  ssys_reset {| dev := ssys_zero i b; system_clock_scale := scale0 |}.

(** What can happen to the controller once it exists: a register write,
    a reset, the restoring of a snapshot. *)
Inductive event : Type :=
| Write (offset value : Z)
| Reset
| Load (saved : ssys_state).

Section Run.
Context {D : stm32f2xx_defines}.

Definition step (m : machine) (e : event) : result machine :=
  match e with
  | Write offset value =>
      Ok {| dev := ssys_write (dev m) offset value;
            system_clock_scale := system_clock_scale m |}
  | Reset => ssys_reset m
  | Load saved =>
      Ok (stm32_sys_post_load
            {| dev := vmstate_load saved (dev m);
               system_clock_scale := system_clock_scale m |})
  end.

Fixpoint run (m : machine) (es : list event) : result machine :=
  match es with
  | [] => Ok m
  | e :: es => m' <- step m e ;; run m' es
  end.

End Run.

(** The board table of the source. *)
Definition lm3s811evb : stm32_board_info :=
  {| name := "LM3S811EVB"; did0 := 0; did1 := 0x0032000e;
     dc0 := 0x001f001f; dc1 := 0x001132bf; dc2 := 0x01071013;
     dc3 := 0x3f0f01ff; dc4 := 0x0000001f; peripherals := 0 |}.

Definition stm32_boards : list stm32_board_info := [lm3s811evb].

(** The controller of that board as [stm32_sys_init] leaves it, and a
    snapshot of it in which the guest had selected [rcc2] with divisor
    field 3. *)
Definition lm3s811evb_sys : machine :=
  result_get {| dev := ssys_zero false lm3s811evb; system_clock_scale := 0 |}
    (stm32_sys_init 0 false lm3s811evb).

Definition rcc2_snapshot : ssys_state :=
  set_rcc2 0x81800000 (dev lm3s811evb_sys).

(** The divisor field in the words of the specification: the 6-bit field
    at bits 28:23 of [rcc2] when bit 31 of [rcc2] is set, else the 4-bit
    field at bits 26:23 of [rcc]. *)
Definition spec_divisor_field (s : ssys_state) : Z :=
  if Z.testbit (rcc2 s) 31
  then (rcc2 s / 2 ^ 23) mod 2 ^ 6
  else (rcc s / 2 ^ 23) mod 2 ^ 4.

(** The invariant tying the global to the registers. *)
Definition clock_scale_ok (m : machine) : Prop :=
  system_clock_scale m = 5 * (spec_divisor_field (dev m) + 1).

(** *** Reading back *)

(** [ssys_read]; the [printf] trace is left out. *)
Definition ssys_read (s : ssys_state) (offset : Z) : Z :=
  if offset =? 0x00 then rcc_cr s
  else if offset =? 0x08 then rcc_cfgr s
  else rcc_anything_else s.

(** The events that do not bring registers in from a snapshot. *)
Definition guest_event (e : event) : bool :=
  match e with
  | Load _ => false
  | _ => true
  end.

(** The state of affairs while nothing comes in from a snapshot: the
    clock registers at their reset values, the scale they stand for, no
    interrupt status and no interrupt mask. *)
Definition quiet (m : machine) : Prop :=
  rcc (dev m) = 0x078e3ac0
  /\ (rcc2 (dev m) = 0 \/ rcc2 (dev m) = 0x07802810)
  /\ system_clock_scale m = 80
  /\ int_status (dev m) = 0
  /\ int_mask (dev m) = 0.

End Ssys.

(** ** General purpose timer module *)

Module Gptm.

(** [timer] holds, per channel, the deadline the [QEMUTimer] is pending
    at, if it is pending; [trigger] counts the pulses sent on the ADC
    trigger output; [irq] is the level of the interrupt output. *)
Record gptm_state : Type := {
  config : Z;
  mode : Z * Z;
  control : Z;
  state : Z;
  mask : Z;
  load : Z * Z;
  match_ : Z * Z;
  prescale : Z * Z;
  match_prescale : Z * Z;
  rtc : Z;
  tick : Z * Z;
  timer : option Z * option Z;
  trigger : nat;
  irq : bool
}.

Definition set_config (v : Z) (s : gptm_state) : gptm_state :=
  {| config := v; mode := mode s; control := control s; state := state s;
     mask := mask s; load := load s; match_ := match_ s;
     prescale := prescale s; match_prescale := match_prescale s;
     rtc := rtc s; tick := tick s; timer := timer s; trigger := trigger s;
     irq := irq s |}.

Definition set_mode (v : Z * Z) (s : gptm_state) : gptm_state :=
  {| config := config s; mode := v; control := control s; state := state s;
     mask := mask s; load := load s; match_ := match_ s;
     prescale := prescale s; match_prescale := match_prescale s;
     rtc := rtc s; tick := tick s; timer := timer s; trigger := trigger s;
     irq := irq s |}.

Definition set_control (v : Z) (s : gptm_state) : gptm_state :=
  {| config := config s; mode := mode s; control := v; state := state s;
     mask := mask s; load := load s; match_ := match_ s;
     prescale := prescale s; match_prescale := match_prescale s;
     rtc := rtc s; tick := tick s; timer := timer s; trigger := trigger s;
     irq := irq s |}.

Definition set_state (v : Z) (s : gptm_state) : gptm_state :=
  {| config := config s; mode := mode s; control := control s; state := v;
     mask := mask s; load := load s; match_ := match_ s;
     prescale := prescale s; match_prescale := match_prescale s;
     rtc := rtc s; tick := tick s; timer := timer s; trigger := trigger s;
     irq := irq s |}.

Definition set_mask (v : Z) (s : gptm_state) : gptm_state :=
  {| config := config s; mode := mode s; control := control s;
     state := state s; mask := v; load := load s; match_ := match_ s;
     prescale := prescale s; match_prescale := match_prescale s;
     rtc := rtc s; tick := tick s; timer := timer s; trigger := trigger s;
     irq := irq s |}.

Definition set_load (v : Z * Z) (s : gptm_state) : gptm_state :=
  {| config := config s; mode := mode s; control := control s;
     state := state s; mask := mask s; load := v; match_ := match_ s;
     prescale := prescale s; match_prescale := match_prescale s;
     rtc := rtc s; tick := tick s; timer := timer s; trigger := trigger s;
     irq := irq s |}.

Definition set_match (v : Z * Z) (s : gptm_state) : gptm_state :=
  {| config := config s; mode := mode s; control := control s;
     state := state s; mask := mask s; load := load s; match_ := v;
     prescale := prescale s; match_prescale := match_prescale s;
     rtc := rtc s; tick := tick s; timer := timer s; trigger := trigger s;
     irq := irq s |}.

Definition set_prescale (v : Z * Z) (s : gptm_state) : gptm_state :=
  {| config := config s; mode := mode s; control := control s;
     state := state s; mask := mask s; load := load s; match_ := match_ s;
     prescale := v; match_prescale := match_prescale s; rtc := rtc s;
     tick := tick s; timer := timer s; trigger := trigger s; irq := irq s |}.

Definition set_match_prescale (v : Z * Z) (s : gptm_state) : gptm_state :=
  {| config := config s; mode := mode s; control := control s;
     state := state s; mask := mask s; load := load s; match_ := match_ s;
     prescale := prescale s; match_prescale := v; rtc := rtc s;
     tick := tick s; timer := timer s; trigger := trigger s; irq := irq s |}.

Definition set_rtc (v : Z) (s : gptm_state) : gptm_state :=
  {| config := config s; mode := mode s; control := control s;
     state := state s; mask := mask s; load := load s; match_ := match_ s;
     prescale := prescale s; match_prescale := match_prescale s; rtc := v;
     tick := tick s; timer := timer s; trigger := trigger s; irq := irq s |}.

Definition set_tick (v : Z * Z) (s : gptm_state) : gptm_state :=
  {| config := config s; mode := mode s; control := control s;
     state := state s; mask := mask s; load := load s; match_ := match_ s;
     prescale := prescale s; match_prescale := match_prescale s;
     rtc := rtc s; tick := v; timer := timer s; trigger := trigger s;
     irq := irq s |}.

Definition set_timer (v : option Z * option Z) (s : gptm_state) : gptm_state :=
  {| config := config s; mode := mode s; control := control s;
     state := state s; mask := mask s; load := load s; match_ := match_ s;
     prescale := prescale s; match_prescale := match_prescale s;
     rtc := rtc s; tick := tick s; timer := v; trigger := trigger s;
     irq := irq s |}.

Definition set_trigger (v : nat) (s : gptm_state) : gptm_state :=
  {| config := config s; mode := mode s; control := control s;
     state := state s; mask := mask s; load := load s; match_ := match_ s;
     prescale := prescale s; match_prescale := match_prescale s;
     rtc := rtc s; tick := tick s; timer := timer s; trigger := v;
     irq := irq s |}.

Definition set_irq (v : bool) (s : gptm_state) : gptm_state :=
  {| config := config s; mode := mode s; control := control s;
     state := state s; mask := mask s; load := load s; match_ := match_ s;
     prescale := prescale s; match_prescale := match_prescale s;
     rtc := rtc s; tick := tick s; timer := timer s; trigger := trigger s;
     irq := v |}.

Definition gptm_update_irq (s : gptm_state) : gptm_state :=
  let level := nonzero (Z.land (state s) (mask s)) in
  set_irq level s.

(** Modelled from the spec: the virtual clock collaborator of
    [qemu-timer.h], which is not part of the sources.  [scheduleAt]
    ([qemu_mod_timer]) makes the timer pending at the deadline, replacing
    an earlier one; [cancel] ([qemu_del_timer]) takes it off. *)
Definition qemu_mod_timer (t : option Z) (expire_time : Z) : option Z :=
  Some expire_time.

Definition qemu_del_timer (t : option Z) : option Z := None.

Definition gptm_stop (s : gptm_state) (n : Z) : gptm_state :=
  set_timer (upd n (qemu_del_timer (sel n (timer s))) (timer s)) s.

Section Clocked.
Context {C : qemu_clock}.
(** The global [system_clock_scale] and the reading of
    [qemu_get_clock_ns(vm_clock)] during the call. *)
Variable system_clock_scale : Z.
Variable now : Z.

(** [int64_t] sums and products wrap ([s64]). *)
Definition gptm_reload (s : gptm_state) (n : Z) (reset : bool)
  : result gptm_state :=
  let tick0 := if reset then now else sel n (tick s) in
  tick1 <-
    (if config s =? 0 then
       let count := Z.lor (sel 0 (load s)) (u32 (Z.shiftl (sel 1 (load s)) 16)) in
       Ok (s64 (tick0 + s64 (count * system_clock_scale)))
     else if config s =? 1 then
       Ok (s64 (tick0 + get_ticks_per_sec))
     else if sel n (mode s) =? 0xa then
       Ok tick0
     else HwError "TODO: 16-bit timer mode") ;;
  let s := set_tick (upd n tick1 (tick s)) s in
  Ok (set_timer (upd n (qemu_mod_timer (sel n (timer s)) tick1) (timer s)) s).

(** [n] is the channel recovered from the opaque pointer. *)
Definition gptm_tick (s : gptm_state) (n : Z) : result gptm_state :=
  s <-
    (if config s =? 0 then
       let s := set_state (Z.lor (state s) 1) s in
       let s := if nonzero (Z.land (control s) 0x20)
                then set_trigger (S (trigger s)) s else s in
       if nonzero (Z.land (sel 0 (mode s)) 1)
       then Ok (set_control (Z.land (control s) (u32 (Z.lnot 1))) s)
       else gptm_reload s 0 false
     else if config s =? 1 then
       let s := set_rtc (u32 (rtc s + 1)) s in
       let match_v :=
         Z.lor (sel 0 (match_ s)) (u32 (Z.shiftl (sel 1 (match_ s)) 16)) in
       let s := if match_v <? rtc s then set_rtc 0 s else s in
       let s := if rtc s =? 0 then set_state (Z.lor (state s) 8) s else s in
       gptm_reload s 0 false
     else if sel n (mode s) =? 0xa then Ok s
     else HwError "TODO: 16-bit timer mode") ;;
  Ok (gptm_update_irq s).

(** [value] is the [uint64_t] the bus hands over. *)
Definition gptm_write (s : gptm_state) (offset value : Z)
  : result gptm_state :=
  s <-
    (if offset =? 0x00 then Ok (set_config (u32 value) s)
     else if offset =? 0x04 then Ok (set_mode (upd 0 (u32 value) (mode s)) s)
     else if offset =? 0x08 then Ok (set_mode (upd 1 (u32 value) (mode s)) s)
     else if offset =? 0x0c then
       let oldval := control s in
       let s := set_control (u32 value) s in
       s <-
         (if nonzero (Z.land (Z.lxor oldval value) 1) then
            if nonzero (Z.land value 1) then gptm_reload s 0 true
            else Ok (gptm_stop s 0)
          else Ok s) ;;
       if nonzero (Z.land (Z.lxor oldval value) 0x100) && (4 <=? config s) then
         if nonzero (Z.land value 0x100) then gptm_reload s 1 true
         else Ok (gptm_stop s 1)
       else Ok s
     else if offset =? 0x18 then
       Ok (gptm_update_irq (set_mask (Z.land value 0x77) s))
     else if offset =? 0x24 then
       Ok (set_state (u32 (Z.land (state s) (Z.lnot value))) s)
     else if offset =? 0x28 then
       let s := set_load (upd 0 (Z.land value 0xffff) (load s)) s in
       if config s <? 4
       then Ok (set_load (upd 1 (u32 (Z.shiftr value 16)) (load s)) s)
       else Ok s
     else if offset =? 0x2c then
       Ok (set_load (upd 1 (Z.land value 0xffff) (load s)) s)
     else if offset =? 0x30 then
       let s := set_match (upd 0 (Z.land value 0xffff) (match_ s)) s in
       if config s <? 4
       then Ok (set_match (upd 1 (u32 (Z.shiftr value 16)) (match_ s)) s)
       else Ok s
     else if offset =? 0x34 then
       Ok (set_match (upd 1 (u32 (Z.shiftr value 16)) (match_ s)) s)
     else if offset =? 0x38 then
       Ok (set_prescale (upd 0 (u32 value) (prescale s)) s)
     else if offset =? 0x3c then
       Ok (set_prescale (upd 1 (u32 value) (prescale s)) s)
     else if offset =? 0x40 then
       Ok (set_match_prescale (upd 0 (u32 value) (match_prescale s)) s)
     else if offset =? 0x44 then
       Ok (set_match_prescale (upd 0 (u32 value) (match_prescale s)) s)
     else HwError "gptm_write: Bad offset") ;;
  Ok (gptm_update_irq s).

(** Modelled from the spec: the virtual clock collaborator runs the
    callback of a pending timer once its deadline is reached, and no
    earlier; the timer is off the schedule while its callback runs. *)
Definition qemu_run_timer (s : gptm_state) (n : Z) : result gptm_state :=
  match sel n (timer s) with
  | Some deadline =>
      if deadline <=? now
      then gptm_tick (set_timer (upd n None (timer s)) s) n
      else Ok s
  | None => Ok s
  end.

End Clocked.

(** The device as [stm32_gptm_init] leaves it: zeroed registers, two
    timers created and not pending. *)
Definition stm32_gptm_init : gptm_state :=
  {| config := 0; mode := (0, 0); control := 0; state := 0; mask := 0;
     load := (0, 0); match_ := (0, 0); prescale := (0, 0);
     match_prescale := (0, 0); rtc := 0; tick := (0, 0);
     timer := (None, None); trigger := 0%nat; irq := false |}.

(** A fresh timer after the guest has selected the 32-bit RTC
    configuration. *)
Definition rtc_configured : gptm_state := set_config 1 stm32_gptm_init.

(** A fresh timer after the guest has written 2 to the configuration
    register and the PWM sentinel 0xa to the mode register of channel A. *)
Definition pwm_configured : gptm_state :=
  set_mode (0xa, 0) (set_config 2 stm32_gptm_init).

(** A fresh timer after the guest has selected one-shot mode for
    channel A. *)
Definition one_shot_configured : gptm_state :=
  set_mode (1, 0) stm32_gptm_init.

(** *** The timer at work *)

(** The 32-bit values that [gptm_reload] and [gptm_tick] assemble from
    the two 16-bit halves. *)
Definition combined_load (s : gptm_state) : Z :=
  Z.lor (sel 0 (load s)) (u32 (Z.shiftl (sel 1 (load s)) 16)).

Definition combined_match (s : gptm_state) : Z :=
  Z.lor (sel 0 (match_ s)) (u32 (Z.shiftl (sel 1 (match_ s)) 16)).

Section Guest.
Context {C : qemu_clock}.
Variable system_clock_scale : Z.

(** The guest writes the interval load register, then the control
    register, while the clock reads [now]. *)
Definition load_then_enable (now : Z) (s : gptm_state) (value ctl : Z)
  : result gptm_state :=
  s <- gptm_write system_clock_scale now s 0x28 value ;;
  gptm_write system_clock_scale now s 0x0c ctl.

(** The same with the match register. *)
Definition match_then_enable (now : Z) (s : gptm_state) (value ctl : Z)
  : result gptm_state :=
  s <- gptm_write system_clock_scale now s 0x30 value ;;
  gptm_write system_clock_scale now s 0x0c ctl.

(** The clock reaches the deadline of channel [n]; nothing happens when
    the channel is not pending. *)
Definition fire (s : gptm_state) (n : Z) : result gptm_state :=
  match sel n (timer s) with
  | Some deadline => qemu_run_timer system_clock_scale deadline s n
  | None => Ok s
  end.

(** [k] fires of channel A in a row. *)
Fixpoint fires (k : nat) (s : gptm_state) : result gptm_state :=
  match k with
  | O => Ok s
  | S k => s <- fires k s ;; fire s 0
  end.

(** The clock collaborator looks at channel A when the clock reads each
    of [times] in turn: a callback may run at its deadline or any time
    later. *)
Fixpoint fires_at (times : list Z) (s : gptm_state) : result gptm_state :=
  match times with
  | [] => Ok s
  | t :: times =>
      s <- qemu_run_timer system_clock_scale t s 0 ;; fires_at times s
  end.

End Guest.

(** The one-shot timer above, loaded with 3 and enabled at time 0 under
    a clock scale of 80. *)
Definition one_shot_pending : gptm_state :=
  result_get one_shot_configured
    (@load_then_enable vm_clock_ns 80 0 one_shot_configured 3 1).

(** *** Reading back *)

Definition gptm_read (s : gptm_state) (offset : Z) : result Z :=
  if offset =? 0x00 then Ok (config s)
  else if offset =? 0x04 then Ok (sel 0 (mode s))
  else if offset =? 0x08 then Ok (sel 1 (mode s))
  else if offset =? 0x0c then Ok (control s)
  else if offset =? 0x18 then Ok (mask s)
  else if offset =? 0x1c then Ok (state s)
  else if offset =? 0x20 then Ok (Z.land (state s) (mask s))
  else if offset =? 0x24 then Ok 0
  else if offset =? 0x28 then
    Ok (Z.lor (sel 0 (load s))
              (if config s <? 4 then u32 (Z.shiftl (sel 1 (load s)) 16) else 0))
  else if offset =? 0x2c then Ok (sel 1 (load s))
  else if offset =? 0x30 then
    Ok (Z.lor (sel 0 (match_ s))
              (if config s <? 4 then u32 (Z.shiftl (sel 1 (match_ s)) 16) else 0))
  else if offset =? 0x34 then Ok (sel 1 (match_ s))
  else if offset =? 0x38 then Ok (sel 0 (prescale s))
  else if offset =? 0x3c then Ok (sel 1 (prescale s))
  else if offset =? 0x40 then Ok (sel 0 (match_prescale s))
  else if offset =? 0x44 then Ok (sel 1 (match_prescale s))
  else if offset =? 0x48 then
    if control s =? 1 then Ok (rtc s) else HwError "TODO: Timer value read"
  else if offset =? 0x4c then HwError "TODO: Timer value read"
  else HwError "gptm_read: Bad offset".

(** *** The life of a timer *)

(** A register write while the clock reads [now], or the clock reaching
    the deadline of channel [n]. *)
Inductive event : Type :=
| Write (now offset value : Z)
| Fire (n : Z).

Section Life.
Context {C : qemu_clock}.
Variable system_clock_scale : Z.

Definition step (s : gptm_state) (e : event) : result gptm_state :=
  match e with
  | Write now offset value => gptm_write system_clock_scale now s offset value
  | Fire n => fire system_clock_scale s n
  end.

Fixpoint run (s : gptm_state) (es : list event) : result gptm_state :=
  match es with
  | [] => Ok s
  | e :: es => s <- step s e ;; run s es
  end.

End Life.


End Gptm.

(** ** I2C controller *)

(** The bus interface of [i2c.h], which is not part of the sources: the
    bus is a parameter of the model.  The bus object is shared with the
    devices on it, so every operation takes the bus and gives it back. *)
Class i2c_bus_ops (i2c_bus : Type) : Type := {
  i2c_start_transfer : i2c_bus -> Z -> Z -> i2c_bus * Z;
  i2c_bus_busy : i2c_bus -> Z;
  i2c_send : i2c_bus -> Z -> i2c_bus * Z;
  i2c_recv : i2c_bus -> i2c_bus * Z;
  i2c_end_transfer : i2c_bus -> i2c_bus
}.

Module I2c.

Record stm32_i2c_state : Type := {
  msa : Z;
  mcs : Z;
  mdr : Z;
  mtpr : Z;
  mimr : Z;
  mris : Z;
  mcr : Z;
  irq : bool
}.

Definition set_msa (v : Z) (s : stm32_i2c_state) : stm32_i2c_state :=
  {| msa := v; mcs := mcs s; mdr := mdr s; mtpr := mtpr s; mimr := mimr s;
     mris := mris s; mcr := mcr s; irq := irq s |}.

Definition set_mcs (v : Z) (s : stm32_i2c_state) : stm32_i2c_state :=
  {| msa := msa s; mcs := v; mdr := mdr s; mtpr := mtpr s; mimr := mimr s;
     mris := mris s; mcr := mcr s; irq := irq s |}.

Definition set_mdr (v : Z) (s : stm32_i2c_state) : stm32_i2c_state :=
  {| msa := msa s; mcs := mcs s; mdr := v; mtpr := mtpr s; mimr := mimr s;
     mris := mris s; mcr := mcr s; irq := irq s |}.

Definition set_mtpr (v : Z) (s : stm32_i2c_state) : stm32_i2c_state :=
  {| msa := msa s; mcs := mcs s; mdr := mdr s; mtpr := v; mimr := mimr s;
     mris := mris s; mcr := mcr s; irq := irq s |}.

Definition set_mimr (v : Z) (s : stm32_i2c_state) : stm32_i2c_state :=
  {| msa := msa s; mcs := mcs s; mdr := mdr s; mtpr := mtpr s; mimr := v;
     mris := mris s; mcr := mcr s; irq := irq s |}.

Definition set_mris (v : Z) (s : stm32_i2c_state) : stm32_i2c_state :=
  {| msa := msa s; mcs := mcs s; mdr := mdr s; mtpr := mtpr s;
     mimr := mimr s; mris := v; mcr := mcr s; irq := irq s |}.

Definition set_mcr (v : Z) (s : stm32_i2c_state) : stm32_i2c_state :=
  {| msa := msa s; mcs := mcs s; mdr := mdr s; mtpr := mtpr s;
     mimr := mimr s; mris := mris s; mcr := v; irq := irq s |}.

Definition set_irq (v : bool) (s : stm32_i2c_state) : stm32_i2c_state :=
  {| msa := msa s; mcs := mcs s; mdr := mdr s; mtpr := mtpr s;
     mimr := mimr s; mris := mris s; mcr := mcr s; irq := v |}.

Definition STELLARIS_I2C_MCS_BUSY : Z := 0x01.
Definition STELLARIS_I2C_MCS_ERROR : Z := 0x02.
Definition STELLARIS_I2C_MCS_ADRACK : Z := 0x04.
Definition STELLARIS_I2C_MCS_DATACK : Z := 0x08.
Definition STELLARIS_I2C_MCS_ARBLST : Z := 0x10.
Definition STELLARIS_I2C_MCS_IDLE : Z := 0x20.
Definition STELLARIS_I2C_MCS_BUSBSY : Z := 0x40.

Definition stm32_i2c_update (s : stm32_i2c_state) : stm32_i2c_state :=
  let level := nonzero (Z.land (mris s) (mimr s)) in
  set_irq level s.

Section Bus.
Context {i2c_bus : Type} {B : i2c_bus_ops i2c_bus}.

(** "Grab the bus if this is starting a transfer": the first statement
    of the MCS case of [stm32_i2c_write]. *)
Definition mcs_grab_bus (s : stm32_i2c_state) (bus : i2c_bus) (value : Z)
  : stm32_i2c_state * i2c_bus :=
  if nonzero (Z.land value 2)
     && (Z.land (mcs s) STELLARIS_I2C_MCS_BUSBSY =? 0)
  then
    let '(bus, failed) :=
      i2c_start_transfer bus (Z.land (Z.shiftr (msa s) 1) 0xff)
                         (Z.land (msa s) 1) in
    if nonzero failed
    then (set_mcs (Z.lor (mcs s) STELLARIS_I2C_MCS_ARBLST) s, bus)
    else
      let s := set_mcs (Z.land (mcs s) (u32 (Z.lnot STELLARIS_I2C_MCS_ARBLST))) s in
      (set_mcs (Z.lor (mcs s) STELLARIS_I2C_MCS_BUSBSY) s, bus)
  else (s, bus).

(** "Transfer a byte" and "Finish transfer": what the MCS case does once
    it holds the bus. *)
Definition mcs_transfer (s : stm32_i2c_state) (bus : i2c_bus) (value : Z)
  : stm32_i2c_state * i2c_bus :=
  let s := set_mcs (Z.land (mcs s) (u32 (Z.lnot STELLARIS_I2C_MCS_ERROR))) s in
  let '(s, bus) :=
    if nonzero (Z.land value 1) then
      let '(s, bus) :=
        if nonzero (Z.land (msa s) 1) then
          let '(bus, byte) := i2c_recv bus in
          (set_mdr (Z.land byte 0xff) s, bus)
        else
          (s, fst (i2c_send bus (Z.land (mdr s) 0xff))) in
      (set_mris (Z.lor (mris s) 1) s, bus)
    else (s, bus) in
  if nonzero (Z.land value 4) then
    (set_mcs (Z.land (mcs s) (u32 (Z.lnot STELLARIS_I2C_MCS_BUSBSY))) s,
     i2c_end_transfer bus)
  else (s, bus).

(** The MCS case of [stm32_i2c_write]. *)
Definition mcs_write (s : stm32_i2c_state) (bus : i2c_bus) (value : Z)
  : stm32_i2c_state * i2c_bus :=
  if Z.land (mcr s) 0x10 =? 0 then (s, bus)
  else
    let '(s, bus) := mcs_grab_bus s bus value in
    if (i2c_bus_busy bus =? 0)
       || (Z.land (mcs s) STELLARIS_I2C_MCS_BUSBSY =? 0)
    then (set_mcs (Z.lor (mcs s) STELLARIS_I2C_MCS_ERROR) s, bus)
    else mcs_transfer s bus value.

Definition stm32_i2c_write (s : stm32_i2c_state) (bus : i2c_bus)
  (offset value : Z) : result (stm32_i2c_state * i2c_bus) :=
  r <-
    (if offset =? 0x00 then Ok (set_msa (Z.land value 0xff) s, bus)
     else if offset =? 0x04 then Ok (mcs_write s bus value)
     else if offset =? 0x08 then Ok (set_mdr (Z.land value 0xff) s, bus)
     else if offset =? 0x0c then Ok (set_mtpr (Z.land value 0xff) s, bus)
     else if offset =? 0x10 then Ok (set_mimr 1 s, bus)
     else if offset =? 0x1c then
       Ok (set_mris (u32 (Z.land (mris s) (Z.lnot value))) s, bus)
     else if offset =? 0x20 then
       if nonzero (Z.land value 1)
       then HwError "stm32_i2c_write: Loopback not implemented"
       else if nonzero (Z.land value 0x20)
       then HwError "stm32_i2c_write: Slave mode not implemented"
       else Ok (set_mcr (Z.land value 0x31) s, bus)
     else HwError "stm32_i2c_write: Bad offset") ;;
  Ok (stm32_i2c_update (fst r), snd r).

Definition stm32_i2c_reset (s : stm32_i2c_state) (bus : i2c_bus)
  : stm32_i2c_state * i2c_bus :=
  let bus :=
    if nonzero (Z.land (mcs s) STELLARIS_I2C_MCS_BUSBSY)
    then i2c_end_transfer bus else bus in
  (stm32_i2c_update
     {| msa := 0; mcs := 0; mdr := 0; mtpr := 1; mimr := 0; mris := 0;
        mcr := 0; irq := irq s |}, bus).

End Bus.

(** Modelled from the spec: a bus for one controller among others.
    [acquire] fails (arbitration loss) exactly when another master
    already owns the bus, [isBusy] tells whether anybody owns it,
    [release] gives it up.  The record logs what was sent and holds what
    the addressed device will answer. *)
Inductive owner : Type := Nobody | ThisMaster | OtherMaster.

Record wire : Type := {
  held : owner;
  sent : list Z;
  answer : list Z
}.

Definition wire_start (b : wire) (address recv : Z) : wire * Z :=
  match held b with
  | OtherMaster => (b, 1)
  | _ => ({| held := ThisMaster; sent := sent b; answer := answer b |}, 0)
  end.

Definition wire_busy (b : wire) : Z :=
  match held b with
  | Nobody => 0
  | _ => 1
  end.

Definition wire_send (b : wire) (byte : Z) : wire * Z :=
  ({| held := held b; sent := sent b ++ [byte]; answer := answer b |}, 0).

Definition wire_recv (b : wire) : wire * Z :=
  match answer b with
  | byte :: rest => ({| held := held b; sent := sent b; answer := rest |}, byte)
  | [] => (b, -1)
  end.

Definition wire_end (b : wire) : wire :=
  match held b with
  | ThisMaster => {| held := Nobody; sent := sent b; answer := answer b |}
  | _ => b
  end.

(** An enabled master addressing device 0x2a for writing, with 0xab in
    the data register; a bus nobody holds and one another master holds. *)
Definition enabled_master : stm32_i2c_state :=
  {| msa := 0x54; mcs := 0; mdr := 0xab; mtpr := 1; mimr := 0; mris := 0;
     mcr := 0x10; irq := false |}.

Definition idle_wire : wire := {| held := Nobody; sent := []; answer := [] |}.

Definition contended_wire : wire :=
  {| held := OtherMaster; sent := []; answer := [] |}.

Definition wire_ops : i2c_bus_ops wire := {|
  i2c_start_transfer := wire_start;
  i2c_bus_busy := wire_busy;
  i2c_send := wire_send;
  i2c_recv := wire_recv;
  i2c_end_transfer := wire_end
|}.

(** *** Reading back, and sequences of writes *)

Definition stm32_i2c_read (s : stm32_i2c_state) (offset : Z) : result Z :=
  if offset =? 0x00 then Ok (msa s)
  else if offset =? 0x04 then Ok (Z.lor (mcs s) STELLARIS_I2C_MCS_IDLE)
  else if offset =? 0x08 then Ok (mdr s)
  else if offset =? 0x0c then Ok (mtpr s)
  else if offset =? 0x10 then Ok (mimr s)
  else if offset =? 0x14 then Ok (mris s)
  else if offset =? 0x18 then Ok (Z.land (mris s) (mimr s))
  else if offset =? 0x20 then Ok (mcr s)
  else HwError "strllaris_i2c_read: Bad offset".

Section BusGuest.
Context {i2c_bus : Type} {B : i2c_bus_ops i2c_bus}.

(** The guest performs the register writes [(offset, value)] in turn. *)
Fixpoint writes (s : stm32_i2c_state) (bus : i2c_bus) (ws : list (Z * Z))
  : result (stm32_i2c_state * i2c_bus) :=
  match ws with
  | [] => Ok (s, bus)
  | (offset, value) :: ws =>
      r <- stm32_i2c_write s bus offset value ;;
      writes (fst r) (snd r) ws
  end.

(** The guest sends bytes: each goes to the data register, then the run
    bit is written to the control/status register. *)
Definition send_bytes (s : stm32_i2c_state) (bus : i2c_bus) (bytes : list Z)
  : result (stm32_i2c_state * i2c_bus) :=
  writes s bus (flat_map (fun byte => [(0x08, byte); (0x04, 1)]) bytes).

End BusGuest.

(** What the control/status case leaves alone: between [s] and [s'] only
    [mcs], [mdr] and [mris] may differ, and the bits of [mcs] other than
    error, arbitration lost and bus busy stay clear if they were. *)
Definition mcs_frame (s s' : stm32_i2c_state) : Prop :=
  msa s' = msa s /\ mtpr s' = mtpr s /\ mimr s' = mimr s /\ mcr s' = mcr s
  /\ irq s' = irq s
  /\ (Z.land (mcs s) (Z.lnot 0x52) = 0 -> Z.land (mcs s') (Z.lnot 0x52) = 0).

End I2c.

(** ** Analogue to digital converter *)

(** C arrays as lists: the source only indexes them in range (a sequencer
    number below 4, a FIFO slot below 16). *)
Definition aget {A : Type} (d : A) (a : list A) (i : Z) : A :=
  default d (a !! Z.to_nat i).

Definition aset {A : Type} (a : list A) (i : Z) (v : A) : list A :=
  <[Z.to_nat i := v]> a.

Module Adc.

Definition STELLARIS_ADC_EM_CONTROLLER : Z := 0.
Definition STELLARIS_ADC_EM_COMP : Z := 1.
Definition STELLARIS_ADC_EM_EXTERNAL : Z := 4.
Definition STELLARIS_ADC_EM_TIMER : Z := 5.
Definition STELLARIS_ADC_EM_PWM0 : Z := 6.
Definition STELLARIS_ADC_EM_PWM1 : Z := 7.
Definition STELLARIS_ADC_EM_PWM2 : Z := 8.

Definition STELLARIS_ADC_FIFO_EMPTY : Z := 0x0100.
Definition STELLARIS_ADC_FIFO_FULL : Z := 0x1000.

Record adc_fifo : Type := {
  state : Z;
  data : list Z
}.

(** [irq] holds the levels of the four output lines. *)
Record stm32_adc_state : Type := {
  actss : Z;
  ris : Z;
  im : Z;
  emux : Z;
  ostat : Z;
  ustat : Z;
  sspri : Z;
  sac : Z;
  fifo : list adc_fifo;
  ssmux : list Z;
  ssctl : list Z;
  noise : Z;
  irq : list bool
}.

Definition set_actss (v : Z) (s : stm32_adc_state) : stm32_adc_state :=
  {| actss := v; ris := ris s; im := im s; emux := emux s; ostat := ostat s;
     ustat := ustat s; sspri := sspri s; sac := sac s; fifo := fifo s;
     ssmux := ssmux s; ssctl := ssctl s; noise := noise s; irq := irq s |}.

Definition set_ris (v : Z) (s : stm32_adc_state) : stm32_adc_state :=
  {| actss := actss s; ris := v; im := im s; emux := emux s;
     ostat := ostat s; ustat := ustat s; sspri := sspri s; sac := sac s;
     fifo := fifo s; ssmux := ssmux s; ssctl := ssctl s; noise := noise s;
     irq := irq s |}.

Definition set_im (v : Z) (s : stm32_adc_state) : stm32_adc_state :=
  {| actss := actss s; ris := ris s; im := v; emux := emux s;
     ostat := ostat s; ustat := ustat s; sspri := sspri s; sac := sac s;
     fifo := fifo s; ssmux := ssmux s; ssctl := ssctl s; noise := noise s;
     irq := irq s |}.

Definition set_emux (v : Z) (s : stm32_adc_state) : stm32_adc_state :=
  {| actss := actss s; ris := ris s; im := im s; emux := v; ostat := ostat s;
     ustat := ustat s; sspri := sspri s; sac := sac s; fifo := fifo s;
     ssmux := ssmux s; ssctl := ssctl s; noise := noise s; irq := irq s |}.

Definition set_ostat (v : Z) (s : stm32_adc_state) : stm32_adc_state :=
  {| actss := actss s; ris := ris s; im := im s; emux := emux s; ostat := v;
     ustat := ustat s; sspri := sspri s; sac := sac s; fifo := fifo s;
     ssmux := ssmux s; ssctl := ssctl s; noise := noise s; irq := irq s |}.

Definition set_ustat (v : Z) (s : stm32_adc_state) : stm32_adc_state :=
  {| actss := actss s; ris := ris s; im := im s; emux := emux s;
     ostat := ostat s; ustat := v; sspri := sspri s; sac := sac s;
     fifo := fifo s; ssmux := ssmux s; ssctl := ssctl s; noise := noise s;
     irq := irq s |}.

Definition set_sspri (v : Z) (s : stm32_adc_state) : stm32_adc_state :=
  {| actss := actss s; ris := ris s; im := im s; emux := emux s;
     ostat := ostat s; ustat := ustat s; sspri := v; sac := sac s;
     fifo := fifo s; ssmux := ssmux s; ssctl := ssctl s; noise := noise s;
     irq := irq s |}.

Definition set_sac (v : Z) (s : stm32_adc_state) : stm32_adc_state :=
  {| actss := actss s; ris := ris s; im := im s; emux := emux s;
     ostat := ostat s; ustat := ustat s; sspri := sspri s; sac := v;
     fifo := fifo s; ssmux := ssmux s; ssctl := ssctl s; noise := noise s;
     irq := irq s |}.

Definition set_fifo (v : list adc_fifo) (s : stm32_adc_state) : stm32_adc_state :=
  {| actss := actss s; ris := ris s; im := im s; emux := emux s;
     ostat := ostat s; ustat := ustat s; sspri := sspri s; sac := sac s;
     fifo := v; ssmux := ssmux s; ssctl := ssctl s; noise := noise s;
     irq := irq s |}.

Definition set_ssmux (v : list Z) (s : stm32_adc_state) : stm32_adc_state :=
  {| actss := actss s; ris := ris s; im := im s; emux := emux s;
     ostat := ostat s; ustat := ustat s; sspri := sspri s; sac := sac s;
     fifo := fifo s; ssmux := v; ssctl := ssctl s; noise := noise s;
     irq := irq s |}.

Definition set_ssctl (v : list Z) (s : stm32_adc_state) : stm32_adc_state :=
  {| actss := actss s; ris := ris s; im := im s; emux := emux s;
     ostat := ostat s; ustat := ustat s; sspri := sspri s; sac := sac s;
     fifo := fifo s; ssmux := ssmux s; ssctl := v; noise := noise s;
     irq := irq s |}.

Definition set_noise (v : Z) (s : stm32_adc_state) : stm32_adc_state :=
  {| actss := actss s; ris := ris s; im := im s; emux := emux s;
     ostat := ostat s; ustat := ustat s; sspri := sspri s; sac := sac s;
     fifo := fifo s; ssmux := ssmux s; ssctl := ssctl s; noise := v;
     irq := irq s |}.

Definition set_irq (v : list bool) (s : stm32_adc_state) : stm32_adc_state :=
  {| actss := actss s; ris := ris s; im := im s; emux := emux s;
     ostat := ostat s; ustat := ustat s; sspri := sspri s; sac := sac s;
     fifo := fifo s; ssmux := ssmux s; ssctl := ssctl s; noise := noise s;
     irq := v |}.

Definition no_fifo : adc_fifo := {| state := 0; data := [] |}.

Definition stm32_adc_fifo_read (s : stm32_adc_state) (n : Z)
  : stm32_adc_state * Z :=
  let f := aget no_fifo (fifo s) n in
  let tail := Z.land (state f) 0xf in
  let s :=
    if nonzero (Z.land (state f) STELLARIS_ADC_FIFO_EMPTY) then
      set_ustat (u32 (Z.lor (ustat s) (Z.shiftl 1 n))) s
    else
      let st := Z.lor (Z.land (state f) (u32 (Z.lnot 0xf)))
                      (Z.land (tail + 1) 0xf) in
      let st := Z.land st (u32 (Z.lnot STELLARIS_ADC_FIFO_FULL)) in
      let st := if tail + 1 =? Z.land (Z.shiftr st 4) 0xf
                then Z.lor st STELLARIS_ADC_FIFO_EMPTY else st in
      set_fifo (aset (fifo s) n {| state := st; data := data f |}) s in
  (s, aget 0 (data (aget no_fifo (fifo s) n)) tail).

Definition stm32_adc_fifo_write (s : stm32_adc_state) (n value : Z)
  : stm32_adc_state :=
  let f := aget no_fifo (fifo s) n in
  let head := Z.land (Z.shiftr (state f) 4) 0xf in
  if nonzero (Z.land (state f) STELLARIS_ADC_FIFO_FULL) then
    set_ostat (u32 (Z.lor (ostat s) (Z.shiftl 1 n))) s
  else
    let d := aset (data f) head value in
    let head := Z.land (head + 1) 0xf in
    let st := Z.land (state f) (u32 (Z.lnot STELLARIS_ADC_FIFO_EMPTY)) in
    let st := Z.lor (Z.land st (u32 (Z.lnot 0xf0))) (Z.shiftl head 4) in
    let st := if Z.land st 0xf =? head
              then Z.lor st STELLARIS_ADC_FIFO_FULL else st in
    set_fifo (aset (fifo s) n {| state := st; data := d |}) s.

(** The sequencer numbers a [for (n = 0; n < 4; n++)] loop runs over. *)
Definition sequencers : list Z := [0; 1; 2; 3].

Definition stm32_adc_update (s : stm32_adc_state) : stm32_adc_state :=
  fold_left
    (fun s n =>
       let level := nonzero (Z.land (Z.land (ris s) (im s)) (Z.shiftl 1 n)) in
       set_irq (aset (irq s) n level) s)
    sequencers s.

(** One turn of the loop of [stm32_adc_trigger]. *)
Definition trigger_sequencer (s : stm32_adc_state) (n : Z) : stm32_adc_state :=
  if Z.land (actss s) (Z.shiftl 1 n) =? 0 then s
  else if negb (Z.land (Z.shiftr (emux s) (n * 4)) 0xff =? 5) then s
  else
    let s := set_noise (u32 (noise s * 314159 + 1)) s in
    let s := stm32_adc_fifo_write s n
               (0x200 + Z.land (Z.shiftr (noise s) 16) 7) in
    let s := set_ris (u32 (Z.lor (ris s) (Z.shiftl 1 n))) s in
    stm32_adc_update s.

Definition stm32_adc_trigger (s : stm32_adc_state) (irq level : Z)
  : stm32_adc_state :=
  fold_left trigger_sequencer sequencers s.

Definition stm32_adc_reset (s : stm32_adc_state) : stm32_adc_state :=
  fold_left
    (fun s n =>
       let s := set_ssmux (aset (ssmux s) n 0) s in
       let s := set_ssctl (aset (ssctl s) n 0) s in
       set_fifo
         (aset (fifo s) n
            {| state := STELLARIS_ADC_FIFO_EMPTY;
               data := data (aget no_fifo (fifo s) n) |}) s)
    sequencers s.

Definition stm32_adc_read (s : stm32_adc_state) (offset : Z)
  : result (stm32_adc_state * Z) :=
  let n := Z.shiftr (offset - 0x40) 5 in
  let sub := Z.land offset 0x1f in
  if (0x40 <=? offset) && (offset <? 0xc0) && (sub =? 0x00)
  then Ok (s, aget 0 (ssmux s) n)
  else if (0x40 <=? offset) && (offset <? 0xc0) && (sub =? 0x04)
  then Ok (s, aget 0 (ssctl s) n)
  else if (0x40 <=? offset) && (offset <? 0xc0) && (sub =? 0x08)
  then Ok (stm32_adc_fifo_read s n)
  else if (0x40 <=? offset) && (offset <? 0xc0) && (sub =? 0x0c)
  then Ok (s, state (aget no_fifo (fifo s) n))
  else if offset =? 0x00 then Ok (s, actss s)
  else if offset =? 0x04 then Ok (s, ris s)
  else if offset =? 0x08 then Ok (s, im s)
  else if offset =? 0x0c then Ok (s, Z.land (ris s) (im s))
  else if offset =? 0x10 then Ok (s, ostat s)
  else if offset =? 0x14 then Ok (s, emux s)
  else if offset =? 0x18 then Ok (s, ustat s)
  else if offset =? 0x20 then Ok (s, sspri s)
  else if offset =? 0x30 then Ok (s, sac s)
  else HwError "strllaris_adc_read: Bad offset".

(** The two sequencer registers return before [stm32_adc_update]. *)
Definition stm32_adc_write (s : stm32_adc_state) (offset value : Z)
  : result stm32_adc_state :=
  let n := Z.shiftr (offset - 0x40) 5 in
  let sub := Z.land offset 0x1f in
  if (0x40 <=? offset) && (offset <? 0xc0) && (sub =? 0x00)
  then Ok (set_ssmux (aset (ssmux s) n (Z.land value 0x33333333)) s)
  else if (0x40 <=? offset) && (offset <? 0xc0) && (sub =? 0x04)
  then
    if negb (value =? 6) then HwError "ADC: Unimplemented sequence"
    else Ok (set_ssctl (aset (ssctl s) n (u32 value)) s)
  else
    s <-
      (if offset =? 0x00 then Ok (set_actss (Z.land value 0xf) s)
       else if offset =? 0x08 then Ok (set_im (u32 value) s)
       else if offset =? 0x0c then
         Ok (set_ris (u32 (Z.land (ris s) (Z.lnot value))) s)
       else if offset =? 0x10 then
         Ok (set_ostat (u32 (Z.land (ostat s) (Z.lnot value))) s)
       else if offset =? 0x14 then Ok (set_emux (u32 value) s)
       else if offset =? 0x18 then
         Ok (set_ustat (u32 (Z.land (ustat s) (Z.lnot value))) s)
       else if offset =? 0x20 then Ok (set_sspri (u32 value) s)
       else if offset =? 0x28 then
         HwError "Not implemented:  ADC sample initiate"
       else if offset =? 0x30 then Ok (set_sac (u32 value) s)
       else HwError "stm32_adc_write: Bad offset") ;;
    Ok (stm32_adc_update s).

(** The device as [stm32_adc_init] leaves it: zeroed, then reset; the
    four output lines have not been raised. *)
Definition stm32_adc_init : stm32_adc_state :=
  stm32_adc_reset
    {| actss := 0; ris := 0; im := 0; emux := 0; ostat := 0; ustat := 0;
       sspri := 0; sac := 0;
       fifo := replicate 4 {| state := 0; data := replicate 16 0 |};
       ssmux := replicate 4 0; ssctl := replicate 4 0; noise := 0;
       irq := replicate 4 false |}.

(** *** Reading the model *)

(** FIFO [n] and the two indices packed in its state word. *)
Definition fifo_at (s : stm32_adc_state) (n : Z) : adc_fifo :=
  aget no_fifo (fifo s) n.

Definition fifo_tail (f : adc_fifo) : Z := Z.land (state f) 0xf.

Definition fifo_head (f : adc_fifo) : Z := Z.land (Z.shiftr (state f) 4) 0xf.

(** The samples [vs] written to FIFO [n] one after the other. *)
Definition fifo_writes (s : stm32_adc_state) (n : Z) (vs : list Z)
  : stm32_adc_state :=
  fold_left (fun s v => stm32_adc_fifo_write s n v) vs s.

(** The raw status and the mask of output line [n]: bit [n] of [ris] and
    of [im]. *)
Definition line_raw (s : stm32_adc_state) (n : Z) : Z :=
  Z.land (ris s) (Z.shiftl 1 n).

Definition line_mask (s : stm32_adc_state) (n : Z) : Z :=
  Z.land (im s) (Z.shiftl 1 n).

(** Every output line is at the level of its masked status. *)
Definition lines_ok (s : stm32_adc_state) : Prop :=
  length (irq s) = 4%nat
  /\ forall n, 0 <= n < 4 ->
       aget false (irq s) n = nonzero (Z.land (line_raw s n) (line_mask s n)).

(** Sixteen samples to fill a FIFO with. *)
Definition sixteen_samples : list Z :=
  [100; 101; 102; 103; 104; 105; 106; 107; 108; 109; 110; 111; 112; 113;
   114; 115].

(** The guest has selected the timer (5) as the trigger of sequencers 0
    and 1, and then enabled the two. *)
Definition timer_selected : stm32_adc_state :=
  result_get stm32_adc_init (stm32_adc_write stm32_adc_init 0x14 0x55).

Definition two_timer_sequencers : stm32_adc_state :=
  result_get timer_selected
    (stm32_adc_write timer_selected 0x00 3).

(** [k] reads of FIFO [n] one after the other, with what they return. *)
Fixpoint fifo_reads (s : stm32_adc_state) (n : Z) (k : nat)
  : stm32_adc_state * list Z :=
  match k with
  | O => (s, [])
  | S k =>
      let '(s, v) := stm32_adc_fifo_read s n in
      let '(s, vs) := fifo_reads s n k in
      (s, v :: vs)
  end.

(** The guest has selected the timer as the trigger of sequencer 0
    (EMUX = 5) and enabled that sequencer alone (ACTSS = 1). *)
Definition one_timer_sequencer : stm32_adc_state :=
  let s := result_get stm32_adc_init (stm32_adc_write stm32_adc_init 0x14 5) in
  result_get s (stm32_adc_write s 0x00 1).

(** Sixteen trigger pulses have filled FIFO 0. *)
Definition sixteen_triggers : stm32_adc_state :=
  Nat.iter 16 (fun s => stm32_adc_trigger s 0 1) one_timer_sequencer.

(** The guest has then read the sixteen samples back. *)
Definition drained : stm32_adc_state := fst (fifo_reads sixteen_triggers 0 16).

End Adc.

(** * Properties *)

(** ** Machine integers *)

Lemma u32_range (x : Z) : 0 <= u32 x < 2 ^ 32.
Proof. unfold u32. apply Z.mod_pos_bound. lia. Qed.

Lemma u32_small (x : Z) : 0 <= x < 2 ^ 32 -> u32 x = x.
Proof. intros H. unfold u32. now apply Z.mod_small. Qed.

Lemma u32_lor (a b : Z) : u32 (Z.lor a b) = Z.lor (u32 a) (u32 b).
Proof. unfold u32. Z.bitblast. Qed.

Lemma u32_halves (v : Z) :
  Z.lor (Z.land v 0xffff) (u32 (Z.shiftl (u32 (Z.shiftr v 16)) 16)) = u32 v.
Proof.
  unfold u32. change 0xffff with (Z.ones 16). Z.bitblast.
Qed.

Lemma s64_small (x : Z) : - 2 ^ 63 <= x < 2 ^ 63 -> s64 x = x.
Proof. intros H. unfold s64. rewrite Z.mod_small; lia. Qed.

Lemma s64_add_l (a b : Z) : s64 (s64 a + b) = s64 (a + b).
Proof.
  unfold s64.
  replace ((a + 2 ^ 63) mod 2 ^ 64 - 2 ^ 63 + b + 2 ^ 63)
    with ((a + 2 ^ 63) mod 2 ^ 64 + b) by lia.
  rewrite Z.add_mod_idemp_l by lia.
  f_equal. f_equal. lia.
Qed.

Lemma land_lor_same (a b : Z) : Z.land (Z.lor a b) b = b.
Proof. Z.bitblast. Qed.

Lemma lor_land_same (a b : Z) : Z.lor (Z.land a b) b = b.
Proof. Z.bitblast. Qed.

Lemma nonzero_true (x : Z) : nonzero x = true <-> x <> 0.
Proof. unfold nonzero. rewrite negb_true_iff. apply Z.eqb_neq. Qed.

Lemma nonzero_false (x : Z) : nonzero x = false <-> x = 0.
Proof. unfold nonzero. rewrite negb_false_iff. apply Z.eqb_eq. Qed.

(** ** System controller *)

Section SsysFacts.
Import Ssys.
Context {D : stm32f2xx_defines}.

(** The shifts and masks of [ssys_calculate_system_clock] pick the
    fields the specification names. *)
Lemma ssys_calculate_system_clock_fields (s : ssys_state) :
  ssys_calculate_system_clock s = 5 * (spec_divisor_field s + 1).
Proof.
  unfold ssys_calculate_system_clock, spec_divisor_field, ssys_use_rcc2, nonzero.
  replace (Z.land (Z.shiftr (rcc2 s) 31) 1 =? 0)
    with (negb (Z.testbit (rcc2 s) 31)).
  - rewrite negb_involutive.
    rewrite !Z.shiftr_div_pow2 by lia.
    change 0x3f with (Z.ones 6). change 0xf with (Z.ones 4).
    rewrite !Z.land_ones by lia.
    destruct (Z.testbit (rcc2 s) 31); reflexivity.
  - change 1 with (Z.ones 1) at 1. rewrite Z.land_ones by lia.
    rewrite <- (Z.add_0_l 31) at 1.
    rewrite <- Z.shiftr_spec by lia.
    rewrite Z.bit0_eqb. change (2 ^ 1) with 2.
    destruct (Z.eqb_spec (Z.shiftr (rcc2 s) 31 mod 2) 1) as [E | E];
      destruct (Z.eqb_spec (Z.shiftr (rcc2 s) 31 mod 2) 0) as [E0 | E0];
      try reflexivity; exfalso.
    + lia.
    + pose proof (Z.mod_pos_bound (Z.shiftr (rcc2 s) 31) 2). lia.
Qed.

(** A register write leaves [rcc] and [rcc2] alone. *)
Lemma ssys_write_rcc (s : ssys_state) (offset value : Z) :
  rcc (ssys_write s offset value) = rcc s
  /\ rcc2 (ssys_write s offset value) = rcc2 s.
Proof.
  unfold ssys_write.
  destruct (offset =? 0); [ | destruct (offset =? 8) ];
    try destruct (nonzero _); split; reflexivity.
Qed.

Lemma ssys_reset_ok (m m' : machine) :
  ssys_reset m = Ok m' -> clock_scale_ok m'.
Proof.
  unfold ssys_reset. intros H.
  destruct (ssys_board_class _) as [c | msg]; simpl in H; [ | discriminate ].
  injection H as <-. unfold clock_scale_ok. simpl.
  apply ssys_calculate_system_clock_fields.
Qed.

Lemma stm32_sys_post_load_ok (m : machine) :
  clock_scale_ok (stm32_sys_post_load m).
Proof. apply ssys_calculate_system_clock_fields. Qed.

Lemma step_ok (m m' : machine) (e : event) :
  clock_scale_ok m -> step m e = Ok m' -> clock_scale_ok m'.
Proof.
  intros Hm H. destruct e as [offset value | | ]; simpl in H.
  - injection H as <-. unfold clock_scale_ok in *. simpl.
    unfold spec_divisor_field in *.
    destruct (ssys_write_rcc (dev m) offset value) as [-> ->]. exact Hm.
  - eapply ssys_reset_ok; eassumption.
  - injection H as <-. apply stm32_sys_post_load_ok.
Qed.

Lemma run_ok (es : list event) : forall m m' : machine,
  clock_scale_ok m -> run m es = Ok m' -> clock_scale_ok m'.
Proof.
  induction es as [ | e es IH]; intros m m' Hm H; simpl in H.
  - injection H as <-. exact Hm.
  - destruct (step m e) as [m1 | msg] eqn:E; simpl in H; [ | discriminate ].
    eapply IH; [ | exact H ]. eapply step_ok; eassumption.
Qed.

(** C1.  Once [stm32_sys_init] has run, whatever resets, restored
    snapshots and register writes follow, after every further register
    write, at any offset and with any value, the global
    [system_clock_scale] is [5 * (divisorField + 1)], where [divisorField]
    is bits 28:23 of [rcc2] when bit 31 of [rcc2] is set and bits 26:23 of
    [rcc] otherwise.  The write keeps the equation by leaving the global
    alone, together with [rcc] and [rcc2]. *)
Theorem ssys_write_clock_scale_invariant
  (scale0 : Z) (line : bool) (b : stm32_board_info) (es : list event)
  (m0 m m' : machine) (offset value : Z) :
  stm32_sys_init scale0 line b = Ok m0 ->
  run m0 es = Ok m ->
  step m (Write offset value) = Ok m' ->
  system_clock_scale m' = 5 * (spec_divisor_field (dev m') + 1)
  /\ system_clock_scale m' = system_clock_scale m
  /\ rcc (dev m') = rcc (dev m)
  /\ rcc2 (dev m') = rcc2 (dev m).
Proof.
  intros Hinit Hrun Hstep.
  assert (Hm : clock_scale_ok m).
  { eapply run_ok; [ | exact Hrun ]. eapply ssys_reset_ok. exact Hinit. }
  split.
  - apply (step_ok m m' (Write offset value) Hm Hstep).
  - simpl in Hstep. injection Hstep as <-. simpl.
    destruct (ssys_write_rcc (dev m) offset value) as [H1 H2]. auto.
Qed.

(** C9.  Whatever is written to the clock control register (offset 0x00),
    the stored register has the PLL-ready bit set, also when the value
    does not ask for the PLL: the test [rcc_cr | RCC_CR_PLLON] is
    non-zero for every value, [RCC_CR_PLLON] being a non-zero mask. *)
Theorem ssys_write_cr_always_pll_ready (s : ssys_state) (value : Z) :
  RCC_CR_PLLON <> 0 ->
  0 <= RCC_CR_PLLRDY < 2 ^ 32 ->
  nonzero (Z.lor (u32 value) RCC_CR_PLLON) = true
  /\ rcc_cr (ssys_write s 0x00 value) = Z.lor (u32 value) RCC_CR_PLLRDY
  /\ Z.land (rcc_cr (ssys_write s 0x00 value)) RCC_CR_PLLRDY = RCC_CR_PLLRDY.
Proof.
  intros Hon Hrdy.
  assert (Ht : nonzero (Z.lor (u32 value) RCC_CR_PLLON) = true).
  { apply nonzero_true. intros H. apply Z.lor_eq_0_iff in H. tauto. }
  assert (Hcr : rcc_cr (ssys_write s 0x00 value)
                = Z.lor (u32 value) RCC_CR_PLLRDY).
  { unfold ssys_write. simpl. rewrite Ht. simpl.
    rewrite u32_lor, (u32_small RCC_CR_PLLRDY) by exact Hrdy.
    f_equal. apply u32_small, u32_range. }
  repeat split; [ exact Ht | exact Hcr | ].
  rewrite Hcr. apply land_lor_same.
Qed.

End SsysFacts.

Lemma ssys_write_clock_scale_invariant_witness :
  exists m',
    @Ssys.run stm32f2xx_reference Ssys.lm3s811evb_sys
      [Ssys.Write 0x00 0; Ssys.Load Ssys.rcc2_snapshot;
       Ssys.Write 0x60 0x07c00000; Ssys.Write 0x08 3] = Ok m'
    /\ Ssys.system_clock_scale m'
       = 5 * (Ssys.spec_divisor_field (Ssys.dev m') + 1)
    /\ Ssys.system_clock_scale m' = 20.
Proof.
  eexists. split; [ reflexivity | ]. split; [ | reflexivity ].
  refine (proj1 (@ssys_write_clock_scale_invariant stm32f2xx_reference
                   0 false Ssys.lm3s811evb
                   [Ssys.Write 0x00 0; Ssys.Load Ssys.rcc2_snapshot;
                    Ssys.Write 0x60 0x07c00000]
                   Ssys.lm3s811evb_sys _ _ 0x08 3 _ _ _)); reflexivity.
Defined.

Lemma ssys_write_cr_always_pll_ready_witness :
  Z.land
    (Ssys.rcc_cr
       (@Ssys.ssys_write stm32f2xx_reference
          (Ssys.ssys_zero false Ssys.lm3s811evb) 0x00 0))
    0x02000000 = 0x02000000.
Proof.
  apply (@ssys_write_cr_always_pll_ready stm32f2xx_reference); simpl; lia.
Defined.

(** ** General purpose timer module *)

Arguments u32 : simpl never.
Arguments s64 : simpl never.

Section GptmFacts.
Import Gptm.
Context {C : qemu_clock}.
Variable system_clock_scale : Z.

Lemma bit0_toggled (old new : Z) :
  Z.land old 1 = 0 -> Z.land new 1 = 1 -> Z.land (Z.lxor old new) 1 = 1.
Proof.
  intros Ho Hn.
  assert (E : Z.land (Z.lxor old new) 1
              = Z.lxor (Z.land old 1) (Z.land new 1)) by Z.bitblast.
  rewrite E, Ho, Hn. reflexivity.
Qed.

Lemma bit0_cleared (x : Z) : Z.land (Z.land x (u32 (Z.lnot 1))) 1 = 0.
Proof.
  rewrite <- Z.land_assoc. change (Z.land (u32 (Z.lnot 1)) 1) with 0.
  apply Z.land_0_r.
Qed.

(** A reload touches the deadline of its channel and nothing else. *)
Lemma gptm_reload_frame (now : Z) (s s' : gptm_state) (n : Z) (reset : bool) :
  gptm_reload system_clock_scale now s n reset = Ok s' ->
  exists t, s' = set_timer (upd n (Some t) (timer s)) (set_tick (upd n t (tick s)) s).
Proof.
  unfold gptm_reload. intros H.
  destruct (config s =? 0); [ | destruct (config s =? 1);
    [ | destruct (sel n (mode s) =? 10) ] ];
    simpl in H; try discriminate; injection H as <-; eexists; reflexivity.
Qed.

Lemma gptm_reload_countdown (now : Z) (s : gptm_state) (n : Z) (reset : bool) :
  config s = 0 ->
  gptm_reload system_clock_scale now s n reset =
  let t := s64 ((if reset then now else sel n (tick s))
                + s64 (combined_load s * system_clock_scale)) in
  Ok (set_timer (upd n (Some t) (timer s)) (set_tick (upd n t (tick s)) s)).
Proof.
  intros H. unfold gptm_reload. rewrite H. reflexivity.
Qed.

Lemma gptm_reload_rtc (now : Z) (s : gptm_state) (n : Z) (reset : bool) :
  config s = 1 ->
  gptm_reload system_clock_scale now s n reset =
  let t := s64 ((if reset then now else sel n (tick s)) + get_ticks_per_sec) in
  Ok (set_timer (upd n (Some t) (timer s)) (set_tick (upd n t (tick s)) s)).
Proof.
  intros H. unfold gptm_reload. rewrite H. reflexivity.
Qed.

(** Enabling channel A in a 32-bit mode. *)
Lemma gptm_write_ctl_enable (now : Z) (s : gptm_state) (ctl : Z) :
  config s < 4 ->
  Z.land (control s) 1 = 0 ->
  Z.land ctl 1 = 1 ->
  gptm_write system_clock_scale now s 0x0c ctl =
  (s1 <- gptm_reload system_clock_scale now (set_control (u32 ctl) s) 0 true ;;
   Ok (gptm_update_irq s1)).
Proof.
  intros Hc Ho Hn. unfold gptm_write. simpl.
  rewrite (bit0_toggled _ _ Ho Hn), Hn. simpl.
  destruct (gptm_reload _ _ _ _ _) as [s1 | msg] eqn:E; simpl; [ | reflexivity ].
  destruct (gptm_reload_frame _ _ _ _ _ E) as [t ->]. simpl.
  replace (4 <=? config s) with false by (symmetry; apply Z.leb_gt; exact Hc).
  rewrite andb_false_r. reflexivity.
Qed.

(** No write reaches the match prescaler of channel B. *)
Lemma gptm_write_match_prescale_b (now : Z) (s s' : gptm_state) (offset value : Z) :
  gptm_write system_clock_scale now s offset value = Ok s' ->
  sel 1 (match_prescale s') = sel 1 (match_prescale s).
Proof.
  unfold gptm_write. intros H.
  repeat match type of H with
         | context [if ?o =? ?c then _ else _] =>
             is_var o; destruct (o =? c)
         end;
    repeat (simpl in H;
            match type of H with
            | context [gptm_reload ?a ?b ?c ?d ?e] =>
                let E := fresh "E" in
                destruct (gptm_reload a b c d e) eqn:E;
                [ apply gptm_reload_frame in E; destruct E as [? ->] | ]
            | context [if ?b then _ else _] => destruct b
            end);
    simpl in H; try discriminate; injection H as <-; reflexivity.
Qed.

(** C10.  A write to the timer B match prescale register (offset 0x44)
    lands in [match_prescale[0]], the slot of channel A, and leaves
    [match_prescale[1]] as it was; and since no other offset stores there
    either, no register write changes the match prescaler of channel B. *)
Theorem gptm_write_tbpmr_hits_channel_a (now : Z) (s : gptm_state) (value : Z) :
  (exists s',
      gptm_write system_clock_scale now s 0x44 value = Ok s'
      /\ sel 0 (match_prescale s') = u32 value
      /\ sel 1 (match_prescale s') = sel 1 (match_prescale s))
  /\ (forall offset v s',
         gptm_write system_clock_scale now s offset v = Ok s' ->
         sel 1 (match_prescale s') = sel 1 (match_prescale s)).
Proof.
  split.
  - eexists. split; [ reflexivity | ]. split; reflexivity.
  - intros offset v s'. apply gptm_write_match_prescale_b.
Qed.

(** C2, amended.  In 32-bit countdown mode ([config = 0]), once the load
    value has been written through offset 0x28 and control bit 0 goes from
    0 to 1 while the clock reads [now], channel A is pending at exactly
    [now + combinedLoad * system_clock_scale], where [combinedLoad] is the
    written value as a 32-bit number: the callback does not run before
    that instant and runs when the clock reaches it.  (The sum is taken to
    fit [int64_t], the scale to be an [int].) *)
Theorem gptm_first_fire_countdown (now : Z) (s : gptm_state) (value ctl : Z) :
  config s = 0 ->
  Z.land (control s) 1 = 0 ->
  Z.land ctl 1 = 1 ->
  - 2 ^ 31 <= system_clock_scale < 2 ^ 31 ->
  - 2 ^ 63 <= now + u32 value * system_clock_scale < 2 ^ 63 ->
  exists s',
    load_then_enable system_clock_scale now s value ctl = Ok s'
    /\ combined_load s' = u32 value
    /\ sel 0 (timer s') = Some (now + combined_load s' * system_clock_scale)
    /\ (forall t, t < now + combined_load s' * system_clock_scale ->
                  qemu_run_timer system_clock_scale t s' 0 = Ok s')
    /\ fire system_clock_scale s' 0 =
       gptm_tick system_clock_scale (now + combined_load s' * system_clock_scale)
         (set_timer (upd 0 None (timer s')) s') 0.
Proof.
  intros Hc Ho Hn Hscale Hfit.
  unfold load_then_enable.
  assert (E1 : gptm_write system_clock_scale now s 0x28 value =
               Ok (gptm_update_irq
                     (set_load (Z.land value 0xffff, u32 (Z.shiftr value 16)) s))).
  { unfold gptm_write. simpl. rewrite Hc. reflexivity. }
  rewrite E1. simpl rbind.
  rewrite gptm_write_ctl_enable; try assumption; [ | simpl; lia ].
  rewrite gptm_reload_countdown by (simpl; exact Hc).
  assert (El : combined_load
                 (set_control (u32 ctl)
                    (gptm_update_irq
                       (set_load (Z.land value 65535, u32 (Z.shiftr value 16)) s)))
               = u32 value).
  { unfold combined_load. simpl. apply u32_halves. }
  rewrite El.
  pose proof (u32_range value) as Hv.
  assert (Hp : s64 (u32 value * system_clock_scale)
               = u32 value * system_clock_scale) by (apply s64_small; nia).
  rewrite Hp, (s64_small _ Hfit).
  simpl. eexists. split; [ reflexivity | ].
  unfold fire, qemu_run_timer, combined_load, sel, upd. simpl.
  rewrite u32_halves.
  split; [ reflexivity | ]. split; [ reflexivity | ]. split.
  - intros t Ht.
    replace (now + u32 value * system_clock_scale <=? t) with false
      by (symmetry; apply Z.leb_gt; exact Ht).
    reflexivity.
  - rewrite Z.leb_refl. reflexivity.
Qed.

(** C4.  A one-shot countdown ([config = 0], bit 0 of [mode[0]] set) whose
    channel A is pending fires once: the fire raises the time-out status,
    clears control bit 0, reloads nothing and leaves channel A off the
    schedule, so that the callback cannot run again at any later time; a
    guest write raising control bit 0 again is what schedules the next
    deadline. *)
Theorem gptm_one_shot_fires_once (s : gptm_state) (deadline : Z) :
  config s = 0 ->
  Z.land (sel 0 (mode s)) 1 <> 0 ->
  sel 0 (timer s) = Some deadline ->
  exists s',
    fire system_clock_scale s 0 = Ok s'
    /\ state s' = Z.lor (state s) 1
    /\ control s' = Z.land (control s) (u32 (Z.lnot 1))
    /\ Z.land (control s') 1 = 0
    /\ tick s' = tick s
    /\ sel 0 (timer s') = None
    /\ (forall t, qemu_run_timer system_clock_scale t s' 0 = Ok s')
    /\ (forall k, fires system_clock_scale k s' = Ok s')
    /\ (forall now ctl,
           Z.land ctl 1 = 1 ->
           exists s'',
             gptm_write system_clock_scale now s' 0x0c ctl = Ok s''
             /\ sel 0 (timer s'') =
                Some (s64 (now + s64 (combined_load s * system_clock_scale)))).
Proof.
  intros Hc Hm Hd.
  apply nonzero_true in Hm.
  unfold fire, qemu_run_timer. rewrite Hd, Z.leb_refl.
  unfold gptm_tick. simpl. rewrite Hc. simpl.
  destruct (nonzero (Z.land (control s) 32)); simpl; rewrite Hm; simpl;
    (eexists; split; [ reflexivity | ]); simpl;
    (split; [ reflexivity | ]); (split; [ reflexivity | ]);
    (split; [ apply bit0_cleared | ]); (split; [ reflexivity | ]);
    (split; [ reflexivity | ]).
  all: split; [ intros t; reflexivity | ].
  all: split;
    [ intros k; induction k as [ | k IH]; [ reflexivity | ];
      simpl; rewrite IH; reflexivity | ].
  all: intros now ctl Hn.
  all: rewrite gptm_write_ctl_enable;
    [ | simpl; lia | simpl; apply bit0_cleared | exact Hn ].
  all: rewrite gptm_reload_countdown by (simpl; exact Hc).
  all: simpl; eexists; split; reflexivity.
Qed.

Lemma mod_succ (a n : Z) :
  0 < n -> (a + 1) mod n = if a mod n <? n - 1 then a mod n + 1 else 0.
Proof.
  intros Hn. pose proof (Z.mod_pos_bound a n Hn) as Hb.
  pose proof (Z.div_mod a n ltac:(lia)) as Hd.
  destruct (Z.ltb_spec (a mod n) (n - 1)) as [Hlt | Hge]; symmetry.
  - apply (Z.mod_unique _ _ (a / n)); lia.
  - apply (Z.mod_unique _ _ (a / n + 1)); lia.
Qed.

(** One fire in RTC mode, from a state whose channel A is pending. *)
Lemma fire_rtc (s : gptm_state) (deadline : Z) :
  config s = 1 ->
  sel 0 (timer s) = Some deadline ->
  0 <= rtc s < 2 ^ 32 ->
  0 <= combined_match s < 2 ^ 32 ->
  exists s',
    fire system_clock_scale s 0 = Ok s'
    /\ config s' = 1
    /\ match_ s' = match_ s
    /\ sel 0 (timer s') = Some (s64 (sel 0 (tick s) + get_ticks_per_sec))
    /\ sel 0 (tick s') = s64 (sel 0 (tick s) + get_ticks_per_sec)
    /\ rtc s' = (if rtc s <? combined_match s then rtc s + 1 else 0)
    /\ state s' = (if rtc s' =? 0 then Z.lor (state s) 8 else state s).
Proof.
  intros Hc Hd Hr HM.
  unfold fire, qemu_run_timer. rewrite Hd, Z.leb_refl.
  unfold gptm_tick. simpl. rewrite Hc. simpl.
  fold (combined_match s).
  set (r1 := u32 (rtc s + 1)).
  assert (Hr1 : (if combined_match s <? r1 then 0 else r1)
                = if rtc s <? combined_match s then rtc s + 1 else 0).
  { subst r1.
    destruct (Z.eq_dec (rtc s) (2 ^ 32 - 1)) as [E | E].
    - rewrite E. change (u32 (2 ^ 32 - 1 + 1)) with 0.
      destruct (Z.ltb_spec (combined_match s) 0); [ lia | ].
      destruct (Z.ltb_spec (2 ^ 32 - 1) (combined_match s)); [ lia | reflexivity ].
    - rewrite u32_small by lia.
      destruct (Z.ltb_spec (combined_match s) (rtc s + 1));
        destruct (Z.ltb_spec (rtc s) (combined_match s)); try reflexivity; lia. }
  destruct (combined_match s <? r1) eqn:Ecmp; simpl;
    [ | destruct (r1 =? 0) eqn:E0; simpl ];
    rewrite gptm_reload_rtc by (simpl; exact Hc); simpl;
    (eexists; split; [ reflexivity | ]); unfold sel, upd; simpl;
    rewrite ?E0; repeat split; try reflexivity; try exact Hc; try exact Hr1.
Qed.

(** What [k] fires make of an RTC whose channel A is pending. *)
Lemma fires_rtc (s0 : gptm_state) (x M : Z) (k : nat) :
  config s0 = 1 ->
  sel 0 (timer s0) = Some (s64 x) ->
  sel 0 (tick s0) = s64 x ->
  combined_match s0 = M ->
  0 <= M < 2 ^ 32 ->
  0 <= rtc s0 < 2 ^ 32 ->
  exists sk,
    fires system_clock_scale k s0 = Ok sk
    /\ config sk = 1
    /\ match_ sk = match_ s0
    /\ sel 0 (timer sk) = Some (s64 (x + Z.of_nat k * get_ticks_per_sec))
    /\ sel 0 (tick sk) = s64 (x + Z.of_nat k * get_ticks_per_sec)
    /\ 0 <= rtc sk < 2 ^ 32
    /\ (k <> 0%nat -> rtc sk <= M)
    /\ (rtc s0 <= M -> rtc sk = (rtc s0 + Z.of_nat k) mod (M + 1)).
Proof.
  intros Hc Ht Hk HM HMr Hr.
  induction k as [ | k IH].
  - exists s0. simpl. rewrite Z.add_0_r.
    repeat split; try assumption; try reflexivity; try lia.
    intros Hle. rewrite Z.mod_small; lia.
  - destruct IH as (sk & Hf & Hck & Hmk & Htk & Hkk & Hrk & _ & Hmod).
    assert (HMk : combined_match sk = M).
    { unfold combined_match. rewrite Hmk. exact HM. }
    destruct (fire_rtc sk _ Hck Htk Hrk)
      as (s' & Hfire & Hc' & Hm' & Ht' & Hk' & Hr' & _).
    { rewrite HMk. exact HMr. }
    rewrite HMk in Hr'.
    assert (Hd : s64 (sel 0 (tick sk) + get_ticks_per_sec)
                 = s64 (x + Z.of_nat (S k) * get_ticks_per_sec)).
    { rewrite Hkk, s64_add_l. f_equal. lia. }
    exists s'. simpl. rewrite Hf. simpl.
    split; [ exact Hfire | ]. split; [ exact Hc' | ].
    split; [ congruence | ]. split; [ congruence | ]. split; [ congruence | ].
    assert (Hb : 0 <= rtc s' <= M).
    { rewrite Hr'. destruct (Z.ltb_spec (rtc sk) M); lia. }
    split; [ lia | ]. split; [ intros _; lia | ].
    intros Hle. rewrite Hr', (Hmod Hle).
    replace (rtc s0 + Z.of_nat (S k)) with (rtc s0 + Z.of_nat k + 1) by lia.
    rewrite mod_succ by lia.
    replace (M + 1 - 1) with M by lia. reflexivity.
Qed.


End GptmFacts.

Lemma gptm_write_tbpmr_hits_channel_a_witness :
  sel 1 (Gptm.match_prescale
           (result_get Gptm.stm32_gptm_init
              (@Gptm.gptm_write vm_clock_ns 80 0 Gptm.stm32_gptm_init 0x44 7)))
  = 0.
Proof.
  exact (proj2 (@gptm_write_tbpmr_hits_channel_a vm_clock_ns 80 0
                  Gptm.stm32_gptm_init 7)
               0x44 7 _ eq_refl).
Defined.

(** C2 as stated fails for [config = 1] and for [config = 2].  With load
    3 and a clock scale of 80, enabling at time 0 schedules the first fire
    of the RTC one second later, and that of a timer configured with 2 and
    mode 0xa at time 0 itself; neither is [0 + 3 * 80]. *)
Lemma gptm_first_fire_rtc_counterexample :
  (Gptm.config Gptm.rtc_configured < 4
   /\ Z.land (Gptm.control Gptm.rtc_configured) 1 = 0
   /\ exists s',
        @Gptm.load_then_enable vm_clock_ns 80 0 Gptm.rtc_configured 3 1 = Ok s'
        /\ Gptm.combined_load s' = 3
        /\ sel 0 (Gptm.timer s') = Some 1000000000
        /\ sel 0 (Gptm.timer s') <> Some (0 + Gptm.combined_load s' * 80))
  /\ (Gptm.config Gptm.pwm_configured < 4
      /\ Z.land (Gptm.control Gptm.pwm_configured) 1 = 0
      /\ exists s',
           @Gptm.load_then_enable vm_clock_ns 80 0 Gptm.pwm_configured 3 1 = Ok s'
           /\ Gptm.combined_load s' = 3
           /\ sel 0 (Gptm.timer s') = Some 0
           /\ sel 0 (Gptm.timer s') <> Some (0 + Gptm.combined_load s' * 80)).
Proof.
  split.
  - split; [ reflexivity | ]. split; [ reflexivity | ].
    eexists. split; [ reflexivity | ]. split; [ reflexivity | ].
    split; [ reflexivity | ]. discriminate.
  - split; [ reflexivity | ]. split; [ reflexivity | ].
    eexists. split; [ reflexivity | ]. split; [ reflexivity | ].
    split; [ reflexivity | ]. discriminate.
Qed.

Lemma gptm_first_fire_countdown_witness :
  exists s',
    @Gptm.load_then_enable vm_clock_ns 80 1000 Gptm.stm32_gptm_init 3 1 = Ok s'
    /\ sel 0 (Gptm.timer s') = Some 1240.
Proof.
  destruct (@gptm_first_fire_countdown vm_clock_ns 80 1000
              Gptm.stm32_gptm_init 3 1)
    as (s' & H1 & H2 & H3 & _);
    [ reflexivity | reflexivity | reflexivity | lia
    | vm_compute; split; [ discriminate | reflexivity ] | ].
  exists s'. split; [ exact H1 | ]. rewrite H3, H2. reflexivity.
Defined.



Lemma gptm_one_shot_fires_once_witness :
  exists s',
    @Gptm.fire vm_clock_ns 80 Gptm.one_shot_pending 0 = Ok s'
    /\ Z.land (Gptm.control s') 1 = 0
    /\ sel 0 (Gptm.timer s') = None.
Proof.
  destruct (@gptm_one_shot_fires_once vm_clock_ns 80 Gptm.one_shot_pending 240)
    as (s' & H1 & _ & _ & H2 & _ & H3 & _);
    [ reflexivity | vm_compute; discriminate | reflexivity | ].
  exists s'. auto.
Defined.

(** ** I2C controller *)

(** Flag arithmetic on a status word: distribute the masks, then let the
    constant parts compute. *)
Ltac flags :=
  repeat match goal with
         | |- context [u32 (Z.lnot ?c)] =>
             let v := eval vm_compute in (u32 (Z.lnot c)) in
             change (u32 (Z.lnot c)) with v
         end;
  rewrite <- ?Z.land_assoc, ?Z.land_lor_distr_l, <- ?Z.land_assoc;
  repeat match goal with
         | |- context [Z.land (Zpos ?a) (Zpos ?b)] =>
             let v := eval vm_compute in (Z.land (Zpos a) (Zpos b)) in
             change (Z.land (Zpos a) (Zpos b)) with v
         end;
  rewrite ?Z.land_0_r, ?Z.lor_0_r, ?Z.lor_0_l, ?lor_land_same;
  try reflexivity; try assumption.

Section I2cFacts.
Import I2c.
Context {i2c_bus : Type} {B : i2c_bus_ops i2c_bus}.

(** The start attempt changes nothing but [mcs]. *)
Lemma mcs_grab_bus_frame (s s1 : stm32_i2c_state) (bus bus1 : i2c_bus) (value : Z) :
  mcs_grab_bus s bus value = (s1, bus1) -> s1 = set_mcs (mcs s1) s.
Proof.
  unfold mcs_grab_bus. intros H.
  destruct (nonzero (Z.land value 2) && _).
  - destruct (i2c_start_transfer _ _ _) as [b failed].
    destruct (nonzero failed); injection H as <- <-; reflexivity.
  - injection H as <- <-. destruct s; reflexivity.
Qed.

Lemma stm32_i2c_write_mcs (s : stm32_i2c_state) (bus : i2c_bus) (value : Z) :
  stm32_i2c_write s bus 0x04 value =
  Ok (stm32_i2c_update (fst (mcs_write s bus value)), snd (mcs_write s bus value)).
Proof. reflexivity. Qed.

Lemma mcs_write_not_held (s s1 : stm32_i2c_state) (bus bus1 : i2c_bus) (value : Z) :
  Z.land (mcr s) 0x10 <> 0 ->
  mcs_grab_bus s bus value = (s1, bus1) ->
  i2c_bus_busy bus1 = 0 \/ Z.land (mcs s1) STELLARIS_I2C_MCS_BUSBSY = 0 ->
  mcs_write s bus value =
  (set_mcs (Z.lor (mcs s1) STELLARIS_I2C_MCS_ERROR) s1, bus1).
Proof.
  intros Hen Hg Hnot. unfold mcs_write.
  apply Z.eqb_neq in Hen. rewrite Hen, Hg.
  replace ((i2c_bus_busy bus1 =? 0)
           || (Z.land (mcs s1) STELLARIS_I2C_MCS_BUSBSY =? 0)) with true;
    [ reflexivity | ].
  symmetry. apply orb_true_iff.
  destruct Hnot as [H | H]; [ left | right ]; apply Z.eqb_eq; exact H.
Qed.

(** C6.  With the master enabled, a write to the control/status register
    (offset 0x04) behaves as follows.  (1) When it asks for a start, the
    controller does not hold the bus and the bus refuses the start
    because another master has it, the arbitration-lost flag is set and
    bus-busy stays clear.  (2) Whenever the bus is not held after the
    start attempt, the error flag is set and nothing else happens: the
    bus is the one the start attempt left, the data register and the raw
    interrupt status are as before, whatever the run bit.  (3) When the
    write asks for start, run and stop at once and the bus grants the
    start, the bus sees one byte sent or received, then the end of the
    transfer; bus-busy and the error flag are clear afterwards and the
    byte-done interrupt is raised. *)
Theorem stm32_i2c_mcs_write_protocol
  (s : stm32_i2c_state) (bus : i2c_bus) (value : Z) :
  Z.land (mcr s) 0x10 <> 0 ->
  (forall bus1 failed,
      Z.land value 2 <> 0 ->
      Z.land (mcs s) STELLARIS_I2C_MCS_BUSBSY = 0 ->
      i2c_start_transfer bus (Z.land (Z.shiftr (msa s) 1) 0xff) (Z.land (msa s) 1)
      = (bus1, failed) ->
      failed <> 0 ->
      exists s',
        stm32_i2c_write s bus 0x04 value = Ok (s', bus1)
        /\ Z.land (mcs s') STELLARIS_I2C_MCS_ARBLST = STELLARIS_I2C_MCS_ARBLST
        /\ Z.land (mcs s') STELLARIS_I2C_MCS_BUSBSY = 0
        /\ Z.land (mcs s') STELLARIS_I2C_MCS_ERROR = STELLARIS_I2C_MCS_ERROR
        /\ mdr s' = mdr s
        /\ mris s' = mris s)
  /\ (forall s1 bus1,
         mcs_grab_bus s bus value = (s1, bus1) ->
         i2c_bus_busy bus1 = 0
         \/ Z.land (mcs s1) STELLARIS_I2C_MCS_BUSBSY = 0 ->
         exists s',
           stm32_i2c_write s bus 0x04 value = Ok (s', bus1)
           /\ mcs s' = Z.lor (mcs s1) STELLARIS_I2C_MCS_ERROR
           /\ Z.land (mcs s') STELLARIS_I2C_MCS_ERROR = STELLARIS_I2C_MCS_ERROR
           /\ mdr s' = mdr s
           /\ mris s' = mris s)
  /\ (forall bus1,
         Z.land value 1 <> 0 ->
         Z.land value 2 <> 0 ->
         Z.land value 4 <> 0 ->
         Z.land (mcs s) STELLARIS_I2C_MCS_BUSBSY = 0 ->
         i2c_start_transfer bus (Z.land (Z.shiftr (msa s) 1) 0xff) (Z.land (msa s) 1)
         = (bus1, 0) ->
         i2c_bus_busy bus1 <> 0 ->
         exists s',
           stm32_i2c_write s bus 0x04 value
           = Ok (s',
                 i2c_end_transfer
                   (if nonzero (Z.land (msa s) 1)
                    then fst (i2c_recv bus1)
                    else fst (i2c_send bus1 (Z.land (mdr s) 0xff))))
           /\ mdr s' = (if nonzero (Z.land (msa s) 1)
                        then Z.land (snd (i2c_recv bus1)) 0xff
                        else mdr s)
           /\ mris s' = Z.lor (mris s) 1
           /\ Z.land (mcs s') STELLARIS_I2C_MCS_BUSBSY = 0
           /\ Z.land (mcs s') STELLARIS_I2C_MCS_ERROR = 0
           /\ Z.land (mcs s') STELLARIS_I2C_MCS_ARBLST = 0).
Proof.
  intros Hen. split; [ | split ].
  - intros bus1 failed Hstart Hfree Hbus Hfail.
    assert (Hg : mcs_grab_bus s bus value
                 = (set_mcs (Z.lor (mcs s) STELLARIS_I2C_MCS_ARBLST) s, bus1)).
    { unfold mcs_grab_bus.
      apply nonzero_true in Hstart. apply nonzero_true in Hfail.
      apply Z.eqb_eq in Hfree. rewrite Hstart, Hfree, Hbus, Hfail. reflexivity. }
    rewrite stm32_i2c_write_mcs, (mcs_write_not_held _ _ _ _ _ Hen Hg).
    + eexists. split; [ reflexivity | ]. simpl.
      unfold STELLARIS_I2C_MCS_ARBLST, STELLARIS_I2C_MCS_BUSBSY,
        STELLARIS_I2C_MCS_ERROR in *.
      repeat split; flags.
    + right. simpl.
      unfold STELLARIS_I2C_MCS_ARBLST, STELLARIS_I2C_MCS_BUSBSY in *. flags.
  - intros s1 bus1 Hg Hnot.
    rewrite stm32_i2c_write_mcs, (mcs_write_not_held _ _ _ _ _ Hen Hg Hnot).
    eexists. split; [ reflexivity | ]. simpl.
    rewrite (mcs_grab_bus_frame _ _ _ _ _ Hg). simpl.
    repeat split. apply land_lor_same.
  - intros bus1 Hrun Hstart Hstop Hfree Hbus Hbusy.
    rewrite stm32_i2c_write_mcs. unfold mcs_write, mcs_grab_bus.
    apply nonzero_true in Hstart, Hrun, Hstop.
    pose proof Hfree as Hfree'. apply Z.eqb_eq in Hfree'.
    apply Z.eqb_neq in Hen, Hbusy.
    rewrite Hen, Hstart, Hfree', Hbus. simpl. rewrite Hbusy. simpl.
    replace (Z.land
               (Z.lor (Z.land (mcs s) (u32 (Z.lnot STELLARIS_I2C_MCS_ARBLST)))
                  STELLARIS_I2C_MCS_BUSBSY) STELLARIS_I2C_MCS_BUSBSY =? 0)
      with false
      by (symmetry; apply Z.eqb_neq; rewrite land_lor_same; discriminate).
    unfold mcs_transfer. simpl. rewrite Hrun, Hstop.
    unfold STELLARIS_I2C_MCS_ARBLST, STELLARIS_I2C_MCS_BUSBSY,
      STELLARIS_I2C_MCS_ERROR in *.
    destruct (nonzero (Z.land (msa s) 1)).
    + destruct (i2c_recv bus1) as [b byte]. simpl.
      eexists. split; [ reflexivity | ]. simpl. repeat split; flags.
    + simpl. eexists. split; [ reflexivity | ]. simpl. repeat split; flags.
Qed.

End I2cFacts.

Lemma stm32_i2c_mcs_write_protocol_witness :
  (exists s',
      @I2c.stm32_i2c_write I2c.wire I2c.wire_ops I2c.enabled_master
        I2c.idle_wire 0x04 7
      = Ok (s', I2c.Build_wire I2c.Nobody [0xab] [])
      /\ Z.land (I2c.mcs s') I2c.STELLARIS_I2C_MCS_BUSBSY = 0)
  /\ (exists s',
         @I2c.stm32_i2c_write I2c.wire I2c.wire_ops I2c.enabled_master
           I2c.contended_wire 0x04 3
         = Ok (s', I2c.contended_wire)
         /\ Z.land (I2c.mcs s') I2c.STELLARIS_I2C_MCS_ARBLST
            = I2c.STELLARIS_I2C_MCS_ARBLST
         /\ Z.land (I2c.mcs s') I2c.STELLARIS_I2C_MCS_BUSBSY = 0).
Proof.
  split.
  - destruct (@stm32_i2c_mcs_write_protocol I2c.wire I2c.wire_ops
                I2c.enabled_master I2c.idle_wire 7)
      as (_ & _ & H); [ vm_compute; discriminate | ].
    destruct (H (I2c.Build_wire I2c.ThisMaster [] []))
      as (s' & H1 & _ & _ & H2 & _);
      [ vm_compute; discriminate | vm_compute; discriminate
      | vm_compute; discriminate | reflexivity | reflexivity
      | vm_compute; discriminate | ].
    exists s'. split; [ exact H1 | exact H2 ].
  - destruct (@stm32_i2c_mcs_write_protocol I2c.wire I2c.wire_ops
                I2c.enabled_master I2c.contended_wire 3)
      as (H & _); [ vm_compute; discriminate | ].
    destruct (H I2c.contended_wire 1)
      as (s' & H1 & H2 & H3 & _);
      [ vm_compute; discriminate | reflexivity | reflexivity | discriminate | ].
    exists s'. split; [ exact H1 | ]. split; [ exact H2 | exact H3 ].
Defined.

(** ** Analogue to digital converter *)

Lemma aget_aset_eq {A : Type} (d : A) (l : list A) (i : Z) (v : A) :
  (Z.to_nat i < length l)%nat -> aget d (aset l i v) i = v.
Proof.
  intros H. unfold aget, aset. rewrite list_lookup_insert_eq by exact H.
  reflexivity.
Qed.

Lemma aget_aset_ne {A : Type} (d : A) (l : list A) (i j : Z) (v : A) :
  0 <= i -> 0 <= j -> i <> j -> aget d (aset l i v) j = aget d l j.
Proof.
  intros Hi Hj Hne. unfold aget, aset.
  rewrite list_lookup_insert_ne by lia. reflexivity.
Qed.

Lemma length_aset {A : Type} (l : list A) (i : Z) (v : A) :
  length (aset l i v) = length l.
Proof. apply length_insert. Qed.

Lemma bit_raised (x n : Z) :
  0 <= n < 32 -> Z.testbit (u32 (Z.lor x (Z.shiftl 1 n))) n = true.
Proof.
  intros Hn. unfold u32.
  rewrite Z.testbit_mod_pow2, Z.lor_spec, Z.shiftl_spec by lia.
  replace (n - n) with 0 by lia. simpl. rewrite orb_true_r.
  destruct (Z.ltb_spec n 32); [ reflexivity | lia ].
Qed.

(** The masks of the FIFO state word as runs of ones, for bit-wise
    reasoning. *)
Ltac fifo_masks :=
  unfold u32, Adc.STELLARIS_ADC_FIFO_EMPTY, Adc.STELLARIS_ADC_FIFO_FULL;
  change 0x100 with (Z.shiftl (Z.ones 1) 8);
  change 0x1000 with (Z.shiftl (Z.ones 1) 12);
  change 0xf0 with (Z.shiftl (Z.ones 4) 4);
  change 0xf with (Z.ones 4).

Section AdcFacts.
Import Adc.

Lemma land_0xf_mod (x : Z) : Z.land x 0xf = x mod 16.
Proof. change 0xf with (Z.ones 4). rewrite Z.land_ones by lia. reflexivity. Qed.

Lemma fifo_head_range (f : adc_fifo) : 0 <= fifo_head f < 16.
Proof.
  unfold fifo_head. rewrite land_0xf_mod. apply Z.mod_pos_bound. lia.
Qed.

Lemma fifo_tail_range (f : adc_fifo) : 0 <= fifo_tail f < 16.
Proof.
  unfold fifo_tail. rewrite land_0xf_mod. apply Z.mod_pos_bound. lia.
Qed.

(** A write to a full FIFO only raises the overflow bit. *)
Lemma fifo_write_full (s : stm32_adc_state) (n v : Z) :
  Z.land (state (fifo_at s n)) STELLARIS_ADC_FIFO_FULL <> 0 ->
  stm32_adc_fifo_write s n v
  = set_ostat (u32 (Z.lor (ostat s) (Z.shiftl 1 n))) s.
Proof.
  intros H. apply nonzero_true in H. unfold stm32_adc_fifo_write.
  fold (fifo_at s n). rewrite H. reflexivity.
Qed.

(** A write to a FIFO with room stores at the head and moves it on. *)
Lemma fifo_write_room (s : stm32_adc_state) (n v : Z) :
  (Z.to_nat n < length (fifo s))%nat ->
  Z.land (state (fifo_at s n)) STELLARIS_ADC_FIFO_FULL = 0 ->
  let s' := stm32_adc_fifo_write s n v in
  ostat s' = ostat s
  /\ length (fifo s') = length (fifo s)
  /\ fifo_tail (fifo_at s' n) = fifo_tail (fifo_at s n)
  /\ fifo_head (fifo_at s' n) = (fifo_head (fifo_at s n) + 1) mod 16
  /\ Z.land (state (fifo_at s' n)) STELLARIS_ADC_FIFO_FULL
     = (if fifo_tail (fifo_at s n) =? (fifo_head (fifo_at s n) + 1) mod 16
        then STELLARIS_ADC_FIFO_FULL else 0)
  /\ data (fifo_at s' n)
     = aset (data (fifo_at s n)) (fifo_head (fifo_at s n)) v.
Proof.
  intros Hn Hfull s'. subst s'. unfold stm32_adc_fifo_write.
  fold (fifo_at s n). apply nonzero_false in Hfull. rewrite Hfull.
  apply nonzero_false in Hfull.
  set (f := fifo_at s n) in *.
  set (x := Z.land (Z.shiftr (state f) 4) 0xf + 1).
  set (st2 := Z.lor _ (Z.shiftl (Z.land x 0xf) 4)).
  assert (Ht : Z.land st2 0xf = Z.land (state f) 0xf).
  { subst st2. fifo_masks. Z.bitblast. }
  assert (Hh : Z.land (Z.shiftr st2 4) 0xf = Z.land x 0xf).
  { subst st2. fifo_masks. Z.bitblast. }
  assert (Hf : Z.land st2 STELLARIS_ADC_FIFO_FULL = 0).
  { rewrite <- Hfull. subst st2. fifo_masks. Z.bitblast. }
  assert (Ht' : Z.land (Z.lor st2 STELLARIS_ADC_FIFO_FULL) 0xf
                = Z.land (state f) 0xf).
  { rewrite <- Ht. fifo_masks. Z.bitblast. }
  assert (Hh' : Z.land (Z.shiftr (Z.lor st2 STELLARIS_ADC_FIFO_FULL) 4) 0xf
                = Z.land x 0xf).
  { rewrite <- Hh. fifo_masks. Z.bitblast. }
  unfold fifo_at, fifo_tail, fifo_head. simpl.
  rewrite !aget_aset_eq by exact Hn. simpl. fold (fifo_at s n). fold f.
  rewrite length_aset, Ht.
  rewrite <- !(land_0xf_mod (Z.land (Z.shiftr (state f) 4) 0xf + 1)).
  fold x.
  destruct (Z.land (state f) 15 =? Z.land x 15).
  - repeat split; try assumption. apply land_lor_same.
  - repeat split; assumption.
Qed.

Lemma mod16_shift (h i : Z) :
  ((h + 1) mod 16 + i) mod 16 = (h + (1 + i)) mod 16.
Proof. rewrite Z.add_mod_idemp_l by lia. f_equal. lia. Qed.

(** Samples written one after the other while the head does not come
    round to the tail: they sit in consecutive slots from the old head,
    the other slots are untouched, and the FIFO is full at the end
    exactly when the head has reached the tail. *)
Lemma fifo_writes_fill (n : Z) (vs : list Z) : forall s : stm32_adc_state,
  (Z.to_nat n < length (fifo s))%nat ->
  Z.land (state (fifo_at s n)) STELLARIS_ADC_FIFO_FULL = 0 ->
  length (data (fifo_at s n)) = 16%nat ->
  (length vs <= 16)%nat ->
  (forall i, 1 <= i < Z.of_nat (length vs) ->
             (fifo_head (fifo_at s n) + i) mod 16 <> fifo_tail (fifo_at s n)) ->
  let h := fifo_head (fifo_at s n) in
  let s' := fifo_writes s n vs in
  ostat s' = ostat s
  /\ length (fifo s') = length (fifo s)
  /\ length (data (fifo_at s' n)) = 16%nat
  /\ fifo_tail (fifo_at s' n) = fifo_tail (fifo_at s n)
  /\ fifo_head (fifo_at s' n) = (h + Z.of_nat (length vs)) mod 16
  /\ (vs <> [] ->
      Z.land (state (fifo_at s' n)) STELLARIS_ADC_FIFO_FULL
      = if fifo_tail (fifo_at s n) =? (h + Z.of_nat (length vs)) mod 16
        then STELLARIS_ADC_FIFO_FULL else 0)
  /\ (forall (i : nat) (v : Z),
         vs !! i = Some v ->
         aget 0 (data (fifo_at s' n)) ((h + Z.of_nat i) mod 16) = v)
  /\ (forall j,
         0 <= j < 16 ->
         (forall i, 0 <= i < Z.of_nat (length vs) -> j <> (h + i) mod 16) ->
         aget 0 (data (fifo_at s' n)) j = aget 0 (data (fifo_at s n)) j).
Proof.
  induction vs as [ | v vs IH]; intros s Hn Hfull Hlen Hvs Hwrap h s'.
  - subst s' h. simpl. pose proof (fifo_head_range (fifo_at s n)) as Hh.
    rewrite Z.add_0_r, Z.mod_small by lia.
    repeat split; try reflexivity; try assumption.
    + intros H. contradiction.
    + intros i v H. discriminate H.
  - pose proof (fifo_head_range (fifo_at s n)) as Hh. fold h in Hh.
    destruct (fifo_write_room s n v Hn Hfull)
      as (Ho1 & Hl1 & Ht1 & Hh1 & Hf1 & Hd1).
    set (s1 := stm32_adc_fifo_write s n v) in *.
    assert (Hs' : s' = fifo_writes s1 n vs) by reflexivity.
    fold h in Hh1, Hf1, Hd1.
    assert (Hdl : length (data (fifo_at s1 n)) = 16%nat).
    { rewrite Hd1, length_aset. exact Hlen. }
    destruct vs as [ | v' vs'].
    + rewrite Hs'. simpl. change (Z.of_nat 1) with 1.
      repeat split; try assumption; try congruence.
      * intros [ | i] w H; simpl in H; [ | discriminate H ].
        injection H as <-. simpl. rewrite Z.add_0_r, Z.mod_small by lia.
        rewrite Hd1. apply aget_aset_eq. lia.
      * intros j Hj Hfree. rewrite Hd1. apply aget_aset_ne; try lia.
        specialize (Hfree 0 ltac:(simpl; lia)).
        rewrite Z.add_0_r, Z.mod_small in Hfree by lia. congruence.
    + assert (Hfull1 : Z.land (state (fifo_at s1 n)) STELLARIS_ADC_FIFO_FULL = 0).
      { rewrite Hf1.
        destruct (Z.eqb_spec (fifo_tail (fifo_at s n)) ((h + 1) mod 16)) as [E | E];
          [ | reflexivity ].
        exfalso. apply (Hwrap 1); [ simpl; lia | ]. symmetry. exact E. }
      destruct (IH s1) as (Ho & Hl & Hdl' & Ht & Hhd & Hf & Hdata & Hrest).
      * rewrite Hl1. exact Hn.
      * exact Hfull1.
      * exact Hdl.
      * simpl in *. lia.
      * intros i Hi. rewrite Hh1, Ht1, mod16_shift.
        apply Hwrap. simpl length in *. lia.
      * fold s' in Ho, Hl, Hdl', Ht, Hhd, Hf, Hdata, Hrest.
        rewrite <- Hs' in *.
        assert (Hshift : forall i,
                   (fifo_head (fifo_at s1 n) + i) mod 16 = (h + (1 + i)) mod 16).
        { intros i. rewrite Hh1. apply mod16_shift. }
        rewrite Hshift in Hhd, Hf.
        replace (1 + Z.of_nat (length (v' :: vs')))
          with (Z.of_nat (length (v :: v' :: vs'))) in Hhd, Hf
          by (simpl length; lia).
        repeat split; try congruence.
        -- intros _. rewrite <- Ht1. apply Hf. discriminate.
        -- intros [ | i] w H; simpl in H.
           ++ injection H as <-. simpl. rewrite Z.add_0_r, Z.mod_small by lia.
              rewrite Hrest; [ rewrite Hd1; apply aget_aset_eq; lia | lia | ].
              intros i Hi. rewrite Hshift. simpl length in *.
              intros E. clear - E Hh Hi Hvs. Z.div_mod_to_equations. lia.
           ++ specialize (Hdata i w H). rewrite Hshift in Hdata.
              replace (h + Z.of_nat (S i)) with (h + (1 + Z.of_nat i)) by lia.
              exact Hdata.
        -- intros j Hj Hfree. rewrite Hrest; [ | exact Hj | ].
           ++ rewrite Hd1. apply aget_aset_ne; try lia.
              specialize (Hfree 0 ltac:(simpl; lia)).
              rewrite Z.add_0_r, Z.mod_small in Hfree by lia. congruence.
           ++ intros i Hi. rewrite Hshift. apply Hfree. simpl length in *. lia.
Qed.

(** The part of the FIFO behaviour that holds (see C8 below).  For
    every sequencer [n]: when 17 samples are written to its
    FIFO while it holds nothing (head equal to tail, not full), the first
    16 are stored in consecutive slots from the tail with no overflow
    reported, and the 17th write only raises bit [n] of the overflow
    status: the slots and the state word with head and tail are those
    the 16th write left.  A read while the empty flag is set only raises
    bit [n] of the underflow status and returns what the slot at the tail
    holds: the state word and the slots are unchanged. *)
Theorem stm32_adc_fifo_overflow_underflow (s : stm32_adc_state) (n : Z) :
  0 <= n < 4 ->
  length (fifo s) = 4%nat ->
  (forall (vs : list Z) (v17 : Z),
      fifo_head (fifo_at s n) = fifo_tail (fifo_at s n) ->
      Z.land (state (fifo_at s n)) STELLARIS_ADC_FIFO_FULL = 0 ->
      length (data (fifo_at s n)) = 16%nat ->
      length vs = 16%nat ->
      let s16 := fifo_writes s n vs in
      let s17 := stm32_adc_fifo_write s16 n v17 in
      (forall (i : nat) (v : Z),
          vs !! i = Some v ->
          aget 0 (data (fifo_at s16 n))
               ((fifo_tail (fifo_at s n) + Z.of_nat i) mod 16) = v)
      /\ ostat s16 = ostat s
      /\ fifo_writes s n (vs ++ [v17]) = s17
      /\ s17 = set_ostat (u32 (Z.lor (ostat s16) (Z.shiftl 1 n))) s16
      /\ Z.testbit (ostat s17) n = true
      /\ fifo s17 = fifo s16)
  /\ (Z.land (state (fifo_at s n)) STELLARIS_ADC_FIFO_EMPTY <> 0 ->
      stm32_adc_fifo_read s n
      = (set_ustat (u32 (Z.lor (ustat s) (Z.shiftl 1 n))) s,
         aget 0 (data (fifo_at s n)) (fifo_tail (fifo_at s n)))
      /\ Z.testbit (ustat (fst (stm32_adc_fifo_read s n))) n = true
      /\ fifo (fst (stm32_adc_fifo_read s n)) = fifo s).
Proof.
  intros Hn Hlen. split.
  - intros vs v17 Hempty Hfull Hdata Hvs s16 s17.
    pose proof (fifo_tail_range (fifo_at s n)) as Ht.
    destruct (fifo_writes_fill n vs s) as (Ho & _ & _ & _ & _ & Hf & Hd & _);
      try assumption; try lia.
    { intros i Hi. rewrite Hempty, Hvs in *.
      clear - Hi Ht. intros E. Z.div_mod_to_equations. lia. }
    fold s16 in Ho, Hf, Hd.
    assert (Hfull16 : Z.land (state (fifo_at s16 n)) STELLARIS_ADC_FIFO_FULL <> 0).
    { rewrite Hf by (intros ->; discriminate Hvs).
      rewrite Hempty, Hvs.
      replace ((fifo_tail (fifo_at s n) + Z.of_nat 16) mod 16)
        with (fifo_tail (fifo_at s n))
        by (clear - Ht; Z.div_mod_to_equations; lia).
      rewrite Z.eqb_refl. discriminate. }
    assert (E17 : s17 = set_ostat (u32 (Z.lor (ostat s16) (Z.shiftl 1 n))) s16)
      by (apply fifo_write_full; exact Hfull16).
    split; [ intros i v Hi; rewrite <- Hempty; apply Hd; exact Hi | ].
    split; [ exact Ho | ].
    split; [ unfold fifo_writes; rewrite fold_left_app; reflexivity | ].
    split; [ exact E17 | ].
    rewrite E17. simpl. split; [ apply bit_raised; lia | reflexivity ].
  - intros Hflag. apply nonzero_true in Hflag.
    unfold stm32_adc_fifo_read. fold (fifo_at s n). rewrite Hflag. simpl.
    fold (fifo_at s n).
    split; [ reflexivity | ]. split; [ apply bit_raised; lia | reflexivity ].
Qed.

(** C8 at the failing input.  Sequencer 0 alone is enabled with the
    timer as its trigger; sixteen trigger pulses fill its FIFO and the
    guest reads the sixteen samples back at offset 0x48, with neither
    overflow nor underflow.  The FIFO now holds nothing (head equal to
    tail, not full), but the empty flag is clear: the last read compared
    the tail plus one, 16, with the head, 0.  A further read reports no
    underflow, returns the first sample again and advances the tail. *)
Theorem stm32_adc_fifo_read_drained_misses_underflow :
  let f := fifo_at drained 0 in
  snd (fifo_reads sixteen_triggers 0 16) = data (fifo_at sixteen_triggers 0)
  /\ ostat drained = 0
  /\ ustat drained = 0
  /\ fifo_head f = fifo_tail f
  /\ Z.land (state f) STELLARIS_ADC_FIFO_FULL = 0
  /\ Z.land (state f) STELLARIS_ADC_FIFO_EMPTY = 0
  /\ exists s' v,
       stm32_adc_read drained 0x48 = Ok (s', v)
       /\ ustat s' = 0
       /\ v = aget 0 (data f) 0
       /\ fifo_tail f = 0
       /\ fifo_tail (fifo_at s' 0) = 1.
Proof.
  intros f. subst f.
  do 6 (split; [ vm_compute; reflexivity | ]).
  exists (fst (stm32_adc_fifo_read drained 0)),
    (snd (stm32_adc_fifo_read drained 0)).
  split; [ vm_compute; reflexivity | ].
  split; [ vm_compute; reflexivity | ].
  split; [ vm_compute; reflexivity | ].
  split; vm_compute; reflexivity.
Qed.

(** C7 at the failing input.  Sequencers 0 and 1 are active and the
    4-bit trigger source field of each in [emux] is 5 (timer).  The
    trigger samples sequencer 1 alone: the test on sequencer 0 reads the
    eight bits [emux & 0xff], which hold the field of sequencer 1 as
    well, finds 0x55 and skips the sequencer, whose FIFO and raw status
    bit are as before; the noise accumulator has advanced once. *)
Theorem stm32_adc_trigger_skips_timer_sequencer :
  Z.testbit (actss two_timer_sequencers) 0 = true
  /\ Z.land (Z.shiftr (emux two_timer_sequencers) (0 * 4)) 0xf
     = STELLARIS_ADC_EM_TIMER
  /\ Z.land (Z.shiftr (emux two_timer_sequencers) (0 * 4)) 0xff = 0x55
  /\ fifo_at (stm32_adc_trigger two_timer_sequencers 0 1) 0
     = fifo_at two_timer_sequencers 0
  /\ Z.testbit (ris (stm32_adc_trigger two_timer_sequencers 0 1)) 0 = false
  /\ Z.testbit (ris (stm32_adc_trigger two_timer_sequencers 0 1)) 1 = true
  /\ noise (stm32_adc_trigger two_timer_sequencers 0 1)
     = u32 (noise two_timer_sequencers * 314159 + 1).
Proof. vm_compute. repeat split. Qed.

Lemma land_bit_split (a b c : Z) :
  Z.land (Z.land a b) c = Z.land (Z.land a c) (Z.land b c).
Proof. Z.bitblast. Qed.

Lemma stm32_adc_fifo_write_irq (s : stm32_adc_state) (n v : Z) :
  irq (stm32_adc_fifo_write s n v) = irq s
  /\ ris (stm32_adc_fifo_write s n v) = ris s
  /\ im (stm32_adc_fifo_write s n v) = im s.
Proof.
  unfold stm32_adc_fifo_write. destruct (nonzero _); repeat split.
Qed.

(** [stm32_adc_update] drives the four lines from [ris] and [im]. *)
Lemma stm32_adc_update_lines (s : stm32_adc_state) :
  length (irq s) = 4%nat -> lines_ok (stm32_adc_update s).
Proof.
  intros Hl. destruct s as [a r m e o u sp sa f sm sc no lines]. simpl in Hl.
  destruct lines as [ | l0 [ | l1 [ | l2 [ | l3 [ | l4 lines] ] ] ] ];
    try discriminate Hl.
  split; [ reflexivity | ].
  intros n Hn. unfold line_raw, line_mask. simpl.
  rewrite <- land_bit_split.
  assert (Hcases : n = 0 \/ n = 1 \/ n = 2 \/ n = 3) by lia.
  destruct Hcases as [-> | [-> | [-> | ->] ] ]; reflexivity.
Qed.

Lemma lines_ok_frame (s s' : stm32_adc_state) :
  irq s' = irq s -> ris s' = ris s -> im s' = im s ->
  lines_ok s -> lines_ok s'.
Proof.
  intros Hi Hr Hm [Hl H]. unfold lines_ok, line_raw, line_mask in *.
  rewrite Hi, Hr, Hm. split; assumption.
Qed.

Lemma trigger_sequencer_lines (s : stm32_adc_state) (n : Z) :
  lines_ok s -> lines_ok (trigger_sequencer s n).
Proof.
  intros H. unfold trigger_sequencer.
  destruct (Z.land (actss s) (Z.shiftl 1 n) =? 0); [ exact H | ].
  destruct (negb _); [ exact H | ].
  apply stm32_adc_update_lines. simpl.
  destruct (stm32_adc_fifo_write_irq (set_noise (u32 (noise s * 314159 + 1)) s) n
              (512 + Z.land (Z.shiftr (u32 (noise s * 314159 + 1)) 16) 7))
    as (-> & _). simpl. apply H.
Qed.

Lemma stm32_adc_trigger_lines (s : stm32_adc_state) (line level : Z) :
  lines_ok s -> lines_ok (stm32_adc_trigger s line level).
Proof.
  intros H. unfold stm32_adc_trigger, sequencers. simpl.
  repeat apply trigger_sequencer_lines. exact H.
Qed.

Lemma stm32_adc_write_lines (s s' : stm32_adc_state) (offset value : Z) :
  lines_ok s -> stm32_adc_write s offset value = Ok s' -> lines_ok s'.
Proof.
  intros H. unfold stm32_adc_write.
  destruct (_ && _ && (Z.land offset 31 =? 0)).
  { intros E. injection E as <-. revert H. apply lines_ok_frame; reflexivity. }
  destruct (_ && _ && (Z.land offset 31 =? 4)).
  { destruct (negb _); intros E; [ discriminate E | ]. injection E as <-.
    revert H. apply lines_ok_frame; reflexivity. }
  intros E.
  repeat match type of E with
         | context [if ?o =? ?c then _ else _] => destruct (o =? c)
         end;
    simpl in E; try discriminate E; injection E as <-;
    apply stm32_adc_update_lines; apply H.
Qed.

End AdcFacts.

Lemma stm32_adc_fifo_overflow_underflow_witness :
  Z.testbit
    (Adc.ostat (Adc.fifo_writes Adc.stm32_adc_init 2 (Adc.sixteen_samples ++ [116])))
    2 = true
  /\ Adc.fifo (Adc.fifo_writes Adc.stm32_adc_init 2 (Adc.sixteen_samples ++ [116]))
     = Adc.fifo (Adc.fifo_writes Adc.stm32_adc_init 2 Adc.sixteen_samples)
  /\ Adc.ustat (fst (Adc.stm32_adc_fifo_read Adc.stm32_adc_init 2)) = 4.
Proof.
  destruct (stm32_adc_fifo_overflow_underflow Adc.stm32_adc_init 2)
    as [Hw Hr]; [ lia | reflexivity | ].
  destruct (Hw Adc.sixteen_samples 116)
    as (_ & _ & H17 & _ & Hbit & Hfifo);
    [ reflexivity | reflexivity | reflexivity | reflexivity | ].
  destruct Hr as (Hread & _ & _); [ vm_compute; discriminate | ].
  rewrite H17. split; [ exact Hbit | ]. split; [ exact Hfifo | ].
  rewrite Hread. reflexivity.
Defined.

(** ** Interrupt lines *)

(** C5.  Once a register write or a timer callback of a peripheral has
    completed, each of its interrupt output lines is at the level
    [(raw status & mask) != 0] of the state it leaves: the one line of
    the timer module after [gptm_write] and after the fire callback
    [gptm_tick], the one line of the system controller after
    [ssys_write], the one line of the I2C master after [stm32_i2c_write],
    and each of the four lines of the ADC, whose raw status and mask are
    bit [n] of [ris] and of [im] for line [n], after [stm32_adc_write]
    and after the trigger.  The two sequencer registers of the ADC and a
    trigger that samples nothing return without driving the lines: they
    leave status, mask and lines as they found them, consistent since
    [stm32_adc_init]. *)
Theorem irq_lines_follow_masked_status :
  (forall (C : qemu_clock) (scale now : Z) (s s' : Gptm.gptm_state)
          (offset value : Z),
      Gptm.gptm_write scale now s offset value = Ok s' ->
      Gptm.irq s' = nonzero (Z.land (Gptm.state s') (Gptm.mask s')))
  /\ (forall (C : qemu_clock) (scale now : Z) (s s' : Gptm.gptm_state) (n : Z),
         Gptm.gptm_tick scale now s n = Ok s' ->
         Gptm.irq s' = nonzero (Z.land (Gptm.state s') (Gptm.mask s')))
  /\ (forall (D : stm32f2xx_defines) (s : Ssys.ssys_state) (offset value : Z),
         Ssys.irq (Ssys.ssys_write s offset value)
         = nonzero (Z.land (Ssys.int_status (Ssys.ssys_write s offset value))
                           (Ssys.int_mask (Ssys.ssys_write s offset value))))
  /\ (forall (i2c_bus : Type) (B : i2c_bus_ops i2c_bus)
             (s s' : I2c.stm32_i2c_state) (bus bus' : i2c_bus) (offset value : Z),
         I2c.stm32_i2c_write s bus offset value = Ok (s', bus') ->
         I2c.irq s' = nonzero (Z.land (I2c.mris s') (I2c.mimr s')))
  /\ Adc.lines_ok Adc.stm32_adc_init
  /\ (forall (s s' : Adc.stm32_adc_state) (offset value : Z),
         Adc.lines_ok s ->
         Adc.stm32_adc_write s offset value = Ok s' ->
         Adc.lines_ok s')
  /\ (forall (s : Adc.stm32_adc_state) (line level : Z),
         Adc.lines_ok s ->
         Adc.lines_ok (Adc.stm32_adc_trigger s line level)).
Proof.
  split; [ | split; [ | split; [ | split; [ | split; [ | split ] ] ] ] ].
  - intros C scale now s s' offset value H. unfold Gptm.gptm_write in H.
    match type of H with rbind ?c _ = _ => destruct c as [s1 | msg] end;
      simpl in H; [ | discriminate H ].
    injection H as <-. reflexivity.
  - intros C scale now s s' n H. unfold Gptm.gptm_tick in H.
    match type of H with rbind ?c _ = _ => destruct c as [s1 | msg] end;
      simpl in H; [ | discriminate H ].
    injection H as <-. reflexivity.
  - intros D s offset value. reflexivity.
  - intros i2c_bus B s s' bus bus' offset value H.
    unfold I2c.stm32_i2c_write in H.
    match type of H with rbind ?c _ = _ => destruct c as [r | msg] end;
      simpl in H; [ | discriminate H ].
    injection H as <- <-. reflexivity.
  - split; [ reflexivity | ]. intros n Hn.
    assert (Hcases : n = 0 \/ n = 1 \/ n = 2 \/ n = 3) by lia.
    destruct Hcases as [-> | [-> | [-> | ->] ] ]; reflexivity.
  - intros s s' offset value. apply stm32_adc_write_lines.
  - intros s line level. apply stm32_adc_trigger_lines.
Qed.

Lemma irq_lines_follow_masked_status_witness :
  Gptm.irq
    (result_get Gptm.stm32_gptm_init
       (@Gptm.gptm_write vm_clock_ns 80 0
          (Gptm.set_state 1 Gptm.stm32_gptm_init) 0x18 1))
  = true
  /\ Adc.lines_ok
       (result_get Adc.stm32_adc_init
          (Adc.stm32_adc_write
             (Adc.stm32_adc_trigger Adc.two_timer_sequencers 0 1) 0x08 2)).
Proof.
  destruct irq_lines_follow_masked_status
    as (Hg & _ & _ & _ & Hi & Ha & Ht).
  split.
  - refine (eq_trans
              (Hg vm_clock_ns 80 0 (Gptm.set_state 1 Gptm.stm32_gptm_init)
                  _ 0x18 1 _) _); reflexivity.
  - apply (Ha (Adc.stm32_adc_trigger Adc.two_timer_sequencers 0 1) _ 0x08 2);
      [ | reflexivity ].
    apply Ht.
    apply (Ha (Adc.timer_selected) _ 0x00 3); [ | reflexivity ].
    apply (Ha Adc.stm32_adc_init _ 0x14 0x55); [ exact Hi | reflexivity ].
Defined.

(** * Further properties *)

(** ** System controller: what the guest sees *)

Section SsysMore.
Import Ssys.
Context {D : stm32f2xx_defines}.

Lemma ssys_write_frame (s : ssys_state) (offset value : Z) :
  int_status (ssys_write s offset value) = int_status s
  /\ int_mask (ssys_write s offset value) = int_mask s
  /\ board (ssys_write s offset value) = board s.
Proof.
  unfold ssys_write.
  destruct (offset =? 0); [ | destruct (offset =? 8) ];
    try destruct (nonzero _); repeat split.
Qed.

(** Whatever the board, a reset that succeeds leaves [rcc] at its
    default and [rcc2] at one of the two defaults, none of which selects
    [rcc2]. *)
Lemma ssys_reset_defaults (m m' : machine) :
  ssys_reset m = Ok m' ->
  rcc (dev m') = 0x078e3ac0
  /\ (rcc2 (dev m') = 0 \/ rcc2 (dev m') = 0x07802810)
  /\ system_clock_scale m' = 80
  /\ int_status (dev m') = int_status (dev m)
  /\ int_mask (dev m') = int_mask (dev m)
  /\ irq (dev m') = irq (dev m)
  /\ board (dev m') = board (dev m)
  /\ (forall offset, ssys_read (dev m') offset = ssys_read (dev m) offset).
Proof.
  unfold ssys_reset. intros H.
  destruct (ssys_board_class _) as [c | msg]; simpl in H; [ | discriminate ].
  injection H as <-.
  destruct (c =? DID0_CLASS_SANDSTORM); simpl;
    (split; [ reflexivity | ]); (split; [ auto | ]);
    repeat split; reflexivity.
Qed.

Lemma step_quiet (m m' : machine) (e : event) :
  guest_event e = true -> quiet m -> step m e = Ok m' -> quiet m'.
Proof.
  intros Hg (Hrcc & Hrcc2 & Hscale & Hst & Hmk) H.
  destruct e as [offset value | | saved]; simpl in H; [ | | discriminate Hg ].
  - injection H as <-.
    destruct (ssys_write_rcc (dev m) offset value) as [E1 E2].
    destruct (ssys_write_frame (dev m) offset value) as (E3 & E4 & _).
    unfold quiet. cbn [dev system_clock_scale].
    rewrite E1, E2, E3, E4. auto.
  - destruct (ssys_reset_defaults _ _ H)
      as (H1 & H2 & H3 & H4 & H5 & _).
    unfold quiet. rewrite H4, H5. auto.
Qed.

Lemma run_quiet (es : list event) : forall m m' : machine,
  forallb guest_event es = true -> quiet m -> run m es = Ok m' -> quiet m'.
Proof.
  induction es as [ | e es IH]; intros m m' Hg Hq H; simpl in H.
  - injection H as <-. exact Hq.
  - simpl in Hg. apply andb_true_iff in Hg. destruct Hg as [He Hes].
    destruct (step m e) as [m1 | msg] eqn:E; simpl in H; [ | discriminate ].
    apply (IH m1 m' Hes); [ | exact H ]. exact (step_quiet _ _ _ He Hq E).
Qed.

Lemma stm32_sys_init_quiet (scale0 : Z) (line : bool) (b : stm32_board_info)
  (m0 : machine) :
  stm32_sys_init scale0 line b = Ok m0 -> quiet m0 /\ irq (dev m0) = line.
Proof.
  intros H. unfold stm32_sys_init in H.
  destruct (ssys_reset_defaults _ _ H) as (H1 & H2 & H3 & H4 & H5 & H6 & _).
  unfold quiet. simpl in *. auto 10.
Qed.

(** X1.  The clock scale is out of the guest's reach: after
    [stm32_sys_init], however many registers the guest writes and however
    often the controller is reset, [system_clock_scale] is 80 and [rcc]
    holds its reset value.  (Only a restored snapshot brings in other
    clock registers.) *)
Theorem ssys_guest_cannot_change_clock_scale
  (scale0 : Z) (line : bool) (b : stm32_board_info) (es : list event)
  (m0 m : machine) :
  stm32_sys_init scale0 line b = Ok m0 ->
  forallb guest_event es = true ->
  run m0 es = Ok m ->
  system_clock_scale m = 80
  /\ rcc (dev m) = 0x078e3ac0
  /\ ssys_use_rcc2 (dev m) = false.
Proof.
  intros Hinit Hg Hrun.
  destruct (stm32_sys_init_quiet _ _ _ _ Hinit) as [Hq _].
  destruct (run_quiet es m0 m Hg Hq Hrun) as (H1 & H2 & H3 & _).
  split; [ exact H3 | ]. split; [ exact H1 | ].
  unfold ssys_use_rcc2. destruct H2 as [-> | ->]; reflexivity.
Qed.

(** X2.  The system controller never raises its interrupt: after every
    register write that follows [stm32_sys_init], resets and further
    writes in between or not, the output line is low. *)
Theorem ssys_never_interrupts
  (scale0 : Z) (line : bool) (b : stm32_board_info) (es : list event)
  (m0 m m' : machine) (offset value : Z) :
  stm32_sys_init scale0 line b = Ok m0 ->
  forallb guest_event es = true ->
  run m0 es = Ok m ->
  step m (Write offset value) = Ok m' ->
  irq (dev m') = false.
Proof.
  intros Hinit Hg Hrun Hstep.
  destruct (stm32_sys_init_quiet _ _ _ _ Hinit) as [Hq _].
  destruct (run_quiet es m0 m Hg Hq Hrun) as (_ & _ & _ & Hst & Hmk).
  simpl in Hstep. injection Hstep as <-. simpl.
  unfold ssys_write.
  set (s1 := if offset =? 0 then _ else _).
  unfold ssys_update. simpl.
  assert (Hf : int_status s1 = int_status (dev m)
               /\ int_mask s1 = int_mask (dev m)).
  { subst s1. destruct (offset =? 0); [ | destruct (offset =? 8) ];
      try destruct (nonzero _); split; reflexivity. }
  destruct Hf as [-> ->]. rewrite Hst, Hmk. reflexivity.
Qed.

(** X3.  All offsets other than 0x00 and 0x08 share one register: a
    write to any of them is what a read of any of them returns next,
    while the reads of 0x00 and 0x08 are not affected. *)
Theorem ssys_other_registers_alias
  (s : ssys_state) (written read value : Z) :
  written <> 0x00 -> written <> 0x08 ->
  read <> 0x00 -> read <> 0x08 ->
  ssys_read (ssys_write s written value) read = u32 value
  /\ ssys_read (ssys_write s written value) 0x00 = ssys_read s 0x00
  /\ ssys_read (ssys_write s written value) 0x08 = ssys_read s 0x08.
Proof.
  intros Hw0 Hw8 Hr0 Hr8.
  apply Z.eqb_neq in Hw0, Hw8, Hr0, Hr8.
  unfold ssys_read, ssys_write. rewrite Hw0, Hw8, Hr0, Hr8. simpl.
  repeat split.
Qed.

(** X4.  A write to the clock configuration register (offset 0x08) reads
    back with the clock it selects already in use: with the masks
    [RCC_CFGR_SW = 0x3] and [RCC_CFGR_SWS = 0xc], the status field (bits
    3:2) of the value read equals the switch field (bits 1:0) written,
    and every other bit is the bit written. *)
Theorem ssys_cfgr_switch_is_immediate (s : ssys_state) (value : Z) :
  RCC_CFGR_SW = 0x3 ->
  RCC_CFGR_SWS = 0xc ->
  let r := ssys_read (ssys_write s 0x08 value) 0x08 in
  Z.land r 0x3 = Z.land value 0x3
  /\ Z.land (Z.shiftr r 2) 0x3 = Z.land value 0x3
  /\ Z.shiftr r 4 = Z.shiftr (u32 value) 4.
Proof.
  intros Hsw Hsws r. subst r. unfold ssys_read, ssys_write. simpl.
  rewrite Hsw, Hsws. unfold u32.
  change 12 with (Z.shiftl (Z.ones 2) 2). change 3 with (Z.ones 2).
  repeat split; Z.bitblast.
Qed.

(** X5.  A reset is invisible to the guest: every register reads after
    it what it read before. *)
Theorem ssys_reset_keeps_what_is_read (m m' : machine) (offset : Z) :
  ssys_reset m = Ok m' ->
  ssys_read (dev m') offset = ssys_read (dev m) offset.
Proof.
  intros H. destruct (ssys_reset_defaults _ _ H) as (_ & _ & _ & _ & _ & _ & _ & Hr).
  apply Hr.
Qed.

End SsysMore.

Lemma ssys_guest_cannot_change_clock_scale_witness :
  Ssys.system_clock_scale
    (result_get Ssys.lm3s811evb_sys
       (@Ssys.run stm32f2xx_reference Ssys.lm3s811evb_sys
          [Ssys.Write 0x60 0x07c00000; Ssys.Reset; Ssys.Write 0x70 0x80000000]))
  = 80.
Proof.
  refine (proj1 (@ssys_guest_cannot_change_clock_scale stm32f2xx_reference
                   0 false Ssys.lm3s811evb
                   [Ssys.Write 0x60 0x07c00000; Ssys.Reset;
                    Ssys.Write 0x70 0x80000000]
                   Ssys.lm3s811evb_sys _ _ _ _)); vm_compute; reflexivity.
Defined.

Lemma ssys_never_interrupts_witness :
  Ssys.irq
    (@Ssys.ssys_write stm32f2xx_reference (Ssys.dev Ssys.lm3s811evb_sys)
       0x00 0xffffffff) = false.
Proof.
  refine (@ssys_never_interrupts stm32f2xx_reference 0 false Ssys.lm3s811evb
            [] Ssys.lm3s811evb_sys Ssys.lm3s811evb_sys
            (Ssys.Build_machine _ _) 0x00 0xffffffff _ _ _ _); reflexivity.
Defined.

Lemma ssys_other_registers_alias_witness :
  Ssys.ssys_read
    (@Ssys.ssys_write stm32f2xx_reference (Ssys.dev Ssys.lm3s811evb_sys)
       0x60 0x1234) 0x100 = 0x1234.
Proof.
  refine (proj1 (@ssys_other_registers_alias stm32f2xx_reference
                   (Ssys.dev Ssys.lm3s811evb_sys) 0x60 0x100 0x1234 _ _ _ _));
    discriminate.
Defined.

Lemma ssys_cfgr_switch_is_immediate_witness :
  Z.land
    (Z.shiftr
       (Ssys.ssys_read
          (@Ssys.ssys_write stm32f2xx_reference
             (Ssys.dev Ssys.lm3s811evb_sys) 0x08 0x2) 0x08) 2) 0x3 = 0x2.
Proof.
  refine (proj1 (proj2 (@ssys_cfgr_switch_is_immediate stm32f2xx_reference
                          (Ssys.dev Ssys.lm3s811evb_sys) 0x2 _ _)));
    reflexivity.
Defined.

Lemma ssys_reset_keeps_what_is_read_witness :
  Ssys.ssys_read
    (Ssys.dev
       (result_get Ssys.lm3s811evb_sys
          (Ssys.ssys_reset
             (Ssys.Build_machine
                (@Ssys.ssys_write stm32f2xx_reference
                   (Ssys.dev Ssys.lm3s811evb_sys) 0x00 5) 80))))
    0x00
  = Ssys.ssys_read
      (@Ssys.ssys_write stm32f2xx_reference (Ssys.dev Ssys.lm3s811evb_sys)
         0x00 5) 0x00.
Proof.
  refine (@ssys_reset_keeps_what_is_read
            (Ssys.Build_machine
               (@Ssys.ssys_write stm32f2xx_reference
                  (Ssys.dev Ssys.lm3s811evb_sys) 0x00 5) 80)
            _ 0x00 _).
  vm_compute. reflexivity.
Defined.

(** ** General purpose timer module: schedule, registers, interrupt *)

(** All the ways through [gptm_write] that end well. *)
Ltac gptm_write_cases H :=
  unfold Gptm.gptm_write in H;
  repeat match type of H with
         | context [if ?o =? ?c then _ else _] =>
             is_var o; destruct (Z.eqb_spec o c)
         end;
  repeat (simpl in H;
          match type of H with
          | context [Gptm.gptm_reload ?a ?b ?c ?d ?e] =>
              let E := fresh "E" in
              destruct (Gptm.gptm_reload a b c d e) eqn:E;
              [ apply gptm_reload_frame in E; destruct E as [? ->] | ]
          | context [if ?b then _ else _] =>
              let E := fresh "E" in destruct b eqn:E
          end);
  simpl in H; try discriminate H; injection H as <-.

Section GptmMore.
Import Gptm.
Context {C : qemu_clock}.
Variable system_clock_scale : Z.

Lemma sel0_upd1 {A : Type} (v : A) (a : A * A) : sel 0 (upd 1 v a) = sel 0 a.
Proof. reflexivity. Qed.

Lemma sel1_upd0 {A : Type} (v : A) (a : A * A) : sel 1 (upd 0 v a) = sel 1 a.
Proof. reflexivity. Qed.

(** X6.  Disabling cancels: when a write to the control register takes
    bit 0 from 1 to 0, channel A is off the schedule afterwards, its
    last deadline and the RTC counter are kept, and the clock reaching
    the old deadline changes nothing. *)
Theorem gptm_disable_cancels (now : Z) (s s' : gptm_state) (ctl : Z) :
  Z.land (control s) 1 = 1 ->
  Z.land ctl 1 = 0 ->
  gptm_write system_clock_scale now s 0x0c ctl = Ok s' ->
  sel 0 (timer s') = None
  /\ sel 0 (tick s') = sel 0 (tick s)
  /\ rtc s' = rtc s
  /\ (forall t, qemu_run_timer system_clock_scale t s' 0 = Ok s')
  /\ fire system_clock_scale s' 0 = Ok s'.
Proof.
  intros Ho Hn H.
  assert (Hx : nonzero (Z.land (Z.lxor (control s) ctl) 1) = true).
  { assert (E : Z.land (Z.lxor (control s) ctl) 1
                = Z.lxor (Z.land (control s) 1) (Z.land ctl 1)) by Z.bitblast.
    rewrite E, Ho, Hn. reflexivity. }
  unfold gptm_write in H. simpl in H. rewrite Hx, Hn in H. simpl in H.
  assert (Hs' : sel 0 (timer s') = None
                /\ sel 0 (tick s') = sel 0 (tick s) /\ rtc s' = rtc s).
  { destruct (nonzero (Z.land (Z.lxor (control s) ctl) 256) && _).
    - destruct (nonzero (Z.land ctl 256)).
      + destruct (gptm_reload _ _ _ _ _) as [s1 | msg] eqn:E;
          simpl in H; [ | discriminate H ].
        apply gptm_reload_frame in E. destruct E as [t ->].
        injection H as <-. repeat split.
      + simpl in H. injection H as <-. repeat split.
    - simpl in H. injection H as <-. repeat split. }
  destruct Hs' as (Ht & Hk & Hr).
  repeat split; try assumption.
  - intros t. unfold qemu_run_timer. rewrite Ht. reflexivity.
  - unfold fire. rewrite Ht. reflexivity.
Qed.

(** X7.  Configuration is deferred: a register write that ends well
    leaves the schedule of channel A (whether it is pending, and its
    deadline) as it was, unless it is a write to the control register
    that toggles bit 0.  In particular a new load or match value does not
    move a deadline already scheduled. *)
Theorem gptm_write_keeps_schedule (now : Z) (s s' : gptm_state) (offset value : Z) :
  offset <> 0x0c \/ Z.land (Z.lxor (control s) value) 1 = 0 ->
  gptm_write system_clock_scale now s offset value = Ok s' ->
  sel 0 (timer s') = sel 0 (timer s)
  /\ sel 0 (tick s') = sel 0 (tick s).
Proof.
  intros Hnot H.
  destruct (Z.eq_dec offset 0x0c) as [-> | Hoff].
  - destruct Hnot as [Hnot | Hnot]; [ contradiction | ].
    apply nonzero_false in Hnot.
    unfold gptm_write in H. simpl in H. rewrite Hnot in H. simpl in H.
    destruct (nonzero (Z.land (Z.lxor (control s) value) 256) && _).
    + destruct (nonzero (Z.land value 256)).
      * destruct (gptm_reload _ _ _ _ _) as [s1 | msg] eqn:E;
          simpl in H; [ | discriminate H ].
        apply gptm_reload_frame in E. destruct E as [t ->].
        injection H as <-. split; reflexivity.
      * simpl in H. injection H as <-. split; reflexivity.
    + simpl in H. injection H as <-. split; reflexivity.
  - gptm_write_cases H; try contradiction; split; reflexivity.
Qed.

(** X8.  In the 32-bit configurations channel B is never scheduled: no
    register write made while [config < 4] changes whether it is pending
    or its deadline, bit 8 of the control register included. *)
Theorem gptm_write_32bit_keeps_channel_b
  (now : Z) (s s' : gptm_state) (offset value : Z) :
  config s < 4 ->
  gptm_write system_clock_scale now s offset value = Ok s' ->
  sel 1 (timer s') = sel 1 (timer s)
  /\ sel 1 (tick s') = sel 1 (tick s).
Proof.
  intros Hc H. apply Z.leb_gt in Hc.
  destruct (Z.eq_dec offset 0x0c) as [-> | Hoff].
  - unfold gptm_write in H. simpl in H.
    destruct (nonzero (Z.land (Z.lxor (control s) value) 1)).
    + destruct (nonzero (Z.land value 1)).
      * destruct (gptm_reload _ _ _ _ _) as [s1 | msg] eqn:E;
          simpl in H; [ | discriminate H ].
        apply gptm_reload_frame in E. destruct E as [t ->].
        simpl in H. rewrite Hc, andb_false_r in H. simpl in H.
        injection H as <-. split; reflexivity.
      * simpl in H. rewrite Hc, andb_false_r in H. simpl in H.
        injection H as <-. split; reflexivity.
    + simpl in H. rewrite Hc, andb_false_r in H. simpl in H.
      injection H as <-. split; reflexivity.
  - gptm_write_cases H; try contradiction; split; reflexivity.
Qed.

(** One fire of a periodic 32-bit countdown whose channel A is pending. *)
(** A callback of the periodic countdown, run when the clock reads
    [t], at the deadline or later: the next deadline is counted from the
    old one, not from [t]. *)
Lemma run_timer_periodic (s : gptm_state) (deadline t : Z) :
  config s = 0 ->
  Z.land (sel 0 (mode s)) 1 = 0 ->
  sel 0 (timer s) = Some deadline ->
  deadline <= t ->
  exists s',
    qemu_run_timer system_clock_scale t s 0 = Ok s'
    /\ config s' = 0
    /\ mode s' = mode s
    /\ load s' = load s
    /\ control s' = control s
    /\ state s' = Z.lor (state s) 1
    /\ sel 0 (timer s')
       = Some (s64 (sel 0 (tick s) + s64 (combined_load s * system_clock_scale)))
    /\ sel 0 (tick s')
       = s64 (sel 0 (tick s) + s64 (combined_load s * system_clock_scale))
    /\ trigger s'
       = (if nonzero (Z.land (control s) 0x20) then S (trigger s) else trigger s).
Proof.
  intros Hc Hm Hd Hle. apply nonzero_false in Hm. apply Z.leb_le in Hle.
  unfold qemu_run_timer. rewrite Hd, Hle.
  unfold gptm_tick. simpl. rewrite Hc. simpl.
  destruct (nonzero (Z.land (control s) 32)); simpl; rewrite Hm; simpl;
    rewrite gptm_reload_countdown by (simpl; exact Hc); simpl;
    (eexists; split; [ reflexivity | ]); unfold sel, upd; simpl;
    repeat split; try reflexivity; exact Hc.
Qed.

Lemma fires_at_periodic (times : list Z) : forall (s0 : gptm_state) (x : Z),
  config s0 = 0 ->
  Z.land (sel 0 (mode s0)) 1 = 0 ->
  sel 0 (timer s0) = Some (s64 x) ->
  sel 0 (tick s0) = s64 x ->
  (forall (i : nat) (t : Z),
      times !! i = Some t ->
      s64 (x + Z.of_nat i * s64 (combined_load s0 * system_clock_scale)) <= t) ->
  exists sk,
    fires_at system_clock_scale times s0 = Ok sk
    /\ control sk = control s0
    /\ sel 0 (timer sk)
       = Some (s64 (x + Z.of_nat (length times)
                        * s64 (combined_load s0 * system_clock_scale)))
    /\ sel 0 (tick sk)
       = s64 (x + Z.of_nat (length times)
                  * s64 (combined_load s0 * system_clock_scale))
    /\ trigger sk
       = (if nonzero (Z.land (control s0) 0x20)
          then (trigger s0 + length times)%nat else trigger s0)
    /\ (times <> [] -> Z.land (state sk) 1 = 1)
    /\ (times = [] -> sk = s0).
Proof.
  induction times as [ | t times IH]; intros s0 x Hc Hm Ht Hk Hlate.
  - exists s0. simpl. rewrite Z.add_0_r, Nat.add_0_r.
    repeat split; try assumption; try reflexivity.
    + destruct (nonzero _); reflexivity.
    + intros H. contradiction.
  - set (P := s64 (combined_load s0 * system_clock_scale)) in *.
    destruct (run_timer_periodic s0 (s64 x) t Hc Hm Ht)
      as (s1 & Hrun & Hc1 & Hm1 & Hl1 & Hctl1 & Hst1 & Ht1 & Hk1 & Htr1).
    { specialize (Hlate 0%nat t eq_refl). simpl in Hlate.
      rewrite Z.add_0_r in Hlate. exact Hlate. }
    assert (Hload : combined_load s1 = combined_load s0).
    { unfold combined_load. rewrite Hl1. reflexivity. }
    fold P in Ht1, Hk1. rewrite Hk, s64_add_l in Ht1, Hk1.
    destruct (IH s1 (x + P)) as (sk & Hf & Hctl & Htk & Hkk & Htr & Hst & Hnil).
    + exact Hc1.
    + rewrite Hm1. exact Hm.
    + exact Ht1.
    + exact Hk1.
    + intros i u Hi. rewrite Hload. fold P.
      replace (x + P + Z.of_nat i * P) with (x + Z.of_nat (S i) * P) by lia.
      apply Hlate. exact Hi.
    + rewrite Hload in Htk, Hkk. fold P in Htk, Hkk.
      replace (x + P + Z.of_nat (length times) * P)
        with (x + Z.of_nat (length (t :: times)) * P) in Htk, Hkk
        by (simpl length; lia).
      exists sk. cbn [fires_at]. rewrite Hrun. cbn [rbind].
      split; [ exact Hf | ]. split; [ congruence | ].
      split; [ exact Htk | ]. split; [ exact Hkk | ].
      split; [ | split; [ | intros H; discriminate H ] ].
      * rewrite Htr, Hctl1, Htr1. simpl length.
        destruct (nonzero _); lia.
      * intros _. destruct times as [ | t' times'].
        -- rewrite (Hnil eq_refl), Hst1. apply land_lor_same.
        -- apply Hst. discriminate.
Qed.

(** X9.  A periodic 32-bit countdown does not drift.  The load value is
    written and the timer enabled at time [now]; [period] is the load
    value times the clock scale.  The callbacks then run when the clock
    reads [times]: the one numbered [i] at its deadline
    [now + (i + 1) * period] or any time later.  However late they run,
    after all of them the next deadline is
    [now + (length times + 1) * period] (in 64-bit arithmetic): deadlines
    are counted from the previous deadline, not from the time the
    callback ran.  The control register is as written, each callback
    raises the time-out status, and each pulses the ADC trigger output
    exactly when bit 5 of the control register is set. *)
Theorem gptm_periodic_does_not_drift
  (now : Z) (s : gptm_state) (value ctl : Z) (times : list Z) :
  config s = 0 ->
  Z.land (sel 0 (mode s)) 1 = 0 ->
  Z.land (control s) 1 = 0 ->
  Z.land ctl 1 = 1 ->
  (forall (i : nat) (t : Z),
      times !! i = Some t ->
      s64 (now + (Z.of_nat i + 1) * s64 (u32 value * system_clock_scale)) <= t) ->
  exists s0 sk,
    load_then_enable system_clock_scale now s value ctl = Ok s0
    /\ fires_at system_clock_scale times s0 = Ok sk
    /\ sel 0 (timer sk)
       = Some (s64 (now + (Z.of_nat (length times) + 1)
                          * s64 (u32 value * system_clock_scale)))
    /\ control sk = u32 ctl
    /\ trigger sk
       = (if nonzero (Z.land (u32 ctl) 0x20)
          then (trigger s + length times)%nat else trigger s)
    /\ (times <> [] -> Z.land (state sk) 1 = 1).
Proof.
  intros Hc Hm Ho Hn Hlate.
  unfold load_then_enable.
  assert (E1 : gptm_write system_clock_scale now s 0x28 value =
               Ok (gptm_update_irq
                     (set_load (Z.land value 0xffff, u32 (Z.shiftr value 16)) s))).
  { unfold gptm_write. simpl. rewrite Hc. reflexivity. }
  rewrite E1. simpl rbind.
  rewrite gptm_write_ctl_enable; try assumption; [ | simpl; lia ].
  rewrite gptm_reload_countdown by (simpl; exact Hc).
  simpl. eexists.
  set (s0 := gptm_update_irq _).
  assert (Hl0 : combined_load s0 = u32 value).
  { unfold combined_load, s0, sel. simpl. apply u32_halves. }
  destruct (fires_at_periodic times s0
              (now + s64 (u32 value * system_clock_scale)))
    as (sk & Hf & Hctl & Htk & _ & Htr & Hst & _);
    try assumption; try reflexivity.
  { unfold s0, combined_load, sel, upd. simpl. rewrite u32_halves. reflexivity. }
  { unfold s0, combined_load, sel, upd. simpl. rewrite u32_halves. reflexivity. }
  { intros i t Hi. rewrite Hl0.
    replace (now + s64 (u32 value * system_clock_scale)
             + Z.of_nat i * s64 (u32 value * system_clock_scale))
      with (now + (Z.of_nat i + 1) * s64 (u32 value * system_clock_scale))
      by lia.
    apply Hlate. exact Hi. }
  exists sk. split; [ reflexivity | ]. split; [ exact Hf | ].
  rewrite Hl0 in Htk.
  split; [ rewrite Htk; do 2 f_equal; lia | ].
  split; [ exact Hctl | ]. split; [ exact Htr | exact Hst ].
Qed.

(** X10.  The interval load and match registers of channel A (offsets
    0x28 and 0x30) are 32 bits wide in the 32-bit configurations, where a
    read returns the 32-bit value written, and 16 bits wide otherwise,
    where a read returns the low half written and the register of channel
    B (four bytes further) reads as before. *)
Theorem gptm_load_match_read_back
  (now : Z) (s : gptm_state) (offset value : Z) :
  offset = 0x28 \/ offset = 0x30 ->
  exists s',
    gptm_write system_clock_scale now s offset value = Ok s'
    /\ (config s < 4 -> gptm_read s' offset = Ok (u32 value))
    /\ (4 <= config s ->
        gptm_read s' offset = Ok (Z.land value 0xffff)
        /\ gptm_read s' (offset + 4) = gptm_read s (offset + 4)).
Proof.
  intros Hoff.
  destruct (Z.ltb_spec (config s) 4) as [Hlt | Hge].
  - pose proof Hlt as Hb. apply Z.ltb_lt in Hb.
    destruct Hoff as [-> | ->]; unfold gptm_write; simpl; rewrite Hb;
      (eexists; split; [ reflexivity | ]);
      (split; [ intros _ | intros Hc; lia ]);
      unfold gptm_read; simpl; rewrite Hb; unfold sel, upd; simpl;
      f_equal; apply u32_halves.
  - pose proof Hge as Hb. apply Z.ltb_ge in Hb.
    destruct Hoff as [-> | ->]; unfold gptm_write; simpl; rewrite Hb;
      (eexists; split; [ reflexivity | ]);
      (split; [ intros Hc; lia | intros _ ]);
      unfold gptm_read; simpl; rewrite Hb; unfold sel, upd; simpl;
      rewrite Z.lor_0_r; split; reflexivity.
Qed.

(** X11.  The match register of channel B does not take a 16-bit value:
    a write to offset 0x34 stores the written value shifted right by 16,
    so that any value below 0x10000 reads back as 0, while the same value
    written to the load register of channel B (offset 0x2c) reads back
    as written. *)
Theorem gptm_write_tbmatchr_drops_low_half
  (now : Z) (s : gptm_state) (value : Z) :
  0 <= value < 2 ^ 16 ->
  (exists s',
      gptm_write system_clock_scale now s 0x34 value = Ok s'
      /\ gptm_read s' 0x34 = Ok 0)
  /\ (exists s',
         gptm_write system_clock_scale now s 0x2c value = Ok s'
         /\ gptm_read s' 0x2c = Ok value).
Proof.
  intros Hv. split; eexists; (split; [ reflexivity | ]);
    unfold gptm_read, sel, upd; simpl; f_equal.
  - rewrite Z.shiftr_div_pow2 by lia. rewrite Z.div_small by lia. reflexivity.
  - change 65535 with (Z.ones 16). rewrite Z.land_ones by lia.
    apply Z.mod_small. lia.
Qed.

(** X12.  Writing the interrupt clear register (offset 0x24) clears the
    raw status bits written as 1 and keeps the others; writing back the
    whole raw status leaves none and lowers the interrupt line. *)
Theorem gptm_write_cr_acknowledges (now : Z) (s : gptm_state) (value : Z) :
  exists s',
    gptm_write system_clock_scale now s 0x24 value = Ok s'
    /\ Z.land (state s') value = 0
    /\ (forall i, 0 <= i < 32 -> Z.testbit value i = false ->
                  Z.testbit (state s') i = Z.testbit (state s) i)
    /\ (value = state s -> state s' = 0 /\ irq s' = false).
Proof.
  eexists. split; [ reflexivity | ]. simpl. split; [ | split ].
  - unfold u32. Z.bitblast.
  - intros i Hi Hbit. unfold u32.
    rewrite Z.testbit_mod_pow2, Z.land_spec, Z.lnot_spec, Hbit by lia.
    destruct (Z.ltb_spec i 32); [ | lia ]. simpl. apply andb_true_r.
  - intros ->.
    assert (E : u32 (Z.land (state s) (Z.lnot (state s))) = 0).
    { replace (Z.land (state s) (Z.lnot (state s))) with 0; [ reflexivity | ].
      symmetry. Z.bitblast. }
    rewrite E. split; reflexivity.
Qed.

(** X13.  Enabling channel A (bit 0 of the control register going from 0
    to 1, bit 8 as before) ends well exactly in the modes that are
    implemented: the two 32-bit configurations 0 and 1, and otherwise the
    PWM value 0xa in the mode register of channel A; in every other case
    the write is fatal. *)
Theorem gptm_enable_implemented_modes (now : Z) (s : gptm_state) (ctl : Z) :
  Z.land (control s) 1 = 0 ->
  Z.land ctl 1 = 1 ->
  Z.land (Z.lxor (control s) ctl) 0x100 = 0 ->
  (exists s', gptm_write system_clock_scale now s 0x0c ctl = Ok s')
  <-> (config s = 0 \/ config s = 1 \/ sel 0 (mode s) = 0xa).
Proof.
  intros Ho Hn Hb.
  apply nonzero_false in Hb.
  unfold gptm_write. simpl.
  rewrite (bit0_toggled _ _ Ho Hn), Hn. simpl.
  unfold gptm_reload. simpl.
  destruct (Z.eqb_spec (config s) 0) as [E0 | E0]; simpl.
  { rewrite Hb. simpl. split; [ auto | eauto ]. }
  destruct (Z.eqb_spec (config s) 1) as [E1 | E1]; simpl.
  { rewrite Hb. simpl. split; [ auto | eauto ]. }
  destruct (Z.eqb_spec (sel 0 (mode s)) 10) as [Ea | Ea]; simpl.
  { rewrite Hb. simpl. split; [ auto | eauto ]. }
  split.
  - intros [s' H]. discriminate H.
  - intros [H | [H | H] ]; contradiction.
Qed.

Lemma land_swap (a b c : Z) : Z.land a (Z.land b c) = Z.land (Z.land a c) b.
Proof. Z.bitblast. Qed.

Lemma gptm_write_line (now : Z) (s s' : gptm_state) (offset value : Z) :
  gptm_write system_clock_scale now s offset value = Ok s' ->
  (mask s' = mask s \/ mask s' = Z.land value 0x77)
  /\ irq s' = nonzero (Z.land (state s') (mask s')).
Proof.
  intros H. gptm_write_cases H;
    (split; [ first [ left; reflexivity | right; reflexivity ] | reflexivity ]).
Qed.

Lemma gptm_tick_line (now : Z) (s s' : gptm_state) (n : Z) :
  gptm_tick system_clock_scale now s n = Ok s' ->
  mask s' = mask s
  /\ irq s' = nonzero (Z.land (state s') (mask s')).
Proof.
  intros H. unfold gptm_tick in H.
  repeat (simpl in H;
          match type of H with
          | context [gptm_reload ?a ?b ?c ?d ?e] =>
              let E := fresh "E" in
              destruct (gptm_reload a b c d e) eqn:E;
              [ apply gptm_reload_frame in E; destruct E as [? ->] | ]
          | context [if ?b then _ else _] => destruct b
          end);
    simpl in H; try discriminate H; injection H as <-; split; reflexivity.
Qed.

Lemma gptm_step_line (s s' : gptm_state) (e : event) :
  Z.land (mask s) 0x77 = mask s ->
  irq s = nonzero (Z.land (state s) (mask s)) ->
  step system_clock_scale s e = Ok s' ->
  Z.land (mask s') 0x77 = mask s'
  /\ irq s' = nonzero (Z.land (state s') (mask s')).
Proof.
  intros Hm Hi H. destruct e as [now offset value | n]; simpl in H.
  - destruct (gptm_write_line _ _ _ _ _ H) as [ [E | E] Hirq ].
    + split; [ rewrite E; exact Hm | exact Hirq ].
    + split; [ | exact Hirq ].
      rewrite E, <- Z.land_assoc. reflexivity.
  - unfold fire in H. destruct (sel n (timer s)) as [d | ].
    + unfold qemu_run_timer in H.
      destruct (sel n (timer s)) as [d' | ].
      * destruct (d' <=? d).
        -- destruct (gptm_tick_line _ _ _ _ H) as [E Hirq].
           simpl in E. split; [ rewrite E; exact Hm | exact Hirq ].
        -- injection H as <-. auto.
      * injection H as <-. auto.
    + injection H as <-. auto.
Qed.

(** X14.  The interrupt mask only takes the bits 0x77, so that the RTC
    match (raw status bit 3) never reaches the interrupt line: in every
    state a timer comes to from [stm32_gptm_init] by register writes and
    fires, bit 3 of the mask is clear and the line is at the level of the
    masked status bits within 0x77; with no raw status bit within 0x77
    the line is low. *)
Theorem gptm_rtc_match_never_interrupts (es : list event) : forall s : gptm_state,
  run system_clock_scale stm32_gptm_init es = Ok s ->
  Z.land (mask s) 8 = 0
  /\ irq s = nonzero (Z.land (Z.land (state s) 0x77) (mask s))
  /\ (Z.land (state s) 0x77 = 0 -> irq s = false).
Proof.
  assert (Hrun : forall (es : list event) (s0 s : gptm_state),
             Z.land (mask s0) 0x77 = mask s0 ->
             irq s0 = nonzero (Z.land (state s0) (mask s0)) ->
             run system_clock_scale s0 es = Ok s ->
             Z.land (mask s) 0x77 = mask s
             /\ irq s = nonzero (Z.land (state s) (mask s))).
  { clear es. induction es as [ | e es IH]; intros s0 s Hm Hi H; simpl in H.
    - injection H as <-. auto.
    - destruct (step system_clock_scale s0 e) as [s1 | msg] eqn:E;
        simpl in H; [ | discriminate H ].
      destruct (gptm_step_line _ _ _ Hm Hi E) as [Hm1 Hi1].
      exact (IH s1 s Hm1 Hi1 H). }
  intros s H.
  destruct (Hrun es stm32_gptm_init s) as [Hm Hi];
    [ reflexivity | reflexivity | exact H | ].
  assert (Hline : irq s = nonzero (Z.land (Z.land (state s) 0x77) (mask s))).
  { rewrite Hi. rewrite <- Hm at 1. rewrite land_swap. reflexivity. }
  split; [ | split ].
  - rewrite <- Hm, <- Z.land_assoc. apply Z.land_0_r.
  - exact Hline.
  - intros H0. rewrite Hline, H0. reflexivity.
Qed.

Lemma fire_rtc_frame (s s' : gptm_state) :
  config s = 1 ->
  fire system_clock_scale s 0 = Ok s' ->
  control s' = control s /\ config s' = 1.
Proof.
  intros Hc H. unfold fire in H.
  destruct (sel 0 (timer s)) as [d | ] eqn:Ht;
    [ | injection H as <-; auto ].
  unfold qemu_run_timer in H. rewrite Ht, Z.leb_refl in H.
  unfold gptm_tick in H. simpl in H. rewrite Hc in H. simpl in H.
  repeat match type of H with
         | context [if ?b then _ else _] => destruct b; simpl in H
         end;
    rewrite gptm_reload_rtc in H by (simpl; exact Hc);
    simpl in H; injection H as <-; auto.
Qed.

Lemma fires_rtc_frame (k : nat) : forall s0 sk : gptm_state,
  config s0 = 1 ->
  fires system_clock_scale k s0 = Ok sk ->
  control sk = control s0 /\ config sk = 1.
Proof.
  induction k as [ | k IH]; intros s0 sk Hc H; simpl in H.
  - injection H as <-. auto.
  - destruct (fires system_clock_scale k s0) as [s1 | msg] eqn:E;
      simpl in H; [ | discriminate H ].
    destruct (IH s0 s1 Hc E) as [Hctl Hc1].
    destruct (fire_rtc_frame s1 sk Hc1 H) as [Hctl' Hc'].
    split; congruence.
Qed.

(** X15.  The RTC counter can be read at offset 0x48 only while the
    control register holds exactly 1.  After the match value [M] has
    been written and the timer enabled with [rtc <= M], the read returns
    [(rtc + k) mod (M + 1)] after [k] fires when the value written to the
    control register was 1, and is fatal when it carried any other bit
    (the ADC trigger bit, say). *)
Theorem gptm_rtc_read_needs_control_1 (now : Z) (s : gptm_state) (M ctl : Z) :
  config s = 1 ->
  Z.land (control s) 1 = 0 ->
  Z.land ctl 1 = 1 ->
  0 <= M < 2 ^ 32 ->
  0 <= rtc s <= M ->
  exists s0,
    match_then_enable system_clock_scale now s M ctl = Ok s0
    /\ forall k : nat,
        exists sk,
          fires system_clock_scale k s0 = Ok sk
          /\ gptm_read sk 0x48
             = (if u32 ctl =? 1
                then Ok ((rtc s + Z.of_nat k) mod (M + 1))
                else HwError "TODO: Timer value read").
Proof.
  intros Hc Ho Hn HM Hr.
  unfold match_then_enable.
  assert (E1 : gptm_write system_clock_scale now s 0x30 M =
               Ok (gptm_update_irq
                     (set_match (Z.land M 0xffff, u32 (Z.shiftr M 16)) s))).
  { unfold gptm_write. simpl. rewrite Hc. reflexivity. }
  rewrite E1. simpl rbind.
  rewrite gptm_write_ctl_enable; try assumption; [ | simpl; lia ].
  rewrite gptm_reload_rtc by (simpl; exact Hc).
  simpl. eexists. split; [ reflexivity | ].
  set (s0 := gptm_update_irq _).
  assert (HM0 : combined_match s0 = M).
  { unfold combined_match, s0, sel. simpl. rewrite u32_halves.
    apply u32_small. exact HM. }
  intros k.
  destruct (fires_rtc system_clock_scale s0 (now + get_ticks_per_sec) M k)
    as (sk & Hf & _ & _ & _ & _ & _ & _ & Hmod);
    try assumption; try reflexivity.
  { change (rtc s0) with (rtc s). lia. }
  destruct (fires_rtc_frame k s0 sk Hc Hf) as [Hctl _].
  exists sk. split; [ exact Hf | ].
  unfold gptm_read. simpl. rewrite Hctl. change (control s0) with (u32 ctl).
  destruct (u32 ctl =? 1); [ | reflexivity ].
  rewrite Hmod by (change (rtc s0) with (rtc s); lia). reflexivity.
Qed.

End GptmMore.

Lemma gptm_disable_cancels_witness :
  sel 0 (Gptm.timer
           (result_get Gptm.one_shot_pending
              (@Gptm.gptm_write vm_clock_ns 80 100 Gptm.one_shot_pending 0x0c 0)))
  = None.
Proof.
  refine (proj1 (@gptm_disable_cancels vm_clock_ns 80 100 Gptm.one_shot_pending
                   _ 0 _ _ _)); vm_compute; reflexivity.
Defined.

Lemma gptm_write_keeps_schedule_witness :
  sel 0 (Gptm.timer
           (result_get Gptm.one_shot_pending
              (@Gptm.gptm_write vm_clock_ns 80 100 Gptm.one_shot_pending 0x28 9)))
  = sel 0 (Gptm.timer Gptm.one_shot_pending).
Proof.
  refine (proj1 (@gptm_write_keeps_schedule vm_clock_ns 80 100
                   Gptm.one_shot_pending _ 0x28 9 _ _)).
  - left. discriminate.
  - vm_compute. reflexivity.
Defined.

Lemma gptm_write_32bit_keeps_channel_b_witness :
  sel 1 (Gptm.timer
           (result_get Gptm.stm32_gptm_init
              (@Gptm.gptm_write vm_clock_ns 80 100 Gptm.stm32_gptm_init
                 0x0c 0x100)))
  = sel 1 (Gptm.timer Gptm.stm32_gptm_init).
Proof.
  refine (proj1 (@gptm_write_32bit_keeps_channel_b vm_clock_ns 80 100
                   Gptm.stm32_gptm_init _ 0x0c 0x100 _ _)).
  - vm_compute. reflexivity.
  - vm_compute. reflexivity.
Defined.

Lemma gptm_periodic_does_not_drift_witness :
  exists s0 s2,
    @Gptm.load_then_enable vm_clock_ns 80 0 Gptm.stm32_gptm_init 3 0x21 = Ok s0
    /\ @Gptm.fires_at vm_clock_ns 80 [300; 1000] s0 = Ok s2
    /\ sel 0 (Gptm.timer s2) = Some 720
    /\ Gptm.trigger s2 = 2%nat.
Proof.
  destruct (@gptm_periodic_does_not_drift vm_clock_ns 80 0
              Gptm.stm32_gptm_init 3 0x21 [300; 1000])
    as (s0 & s2 & H0 & H2 & Ht & _ & Htr & _);
    [ reflexivity | reflexivity | reflexivity | reflexivity | | ].
  - intros [ | [ | i] ] t H; simpl in H; try discriminate H;
      injection H as <-; vm_compute; discriminate.
  - exists s0, s2. split; [ exact H0 | ]. split; [ exact H2 | ].
    split; [ exact Ht | exact Htr ].
Defined.

Lemma gptm_load_match_read_back_witness :
  exists s',
    @Gptm.gptm_write vm_clock_ns 80 0 Gptm.stm32_gptm_init 0x30 0x12345678
    = Ok s'
    /\ Gptm.gptm_read s' 0x30 = Ok 0x12345678.
Proof.
  destruct (@gptm_load_match_read_back vm_clock_ns 80 0 Gptm.stm32_gptm_init
              0x30 0x12345678) as (s' & H & H32 & _); [ right; reflexivity | ].
  exists s'. split; [ exact H | ].
  exact (H32 ltac:(vm_compute; reflexivity)).
Defined.

Lemma gptm_write_tbmatchr_drops_low_half_witness :
  exists s',
    @Gptm.gptm_write vm_clock_ns 80 0 Gptm.stm32_gptm_init 0x34 5 = Ok s'
    /\ Gptm.gptm_read s' 0x34 = Ok 0.
Proof.
  exact (proj1 (@gptm_write_tbmatchr_drops_low_half vm_clock_ns 80 0
                  Gptm.stm32_gptm_init 5
                  ltac:(vm_compute; split; [ discriminate | reflexivity ]))).
Defined.

Lemma gptm_rtc_match_never_interrupts_witness :
  Gptm.irq
    (result_get Gptm.stm32_gptm_init
       (@Gptm.run vm_clock_ns 80 Gptm.stm32_gptm_init
          [Gptm.Write 0 0x00 1; Gptm.Write 0 0x18 0xff; Gptm.Write 0 0x30 0;
           Gptm.Write 0 0x0c 1; Gptm.Fire 0]))
  = false.
Proof.
  refine (proj2 (proj2 (@gptm_rtc_match_never_interrupts vm_clock_ns 80
                          [Gptm.Write 0 0x00 1; Gptm.Write 0 0x18 0xff;
                           Gptm.Write 0 0x30 0; Gptm.Write 0 0x0c 1;
                           Gptm.Fire 0] _ _)) _);
    vm_compute; reflexivity.
Defined.

Lemma gptm_write_cr_acknowledges_witness :
  exists s',
    @Gptm.gptm_write vm_clock_ns 80 0 (Gptm.set_state 9 Gptm.stm32_gptm_init)
      0x24 9 = Ok s'
    /\ Gptm.state s' = 0
    /\ Gptm.irq s' = false.
Proof.
  destruct (@gptm_write_cr_acknowledges vm_clock_ns 80 0
              (Gptm.set_state 9 Gptm.stm32_gptm_init) 9)
    as (s' & H & _ & _ & Hall).
  exists s'. split; [ exact H | ]. exact (Hall eq_refl).
Defined.

Lemma gptm_enable_implemented_modes_witness :
  exists s',
    @Gptm.gptm_write vm_clock_ns 80 0 Gptm.pwm_configured 0x0c 1 = Ok s'.
Proof.
  refine (proj2 (@gptm_enable_implemented_modes vm_clock_ns 80 0
                   Gptm.pwm_configured 1 _ _ _) _);
    try reflexivity.
  right. right. reflexivity.
Defined.

Lemma gptm_rtc_read_needs_control_1_witness :
  exists s0,
    @Gptm.match_then_enable vm_clock_ns 80 0 Gptm.rtc_configured 2 1 = Ok s0
    /\ exists s4,
         @Gptm.fires vm_clock_ns 80 4 s0 = Ok s4
         /\ Gptm.gptm_read s4 0x48 = Ok 1.
Proof.
  destruct (@gptm_rtc_read_needs_control_1 vm_clock_ns 80 0
              Gptm.rtc_configured 2 1)
    as (s0 & H0 & Hk);
    [ reflexivity | reflexivity | reflexivity | lia | simpl; lia | ].
  destruct (Hk 4%nat) as (s4 & H4 & Hr).
  exists s0. split; [ exact H0 | ]. exists s4. split; [ exact H4 | exact Hr ].
Defined.

(** ** I2C controller: status, mask, sequences of transfers *)

Section I2cMore.
Import I2c.
Context {i2c_bus : Type} {B : i2c_bus_ops i2c_bus}.

Lemma keep_clear_lor (a c k : Z) :
  Z.land a k = 0 -> Z.land c k = 0 -> Z.land (Z.lor a c) k = 0.
Proof. intros Ha Hc. rewrite Z.land_lor_distr_l, Ha, Hc. reflexivity. Qed.

Lemma keep_clear_land (a c k : Z) :
  Z.land a k = 0 -> Z.land (Z.land a c) k = 0.
Proof.
  intros Ha. rewrite <- Z.land_assoc, (Z.land_comm c k), Z.land_assoc, Ha.
  reflexivity.
Qed.

Lemma mcs_frame_refl (s : stm32_i2c_state) : mcs_frame s s.
Proof. unfold mcs_frame. tauto. Qed.

Lemma mcs_frame_trans (s s1 s2 : stm32_i2c_state) :
  mcs_frame s s1 -> mcs_frame s1 s2 -> mcs_frame s s2.
Proof.
  unfold mcs_frame.
  intros (A1 & A2 & A3 & A4 & A5 & A6) (B1 & B2 & B3 & B4 & B5 & B6).
  repeat split; try congruence. auto.
Qed.

Ltac mcs_frame_bits :=
  unfold mcs_frame, STELLARIS_I2C_MCS_ARBLST, STELLARIS_I2C_MCS_BUSBSY,
    STELLARIS_I2C_MCS_ERROR; simpl;
  repeat split; try reflexivity; intros Hinv;
  repeat (apply keep_clear_lor || apply keep_clear_land);
  try assumption; reflexivity.

Lemma mcs_grab_bus_keeps (s : stm32_i2c_state) (bus : i2c_bus) (value : Z) :
  mcs_frame s (fst (mcs_grab_bus s bus value)).
Proof.
  unfold mcs_grab_bus.
  destruct (nonzero (Z.land value 2) && _); [ | apply mcs_frame_refl ].
  destruct (i2c_start_transfer _ _ _) as [b failed].
  destruct (nonzero failed); mcs_frame_bits.
Qed.

Lemma mcs_transfer_keeps (s : stm32_i2c_state) (bus : i2c_bus) (value : Z) :
  mcs_frame s (fst (mcs_transfer s bus value)).
Proof.
  unfold mcs_transfer.
  destruct (nonzero (Z.land value 1)); simpl.
  - destruct (nonzero (Z.land (msa s) 1)); simpl.
    + destruct (i2c_recv bus) as [b byte]; simpl.
      destruct (nonzero (Z.land value 4)); mcs_frame_bits.
    + destruct (nonzero (Z.land value 4)); mcs_frame_bits.
  - destruct (nonzero (Z.land value 4)); mcs_frame_bits.
Qed.

(** The MCS case changes [mcs], [mdr] and [mris] only. *)
Lemma mcs_write_frame (s : stm32_i2c_state) (bus : i2c_bus) (value : Z) :
  mcs_frame s (fst (mcs_write s bus value)).
Proof.
  unfold mcs_write.
  destruct (Z.land (mcr s) 0x10 =? 0); [ apply mcs_frame_refl | ].
  pose proof (mcs_grab_bus_keeps s bus value) as Hg.
  destruct (mcs_grab_bus s bus value) as [s1 b1]. simpl in Hg.
  destruct ((i2c_bus_busy b1 =? 0) || _).
  - apply (mcs_frame_trans _ _ _ Hg). mcs_frame_bits.
  - apply (mcs_frame_trans _ _ _ Hg), mcs_transfer_keeps.
Qed.

Lemma stm32_i2c_write_frame
  (s s' : stm32_i2c_state) (bus bus' : i2c_bus) (offset value : Z) :
  stm32_i2c_write s bus offset value = Ok (s', bus') ->
  (mimr s' = mimr s \/ mimr s' = 1)
  /\ irq s' = nonzero (Z.land (mris s') (mimr s'))
  /\ (Z.land (mcs s) (Z.lnot 0x52) = 0 -> Z.land (mcs s') (Z.lnot 0x52) = 0).
Proof.
  unfold stm32_i2c_write. intros H.
  destruct (Z.eqb_spec offset 0x04) as [-> | Hoff].
  - simpl in H. injection H as <- <-.
    destruct (mcs_write_frame s bus value) as (_ & _ & Hm & _ & _ & Hinv).
    simpl. split; [ left; exact Hm | ]. split; [ reflexivity | exact Hinv ].
  - repeat match type of H with
           | context [if ?o =? ?c then _ else _] =>
               is_var o; destruct (Z.eqb_spec o c)
           end;
      try contradiction;
      repeat match type of H with
             | context [if ?b then _ else _] => destruct b
             end;
      simpl in H; try discriminate H; injection H as <- <-; simpl;
      (split; [ first [ left; reflexivity | right; reflexivity ] | ]);
      (split; [ reflexivity | intros Hinv; exact Hinv ]).
Qed.

Lemma writes_frame (ws : list (Z * Z)) :
  forall (s s' : stm32_i2c_state) (bus bus' : i2c_bus),
    writes s bus ws = Ok (s', bus') ->
    (mimr s = 1 -> mimr s' = 1)
    /\ (Z.land (mcs s) (Z.lnot 0x52) = 0 -> Z.land (mcs s') (Z.lnot 0x52) = 0)
    /\ (irq s = nonzero (Z.land (mris s) (mimr s)) ->
        irq s' = nonzero (Z.land (mris s') (mimr s'))).
Proof.
  induction ws as [ | [offset value] ws IH]; intros s s' bus bus' H; simpl in H.
  - injection H as <- <-. auto.
  - destruct (stm32_i2c_write s bus offset value) as [ [s1 b1] | msg] eqn:E;
      simpl in H; [ | discriminate H ].
    destruct (stm32_i2c_write_frame _ _ _ _ _ _ E) as (Hm & Hi & Hc).
    destruct (IH s1 s' b1 bus' H) as (Hm' & Hc' & Hi').
    split; [ | split ].
    + intros H1. apply Hm'. destruct Hm as [Hm | Hm]; congruence.
    + intros H1. apply Hc', Hc, H1.
    + intros _. apply Hi', Hi.
Qed.

(** X16.  The controller is never busy: whatever the guest writes after
    a reset, and whatever the bus answers, a read of the control/status
    register (offset 0x04) that follows has the idle bit set and the busy
    bit and the two acknowledge bits clear. *)
Theorem stm32_i2c_always_idle
  (s s' : stm32_i2c_state) (bus bus' : i2c_bus) (ws : list (Z * Z)) :
  writes (fst (stm32_i2c_reset s bus)) (snd (stm32_i2c_reset s bus)) ws
  = Ok (s', bus') ->
  exists r,
    stm32_i2c_read s' 0x04 = Ok r
    /\ Z.land r STELLARIS_I2C_MCS_IDLE = STELLARIS_I2C_MCS_IDLE
    /\ Z.land r STELLARIS_I2C_MCS_BUSY = 0
    /\ Z.land r STELLARIS_I2C_MCS_ADRACK = 0
    /\ Z.land r STELLARIS_I2C_MCS_DATACK = 0.
Proof.
  intros H.
  destruct (writes_frame ws _ _ _ _ H) as (_ & Hinv & _).
  specialize (Hinv eq_refl).
  eexists. split; [ reflexivity | ].
  unfold STELLARIS_I2C_MCS_IDLE, STELLARIS_I2C_MCS_BUSY,
    STELLARIS_I2C_MCS_ADRACK, STELLARIS_I2C_MCS_DATACK.
  split; [ apply land_lor_same | ].
  assert (Hbit : forall c, Z.land (Z.lnot 0x52) c = c -> Z.land 0x20 c = 0 ->
                           Z.land (Z.lor (mcs s') 0x20) c = 0).
  { intros c Hc H20. rewrite Z.land_lor_distr_l, H20, Z.lor_0_r.
    rewrite <- Hc, Z.land_assoc, Hinv. reflexivity. }
  repeat split; apply Hbit; reflexivity.
Qed.

(** X17.  After a reset the master is disabled: a write to the
    control/status register changes neither the controller nor the bus,
    whatever its value, start bit included. *)
Theorem stm32_i2c_reset_disables
  (s : stm32_i2c_state) (bus : i2c_bus) (value : Z) :
  stm32_i2c_write (fst (stm32_i2c_reset s bus)) (snd (stm32_i2c_reset s bus))
    0x04 value
  = Ok (stm32_i2c_reset s bus).
Proof.
  unfold stm32_i2c_reset. destruct (nonzero _); reflexivity.
Qed.

(** X18.  The interrupt mask cannot be cleared by the guest: a write to
    the mask register (offset 0x10) sets it to 1 whatever the value, 0
    included, and no sequence of register writes that follows changes it;
    from then on the interrupt line is the byte-done bit of the raw
    status. *)
Theorem stm32_i2c_mask_sticks
  (s : stm32_i2c_state) (bus : i2c_bus) (value : Z) :
  exists s1,
    stm32_i2c_write s bus 0x10 value = Ok (s1, bus)
    /\ stm32_i2c_read s1 0x10 = Ok 1
    /\ forall (ws : list (Z * Z)) (s2 : stm32_i2c_state) (bus2 : i2c_bus),
        writes s1 bus ws = Ok (s2, bus2) ->
        stm32_i2c_read s2 0x10 = Ok 1
        /\ irq s2 = nonzero (Z.land (mris s2) 1).
Proof.
  eexists. split; [ reflexivity | ]. split; [ reflexivity | ].
  intros ws s2 bus2 H.
  destruct (writes_frame ws _ _ _ _ H) as (Hm & _ & Hi).
  specialize (Hm eq_refl). specialize (Hi eq_refl).
  unfold stm32_i2c_read. simpl. rewrite Hi, Hm. split; reflexivity.
Qed.

(** X19.  A write to the master configuration register (offset 0x20)
    ends well exactly when it asks neither for loopback (bit 0) nor for
    slave mode (bit 5), and then nothing but the master enable bit is
    stored: the register holds 0 or 0x10. *)
Theorem stm32_i2c_mcr_only_enable
  (s : stm32_i2c_state) (bus : i2c_bus) (value : Z) :
  ((exists r, stm32_i2c_write s bus 0x20 value = Ok r)
   <-> Z.land value 1 = 0 /\ Z.land value 0x20 = 0)
  /\ (forall s' bus',
         stm32_i2c_write s bus 0x20 value = Ok (s', bus') ->
         mcr s' = Z.land value 0x10 /\ (mcr s' = 0 \/ mcr s' = 0x10)).
Proof.
  assert (E31 : Z.land value 0x31
                = Z.lor (Z.lor (Z.land value 1) (Z.land value 0x10))
                        (Z.land value 0x20)).
  { rewrite <- !Z.land_lor_distr_r. reflexivity. }
  assert (E10 : Z.land value 0x10 = 0 \/ Z.land value 0x10 = 0x10).
  { assert (E : Z.land value 0x10
                = Z.shiftl (Z.land (Z.shiftr value 4) (Z.ones 1)) 4).
    { change 0x10 with (Z.shiftl (Z.ones 1) 4). Z.bitblast. }
    rewrite E, Z.land_ones, Z.shiftl_mul_pow2 by lia.
    pose proof (Z.mod_pos_bound (Z.shiftr value 4) (2 ^ 1)) as Hb. lia. }
  unfold stm32_i2c_write. simpl.
  destruct (Z.eqb_spec (Z.land value 1) 0) as [H0 | H0];
    destruct (Z.eqb_spec (Z.land value 32) 0) as [H5 | H5];
    unfold nonzero;
    rewrite ?(proj2 (Z.eqb_eq _ _) H0), ?(proj2 (Z.eqb_neq _ _) H0),
      ?(proj2 (Z.eqb_eq _ _) H5), ?(proj2 (Z.eqb_neq _ _) H5); simpl.
  - split; [ split; [ auto | eauto ] | ].
    intros s' bus' H. injection H as <- <-. simpl.
    rewrite E31, H0, H5, Z.lor_0_r, Z.lor_0_l. auto.
  - split; [ split; [ intros [r H]; discriminate H | tauto ] | ].
    intros s' bus' H. discriminate H.
  - split; [ split; [ intros [r H]; discriminate H | tauto ] | ].
    intros s' bus' H. discriminate H.
  - split; [ split; [ intros [r H]; discriminate H | tauto ] | ].
    intros s' bus' H. discriminate H.
Qed.

(** X20.  While the controller holds the bus (bus-busy set), a start
    request is ignored: a write to the control/status register does what
    the same write without bit 1 does, and the bus sees no second
    start. *)
Theorem stm32_i2c_start_ignored_when_busy
  (s : stm32_i2c_state) (bus : i2c_bus) (value : Z) :
  Z.land (mcs s) STELLARIS_I2C_MCS_BUSBSY <> 0 ->
  stm32_i2c_write s bus 0x04 value
  = stm32_i2c_write s bus 0x04 (Z.land value (Z.lnot 2)).
Proof.
  intros Hb. apply Z.eqb_neq in Hb.
  unfold stm32_i2c_write. simpl. unfold mcs_write, mcs_grab_bus.
  rewrite Hb, !andb_false_r.
  assert (E1 : Z.land (Z.land value (Z.lnot 2)) 1 = Z.land value 1)
    by (rewrite <- Z.land_assoc; reflexivity).
  assert (E4 : Z.land (Z.land value (Z.lnot 2)) 4 = Z.land value 4)
    by (rewrite <- Z.land_assoc; reflexivity).
  unfold mcs_transfer. rewrite E1, E4. reflexivity.
Qed.

Lemma last_cons_default {A : Type} (l : list A) (a d : A) :
  List.last (a :: l) d = List.last l a.
Proof.
  revert a d. induction l as [ | b l IH]; intros a d; [ reflexivity | ].
  change (List.last (a :: b :: l) d) with (List.last (b :: l) d).
  rewrite !IH. reflexivity.
Qed.

(** One more byte on a bus the controller holds: the MCS case with the
    run bit alone, the address register asking for a write. *)
Lemma stm32_i2c_write_mcs_run (s : stm32_i2c_state) (bus : i2c_bus) :
  Z.land (mcr s) 0x10 <> 0 ->
  Z.land (mcs s) STELLARIS_I2C_MCS_BUSBSY <> 0 ->
  Z.land (msa s) 1 = 0 ->
  i2c_bus_busy bus <> 0 ->
  stm32_i2c_write s bus 0x04 1
  = Ok (stm32_i2c_update
          (set_mris (Z.lor (mris s) 1)
             (set_mcs (Z.land (mcs s) (u32 (Z.lnot STELLARIS_I2C_MCS_ERROR))) s)),
        fst (i2c_send bus (Z.land (mdr s) 0xff))).
Proof.
  intros Hen Hheld Hw Hbusy.
  apply Z.eqb_neq in Hen, Hheld, Hbusy.
  rewrite stm32_i2c_write_mcs. unfold mcs_write, mcs_grab_bus.
  rewrite Hen, Hheld, andb_false_r. cbv beta iota.
  rewrite Hbusy, Hheld. cbn [orb].
  unfold mcs_transfer. simpl. rewrite Hw. reflexivity.
Qed.

Lemma send_bytes_run
  (holding : i2c_bus -> Prop)
  (Hbusy : forall b, holding b -> i2c_bus_busy b <> 0)
  (Hsend : forall b x, holding b -> holding (fst (i2c_send b x)))
  (bytes : list Z) :
  forall (s : stm32_i2c_state) (bus : i2c_bus),
    Z.land (mcr s) 0x10 <> 0 ->
    Z.land (mcs s) STELLARIS_I2C_MCS_BUSBSY <> 0 ->
    Z.land (msa s) 1 = 0 ->
    holding bus ->
    exists s',
      send_bytes s bus bytes
      = Ok (s', fold_left (fun b x => fst (i2c_send b (Z.land x 0xff))) bytes bus)
      /\ Z.land (mcs s') STELLARIS_I2C_MCS_BUSBSY <> 0
      /\ mdr s' = List.last (map (fun x => Z.land x 0xff) bytes) (mdr s)
      /\ (bytes <> [] \/ Z.land (mris s) 1 = 1 -> Z.land (mris s') 1 = 1).
Proof.
  induction bytes as [ | x bytes IH]; intros s bus Hen Hheld Hw Hb.
  - exists s. split; [ reflexivity | ]. split; [ exact Hheld | ].
    split; [ reflexivity | ]. intros [H | H]; [ contradiction | exact H ].
  - unfold send_bytes in *. simpl flat_map. cbn [writes].
    change (stm32_i2c_write s bus 8 x)
      with (Ok (stm32_i2c_update (set_mdr (Z.land x 0xff) s), bus)).
    cbn [rbind fst snd].
    rewrite stm32_i2c_write_mcs_run; [ | exact Hen | exact Hheld | exact Hw
                                       | apply Hbusy, Hb ].
    cbn [rbind fst snd].
    match goal with
    | |- context [writes ?s2 ?b2 _] =>
        destruct (IH s2 b2) as (s' & E & Hh' & Hd' & Hr')
    end.
    + exact Hen.
    + simpl. unfold STELLARIS_I2C_MCS_BUSBSY, STELLARIS_I2C_MCS_ERROR in *.
      rewrite <- Z.land_assoc.
      change (Z.land (u32 (Z.lnot 2)) 64) with 64. exact Hheld.
    + exact Hw.
    + apply Hsend, Hb.
    + exists s'. split; [ | split; [ exact Hh' | split ] ].
      * rewrite E. simpl. rewrite <- Z.land_assoc.
        change (Z.land 255 255) with 255. reflexivity.
      * rewrite Hd'. simpl map. rewrite last_cons_default. reflexivity.
      * intros _. apply Hr'. right. simpl. apply land_lor_same.
Qed.

(** X21.  A guest that holds the bus sends bytes by writing each one to
    the data register and then the run bit to the control/status
    register: the bus receives exactly these bytes, cut to 8 bits, in
    order, one send each, with no start and no stop between them; the
    controller still holds the bus afterwards, the data register holds
    the last byte and the byte-done bit of the raw status is set. *)
Theorem stm32_i2c_send_bytes_in_order
  (holding : i2c_bus -> Prop)
  (Hbusy : forall b, holding b -> i2c_bus_busy b <> 0)
  (Hsend : forall b x, holding b -> holding (fst (i2c_send b x)))
  (s : stm32_i2c_state) (bus : i2c_bus) (bytes : list Z) (x : Z) :
  Z.land (mcr s) 0x10 <> 0 ->
  Z.land (mcs s) STELLARIS_I2C_MCS_BUSBSY <> 0 ->
  Z.land (msa s) 1 = 0 ->
  holding bus ->
  exists s',
    send_bytes s bus (bytes ++ [x])
    = Ok (s', fold_left (fun b x => fst (i2c_send b (Z.land x 0xff)))
                (bytes ++ [x]) bus)
    /\ Z.land (mcs s') STELLARIS_I2C_MCS_BUSBSY <> 0
    /\ stm32_i2c_read s' 0x08 = Ok (Z.land x 0xff)
    /\ Z.land (mris s') 1 = 1.
Proof.
  intros Hen Hheld Hw Hb.
  destruct (send_bytes_run holding Hbusy Hsend (bytes ++ [x]) s bus
              Hen Hheld Hw Hb) as (s' & E & Hh & Hd & Hr).
  exists s'. split; [ exact E | ]. split; [ exact Hh | ].
  split.
  - unfold stm32_i2c_read. simpl. rewrite Hd, map_app. simpl map.
    rewrite List.last_last. reflexivity.
  - apply Hr. left. intros H. apply app_eq_nil in H. destruct H as [_ H].
    discriminate H.
Qed.

(** X22.  The interrupt handshake of a transfer: with the mask set and
    no event pending, a control/status write with the run bit, on a bus
    the controller holds, raises the interrupt line; a write of 1 to the
    interrupt clear register (offset 0x1c) then lowers it and leaves no
    raw status, without touching the bus. *)
Theorem stm32_i2c_byte_done_handshake
  (s : stm32_i2c_state) (bus : i2c_bus) (value : Z) :
  Z.land (mcr s) 0x10 <> 0 ->
  Z.land (mcs s) STELLARIS_I2C_MCS_BUSBSY <> 0 ->
  i2c_bus_busy bus <> 0 ->
  mimr s = 1 ->
  mris s = 0 ->
  Z.land value 1 <> 0 ->
  exists s1 bus1,
    stm32_i2c_write s bus 0x04 value = Ok (s1, bus1)
    /\ irq s1 = true
    /\ exists s2,
        stm32_i2c_write s1 bus1 0x1c 1 = Ok (s2, bus1)
        /\ stm32_i2c_read s2 0x14 = Ok 0
        /\ irq s2 = false.
Proof.
  intros Hen Hheld Hbusy Hmask Hraw Hrun.
  apply Z.eqb_neq in Hen, Hheld, Hbusy.
  rewrite stm32_i2c_write_mcs. unfold mcs_write, mcs_grab_bus.
  rewrite Hen, Hheld, andb_false_r. cbv beta iota.
  rewrite Hbusy, Hheld. cbn [orb].
  unfold mcs_transfer. rewrite (proj2 (nonzero_true _) Hrun).
  assert (Hdone : forall (s0 : stm32_i2c_state) (b0 : i2c_bus),
             mimr s0 = 1 -> mris s0 = 1 ->
             exists s1 bus1,
               Ok (stm32_i2c_update (fst (s0, b0)), snd (s0, b0)) = Ok (s1, bus1)
               /\ irq s1 = true
               /\ exists s2,
                   stm32_i2c_write s1 bus1 0x1c 1 = Ok (s2, bus1)
                   /\ stm32_i2c_read s2 0x14 = Ok 0
                   /\ irq s2 = false).
  { intros s0 b0 Hm Hr. eexists. eexists. split; [ reflexivity | ].
    split; [ simpl; rewrite Hm, Hr; reflexivity | ].
    eexists. split; [ reflexivity | ].
    unfold stm32_i2c_read. simpl. rewrite Hr. split; reflexivity. }
  destruct (nonzero (Z.land (msa _) 1)); [ destruct (i2c_recv bus) as [b byte] | ];
    destruct (nonzero (Z.land value 4)); apply Hdone; simpl;
    rewrite ?Hmask, ?Hraw; reflexivity.
Qed.

End I2cMore.

Lemma stm32_i2c_always_idle_witness :
  let ws := [(0x20, 0x10); (0x00, 0x54); (0x08, 0xab); (0x04, 7); (0x04, 3)] in
  let start := @I2c.stm32_i2c_reset I2c.wire I2c.wire_ops
                 I2c.enabled_master I2c.idle_wire in
  let run := result_get start
               (@I2c.writes I2c.wire I2c.wire_ops (fst start) (snd start) ws) in
  exists r,
    I2c.stm32_i2c_read (fst run) 0x04 = Ok r
    /\ Z.land r I2c.STELLARIS_I2C_MCS_IDLE = I2c.STELLARIS_I2C_MCS_IDLE
    /\ Z.land r I2c.STELLARIS_I2C_MCS_BUSY = 0
    /\ Z.land r I2c.STELLARIS_I2C_MCS_ADRACK = 0
    /\ Z.land r I2c.STELLARIS_I2C_MCS_DATACK = 0.
Proof.
  intros ws start run.
  refine (@stm32_i2c_always_idle I2c.wire I2c.wire_ops I2c.enabled_master
            (fst run) I2c.idle_wire (snd run) ws _).
  vm_compute. reflexivity.
Defined.

Lemma stm32_i2c_mask_sticks_witness :
  let ws := [(0x20, 0x10); (0x00, 0x54); (0x08, 0xab); (0x04, 3); (0x1c, 1)] in
  let first := result_get (I2c.enabled_master, I2c.idle_wire)
                 (@I2c.stm32_i2c_write I2c.wire I2c.wire_ops
                    I2c.enabled_master I2c.idle_wire 0x10 0) in
  let run := result_get first
               (@I2c.writes I2c.wire I2c.wire_ops (fst first) (snd first) ws) in
  I2c.stm32_i2c_read (fst first) 0x10 = Ok 1
  /\ I2c.stm32_i2c_read (fst run) 0x10 = Ok 1
  /\ I2c.irq (fst run) = nonzero (Z.land (I2c.mris (fst run)) 1).
Proof.
  intros ws first run.
  destruct (@stm32_i2c_mask_sticks I2c.wire I2c.wire_ops I2c.enabled_master
              I2c.idle_wire 0) as (s1 & E & R & H).
  assert (E1 : s1 = fst first) by (vm_compute in E; injection E as <-; reflexivity).
  subst s1. split; [ exact R | ].
  apply (H ws (fst run) (snd run)). vm_compute. reflexivity.
Defined.

Lemma stm32_i2c_mcr_only_enable_witness :
  (exists r, @I2c.stm32_i2c_write I2c.wire I2c.wire_ops I2c.enabled_master
               I2c.idle_wire 0x20 0x1d0 = Ok r)
  /\ I2c.mcr (fst (result_get (I2c.enabled_master, I2c.idle_wire)
                     (@I2c.stm32_i2c_write I2c.wire I2c.wire_ops
                        I2c.enabled_master I2c.idle_wire 0x20 0x1d0)))
     = 0x10.
Proof.
  destruct (@stm32_i2c_mcr_only_enable I2c.wire I2c.wire_ops
              I2c.enabled_master I2c.idle_wire 0x1d0) as [H1 H2].
  split.
  - apply H1. split; reflexivity.
  - refine (proj1 (H2 _ I2c.idle_wire _)). vm_compute. reflexivity.
Defined.

Lemma stm32_i2c_start_ignored_when_busy_witness :
  let s := I2c.set_mcs 0x40 I2c.enabled_master in
  let bus := I2c.Build_wire I2c.ThisMaster [] [] in
  @I2c.stm32_i2c_write I2c.wire I2c.wire_ops s bus 0x04 3
  = @I2c.stm32_i2c_write I2c.wire I2c.wire_ops s bus 0x04 1.
Proof.
  intros s bus.
  refine (@stm32_i2c_start_ignored_when_busy I2c.wire I2c.wire_ops s bus 3 _).
  vm_compute. discriminate.
Defined.

Lemma stm32_i2c_send_bytes_in_order_witness :
  let s := I2c.set_mcs 0x40 I2c.enabled_master in
  let bus := I2c.Build_wire I2c.ThisMaster [] [] in
  exists s',
    @I2c.send_bytes I2c.wire I2c.wire_ops s bus [0x1ab; 0x02; 0x03]
    = Ok (s', I2c.Build_wire I2c.ThisMaster [0xab; 0x02; 0x03] [])
    /\ Z.land (I2c.mcs s') I2c.STELLARIS_I2C_MCS_BUSBSY <> 0
    /\ I2c.stm32_i2c_read s' 0x08 = Ok 3
    /\ Z.land (I2c.mris s') 1 = 1.
Proof.
  intros s bus.
  refine (@stm32_i2c_send_bytes_in_order I2c.wire I2c.wire_ops
            (fun b => I2c.held b = I2c.ThisMaster) _ _
            s bus [0x1ab; 0x02] 0x03 _ _ _ _).
  - intros b Hb. simpl. unfold I2c.wire_busy. rewrite Hb. discriminate.
  - intros b x Hb. exact Hb.
  - vm_compute. discriminate.
  - vm_compute. discriminate.
  - reflexivity.
  - reflexivity.
Defined.

Lemma stm32_i2c_byte_done_handshake_witness :
  let s := I2c.set_mimr 1 (I2c.set_mcs 0x40 I2c.enabled_master) in
  let bus := I2c.Build_wire I2c.ThisMaster [] [] in
  exists s1 bus1,
    @I2c.stm32_i2c_write I2c.wire I2c.wire_ops s bus 0x04 1 = Ok (s1, bus1)
    /\ I2c.irq s1 = true
    /\ exists s2,
        @I2c.stm32_i2c_write I2c.wire I2c.wire_ops s1 bus1 0x1c 1
        = Ok (s2, bus1)
        /\ I2c.stm32_i2c_read s2 0x14 = Ok 0
        /\ I2c.irq s2 = false.
Proof.
  intros s bus.
  refine (@stm32_i2c_byte_done_handshake I2c.wire I2c.wire_ops s bus 1
            _ _ _ _ _ _).
  - vm_compute. discriminate.
  - vm_compute. discriminate.
  - vm_compute. discriminate.
  - reflexivity.
  - reflexivity.
  - vm_compute. discriminate.
Defined.

(** ** Analogue to digital converter: FIFO round trips, sequencer
    registers, reset *)

Section AdcMore.
Import Adc.

(** A write to a FIFO with room clears the empty flag. *)
Lemma fifo_write_room_not_empty (s : stm32_adc_state) (n v : Z) :
  (Z.to_nat n < length (fifo s))%nat ->
  Z.land (state (fifo_at s n)) STELLARIS_ADC_FIFO_FULL = 0 ->
  Z.land (state (fifo_at (stm32_adc_fifo_write s n v) n))
         STELLARIS_ADC_FIFO_EMPTY = 0.
Proof.
  intros Hn Hfull. unfold stm32_adc_fifo_write.
  fold (fifo_at s n). apply nonzero_false in Hfull. rewrite Hfull.
  set (f := fifo_at s n).
  set (x := Z.land (Z.land (Z.shiftr (state f) 4) 0xf + 1) 0xf).
  unfold fifo_at. simpl. rewrite aget_aset_eq by exact Hn. simpl.
  destruct (_ =? x); subst x; fifo_masks; Z.bitblast.
Qed.

Lemma fifo_write_frame (s : stm32_adc_state) (n v : Z) :
  let s' := stm32_adc_fifo_write s n v in
  ustat s' = ustat s /\ length (fifo s') = length (fifo s)
  /\ actss s' = actss s /\ emux s' = emux s /\ ris s' = ris s
  /\ im s' = im s /\ irq s' = irq s
  /\ (Z.land (state (fifo_at s n)) STELLARIS_ADC_FIFO_FULL <> 0 ->
      fifo s' = fifo s).
Proof.
  unfold stm32_adc_fifo_write. fold (fifo_at s n).
  destruct (nonzero (Z.land (state (fifo_at s n)) STELLARIS_ADC_FIFO_FULL))
    eqn:E; simpl; rewrite ?length_aset; repeat split.
  intros H. apply nonzero_true in H. congruence.
Qed.

Lemma fifo_writes_frame (n : Z) (vs : list Z) : forall s : stm32_adc_state,
  (Z.to_nat n < length (fifo s))%nat ->
  let s' := fifo_writes s n vs in
  ustat s' = ustat s
  /\ (Z.land (state (fifo_at s n)) STELLARIS_ADC_FIFO_EMPTY = 0 ->
      Z.land (state (fifo_at s' n)) STELLARIS_ADC_FIFO_EMPTY = 0).
Proof.
  induction vs as [ | v vs IH]; intros s Hn; simpl; [ tauto | ].
  destruct (fifo_write_frame s n v) as (Hu & Hl & _ & _ & _ & _ & _ & Hsame).
  destruct (IH (stm32_adc_fifo_write s n v)) as (Hu' & He');
    [ rewrite Hl; exact Hn | ].
  split; [ congruence | ].
  intros He. apply He'.
  destruct (Z.eq_dec (Z.land (state (fifo_at s n)) STELLARIS_ADC_FIFO_FULL) 0)
    as [Hf | Hf].
  - apply fifo_write_room_not_empty; assumption.
  - unfold fifo_at in *. rewrite (Hsame Hf). exact He.
Qed.

(** A read of a FIFO whose empty flag is clear returns the slot at the
    tail and moves the tail on; the empty flag is set when the tail plus
    one, not cut to four bits, equals the head. *)
Lemma fifo_read_room (s : stm32_adc_state) (n : Z) :
  (Z.to_nat n < length (fifo s))%nat ->
  Z.land (state (fifo_at s n)) STELLARIS_ADC_FIFO_EMPTY = 0 ->
  let s' := fst (stm32_adc_fifo_read s n) in
  snd (stm32_adc_fifo_read s n)
  = aget 0 (data (fifo_at s n)) (fifo_tail (fifo_at s n))
  /\ ustat s' = ustat s
  /\ ostat s' = ostat s
  /\ length (fifo s') = length (fifo s)
  /\ data (fifo_at s' n) = data (fifo_at s n)
  /\ fifo_head (fifo_at s' n) = fifo_head (fifo_at s n)
  /\ fifo_tail (fifo_at s' n) = (fifo_tail (fifo_at s n) + 1) mod 16
  /\ Z.land (state (fifo_at s' n)) STELLARIS_ADC_FIFO_FULL = 0
  /\ Z.land (state (fifo_at s' n)) STELLARIS_ADC_FIFO_EMPTY
     = (if fifo_tail (fifo_at s n) + 1 =? fifo_head (fifo_at s n)
        then STELLARIS_ADC_FIFO_EMPTY else 0).
Proof.
  intros Hn Hempty s'. subst s'. unfold stm32_adc_fifo_read.
  fold (fifo_at s n). apply nonzero_false in Hempty. rewrite Hempty.
  apply nonzero_false in Hempty.
  set (f := fifo_at s n) in *.
  set (x := Z.land (state f) 0xf + 1).
  set (st2 := Z.land (Z.lor _ (Z.land x 0xf)) _).
  assert (Ht : Z.land st2 0xf = Z.land x 0xf).
  { subst st2. fifo_masks. Z.bitblast. }
  assert (Hh : Z.land (Z.shiftr st2 4) 0xf = Z.land (Z.shiftr (state f) 4) 0xf).
  { subst st2. fifo_masks. Z.bitblast. }
  assert (Hf : Z.land st2 STELLARIS_ADC_FIFO_FULL = 0).
  { subst st2. fifo_masks. Z.bitblast. }
  assert (He : Z.land st2 STELLARIS_ADC_FIFO_EMPTY = 0).
  { rewrite <- Hempty. subst st2. fifo_masks. Z.bitblast. }
  assert (Ht' : Z.land (Z.lor st2 STELLARIS_ADC_FIFO_EMPTY) 0xf = Z.land x 0xf).
  { rewrite <- Ht. fifo_masks. Z.bitblast. }
  assert (Hh' : Z.land (Z.shiftr (Z.lor st2 STELLARIS_ADC_FIFO_EMPTY) 4) 0xf
                = Z.land (Z.shiftr (state f) 4) 0xf).
  { rewrite <- Hh. fifo_masks. Z.bitblast. }
  assert (Hf' : Z.land (Z.lor st2 STELLARIS_ADC_FIFO_EMPTY)
                  STELLARIS_ADC_FIFO_FULL = 0).
  { rewrite <- Hf. fifo_masks. Z.bitblast. }
  unfold fifo_at, fifo_tail, fifo_head. simpl.
  rewrite !aget_aset_eq by exact Hn. simpl. fold (fifo_at s n). fold f.
  rewrite length_aset, Hh.
  rewrite <- (land_0xf_mod (Z.land (state f) 0xf + 1)). fold x.
  destruct (x =? Z.land (Z.shiftr (state f) 4) 15).
  - repeat split; try assumption. apply land_lor_same.
  - repeat split; assumption.
Qed.

(** [k] reads in a row, as long as no read before the last sets the
    empty flag. *)
Lemma fifo_reads_drain (n : Z) (k : nat) : forall s : stm32_adc_state,
  (Z.to_nat n < length (fifo s))%nat ->
  Z.land (state (fifo_at s n)) STELLARIS_ADC_FIFO_EMPTY = 0 ->
  (forall i, 0 <= i < Z.of_nat k - 1 ->
             (fifo_tail (fifo_at s n) + i) mod 16 + 1
             <> fifo_head (fifo_at s n)) ->
  let t := fifo_tail (fifo_at s n) in
  let r := fifo_reads s n k in
  ustat (fst r) = ustat s
  /\ ostat (fst r) = ostat s
  /\ length (fifo (fst r)) = length (fifo s)
  /\ data (fifo_at (fst r) n) = data (fifo_at s n)
  /\ fifo_head (fifo_at (fst r) n) = fifo_head (fifo_at s n)
  /\ fifo_tail (fifo_at (fst r) n) = (t + Z.of_nat k) mod 16
  /\ length (snd r) = k
  /\ (forall (i : nat) (v : Z),
         snd r !! i = Some v ->
         v = aget 0 (data (fifo_at s n)) ((t + Z.of_nat i) mod 16))
  /\ (k <> O ->
      Z.land (state (fifo_at (fst r) n)) STELLARIS_ADC_FIFO_FULL = 0
      /\ Z.land (state (fifo_at (fst r) n)) STELLARIS_ADC_FIFO_EMPTY
         = (if (t + Z.of_nat k - 1) mod 16 + 1 =? fifo_head (fifo_at s n)
            then STELLARIS_ADC_FIFO_EMPTY else 0)).
Proof.
  induction k as [ | k IH]; intros s Hn Hempty Hgo t r.
  - subst r t. simpl. pose proof (fifo_tail_range (fifo_at s n)) as Ht.
    rewrite Z.add_0_r, Z.mod_small by lia.
    repeat split; try reflexivity; try contradiction.
    intros i v H. discriminate H.
  - pose proof (fifo_tail_range (fifo_at s n)) as Ht. fold t in Ht.
    destruct (fifo_read_room s n Hn Hempty)
      as (Hv & Hu1 & Ho1 & Hl1 & Hd1 & Hh1 & Ht1 & Hf1 & He1).
    fold t in Hv, Ht1, He1.
    assert (Hr : r = (fst (fifo_reads (fst (stm32_adc_fifo_read s n)) n k),
                      snd (stm32_adc_fifo_read s n)
                      :: snd (fifo_reads (fst (stm32_adc_fifo_read s n)) n k))).
    { subst r. cbn [fifo_reads].
      destruct (stm32_adc_fifo_read s n) as [s1 v]. cbn [fst snd].
      destruct (fifo_reads s1 n k) as [s2 vs]. reflexivity. }
    set (s1 := fst (stm32_adc_fifo_read s n)) in *.
    rewrite Hr. cbn [fst snd].
    destruct k as [ | k'].
    + simpl. change (Z.of_nat 1) with 1.
      replace (t + 1 - 1) with t by lia. rewrite (Z.mod_small t) by lia.
      repeat split; try assumption.
      intros [ | i] w H; simpl in H; [ | discriminate H ].
      injection H as <-. simpl. rewrite Z.add_0_r, Z.mod_small by lia.
      exact Hv.
    + assert (Hempty1 : Z.land (state (fifo_at s1 n)) STELLARIS_ADC_FIFO_EMPTY = 0).
      { rewrite He1.
        destruct (Z.eqb_spec (t + 1) (fifo_head (fifo_at s n))) as [E | E];
          [ | reflexivity ].
        exfalso. apply (Hgo 0); [ lia | ].
        rewrite Z.add_0_r, Z.mod_small by lia. exact E. }
      assert (Hshift : forall i,
                 (fifo_tail (fifo_at s1 n) + i) mod 16 = (t + (1 + i)) mod 16).
      { intros i. rewrite Ht1. apply mod16_shift. }
      destruct (IH s1) as (Hu & Ho & Hl & Hd & Hh & Htl & Hlen & Hvals & Hflags).
      * rewrite Hl1. exact Hn.
      * exact Hempty1.
      * intros i Hi. rewrite Hshift, Hh1. apply Hgo. lia.
      * rewrite Hshift in Htl.
        replace (1 + Z.of_nat (S k')) with (Z.of_nat (S (S k'))) in Htl by lia.
        repeat split; try congruence.
        -- cbn [length]. f_equal. exact Hlen.
        -- intros [ | i] w H; simpl in H.
           ++ injection H as <-. simpl. rewrite Z.add_0_r, Z.mod_small by lia.
              exact Hv.
           ++ rewrite (Hvals i w H), Hshift, Hd1. do 2 f_equal. lia.
        -- apply Hflags. discriminate.
        -- destruct Hflags as [_ Hflag]; [ discriminate | ].
           rewrite Hflag, Hh1.
           replace (fifo_tail (fifo_at s1 n) + Z.of_nat (S k') - 1)
             with (fifo_tail (fifo_at s1 n) + (Z.of_nat (S k') - 1)) by lia.
           rewrite Hshift.
           replace (1 + (Z.of_nat (S k') - 1))
             with (t + Z.of_nat (S (S k')) - 1 - t) by lia.
           replace (t + (t + Z.of_nat (S (S k')) - 1 - t))
             with (t + Z.of_nat (S (S k')) - 1) by lia.
           reflexivity.
Qed.

(** X23.  A FIFO round trip: up to 16 samples written to a FIFO that is
    empty (empty flag set, head equal to tail) are returned by as many
    reads, in the order they were written, with neither overflow nor
    underflow reported.  The empty flag is set again by the last read
    unless the head has come round to slot 0. *)
Theorem stm32_adc_fifo_round_trip
  (s : stm32_adc_state) (n : Z) (vs : list Z) :
  (Z.to_nat n < length (fifo s))%nat ->
  length (data (fifo_at s n)) = 16%nat ->
  Z.land (state (fifo_at s n)) STELLARIS_ADC_FIFO_EMPTY <> 0 ->
  Z.land (state (fifo_at s n)) STELLARIS_ADC_FIFO_FULL = 0 ->
  fifo_head (fifo_at s n) = fifo_tail (fifo_at s n) ->
  (1 <= length vs <= 16)%nat ->
  let r := fifo_reads (fifo_writes s n vs) n (length vs) in
  snd r = vs
  /\ ostat (fst r) = ostat s
  /\ ustat (fst r) = ustat s
  /\ fifo_tail (fifo_at (fst r) n) = fifo_head (fifo_at (fst r) n)
  /\ Z.land (state (fifo_at (fst r) n)) STELLARIS_ADC_FIFO_FULL = 0
  /\ Z.land (state (fifo_at (fst r) n)) STELLARIS_ADC_FIFO_EMPTY
     = (if fifo_head (fifo_at (fst r) n) =? 0
        then 0 else STELLARIS_ADC_FIFO_EMPTY).
Proof.
  intros Hn Hdata Hempty Hfull Hht Hlen r.
  pose proof (fifo_tail_range (fifo_at s n)) as Ht.
  assert (Hvs : vs <> []) by (intros ->; simpl in Hlen; lia).
  destruct (fifo_writes_fill n vs s)
    as (Ho & Hl & _ & Htl & Hhd & _ & Hd & _);
    try assumption; try lia.
  { intros i Hi. rewrite Hht. clear - Hi Ht Hlen. intros E.
    Z.div_mod_to_equations. lia. }
  destruct (fifo_writes_frame n vs s Hn) as (Hu & _).
  assert (He : Z.land (state (fifo_at (fifo_writes s n vs) n))
                 STELLARIS_ADC_FIFO_EMPTY = 0).
  { destruct vs as [ | v vs']; [ contradiction | ].
    change (fifo_writes s n (v :: vs'))
      with (fifo_writes (stm32_adc_fifo_write s n v) n vs').
    destruct (fifo_write_frame s n v) as (_ & Hl1 & _).
    apply fifo_writes_frame; [ rewrite Hl1; exact Hn | ].
    apply fifo_write_room_not_empty; assumption. }
  set (s1 := fifo_writes s n vs) in *.
  rewrite Hht in Hhd, Hd.
  destruct (fifo_reads_drain n (length vs) s1)
    as (Hu2 & Ho2 & _ & _ & Hh2 & Ht2 & Hlen2 & Hvals & Hflags).
  - rewrite Hl. exact Hn.
  - exact He.
  - intros i Hi. rewrite Htl, Hhd. clear - Hi Ht Hlen. intros E.
    Z.div_mod_to_equations. lia.
  - fold r in Hu2, Ho2, Hh2, Ht2, Hlen2, Hvals, Hflags.
    destruct Hflags as [Hf2 He2]; [ lia | ].
    rewrite Htl in Ht2, Hvals, He2. rewrite Hhd in Hh2, He2.
    split; [ | repeat split; try congruence ].
    + apply (list_eq_same_length _ _ (length vs)); [ reflexivity | exact Hlen2 | ].
      intros i x y Hi Hx Hy. rewrite (Hvals i x Hx). apply Hd. exact Hy.
    + rewrite He2, Hh2.
      destruct (Z.eqb_spec ((fifo_tail (fifo_at s n) + Z.of_nat (length vs)) mod 16) 0)
        as [E0 | E0];
        destruct (Z.eqb_spec
                    ((fifo_tail (fifo_at s n) + Z.of_nat (length vs) - 1) mod 16 + 1)
                    ((fifo_tail (fifo_at s n) + Z.of_nat (length vs)) mod 16))
        as [E1 | E1]; try reflexivity; exfalso; clear - E0 E1 Ht Hlen;
        Z.div_mod_to_equations; lia.
Qed.

(** X24.  While the head of a FIFO is at slot 0 and its empty flag is
    clear, reads never report underflow: the comparison that sets the
    empty flag is between the tail plus one and the head, so any number
    of reads goes round the 16 slots and returns what they hold, and the
    underflow status is unchanged. *)
Theorem stm32_adc_fifo_head_0_never_underflows
  (s : stm32_adc_state) (n : Z) (k : nat) :
  (Z.to_nat n < length (fifo s))%nat ->
  Z.land (state (fifo_at s n)) STELLARIS_ADC_FIFO_EMPTY = 0 ->
  fifo_head (fifo_at s n) = 0 ->
  let r := fifo_reads s n k in
  ustat (fst r) = ustat s
  /\ Z.land (state (fifo_at (fst r) n)) STELLARIS_ADC_FIFO_EMPTY = 0
  /\ length (snd r) = k
  /\ forall (i : nat) (v : Z),
      snd r !! i = Some v ->
      v = aget 0 (data (fifo_at s n))
            ((fifo_tail (fifo_at s n) + Z.of_nat i) mod 16).
Proof.
  intros Hn Hempty Hhead r.
  destruct (fifo_reads_drain n k s Hn Hempty)
    as (Hu & _ & _ & _ & _ & _ & Hlen & Hvals & Hflags).
  { intros i Hi. rewrite Hhead. clear. intros E. Z.div_mod_to_equations. lia. }
  fold r in Hu, Hlen, Hvals, Hflags.
  split; [ exact Hu | ]. split; [ | split; [ exact Hlen | exact Hvals ] ].
  destruct k as [ | k']; [ exact Hempty | ].
  destruct Hflags as [_ He]; [ discriminate | ].
  rewrite He, Hhead.
  destruct (Z.eqb_spec ((fifo_tail (fifo_at s n) + Z.of_nat (S k') - 1) mod 16 + 1) 0)
    as [E | E]; [ | reflexivity ].
  exfalso. clear - E. Z.div_mod_to_equations. lia.
Qed.

Ltac sequencer_cases n Hn :=
  let H := fresh "H" in
  assert (H : n = 0 \/ n = 1 \/ n = 2 \/ n = 3) by lia;
  clear Hn; destruct H as [-> | [-> | [-> | ->] ] ].

Ltac four_slots l Hl :=
  let a := fresh "x" in
  let b := fresh "x" in
  let c := fresh "x" in
  let d := fresh "x" in
  let e := fresh "x" in
  destruct l as [ | a [ | b [ | c [ | d [ | e l] ] ] ] ];
  try discriminate Hl; clear Hl.

(** X25.  The sample source register of each sequencer is its own: a
    write at 0x40 + 0x20 n stores the value under the mask 0x33333333 in
    the register of sequencer [n] only, is read back there, and touches
    neither the FIFOs nor the output lines.  The control register at
    0x44 + 0x20 n accepts the value 6 and nothing else. *)
Theorem stm32_adc_sequencer_registers
  (s : stm32_adc_state) (n value : Z) :
  0 <= n < 4 ->
  length (ssmux s) = 4%nat ->
  (exists s',
      stm32_adc_write s (0x40 + 0x20 * n) value = Ok s'
      /\ stm32_adc_read s' (0x40 + 0x20 * n)
         = Ok (s', Z.land value 0x33333333)
      /\ (forall m, 0 <= m < 4 -> m <> n ->
            stm32_adc_read s' (0x40 + 0x20 * m) = Ok (s', aget 0 (ssmux s) m))
      /\ fifo s' = fifo s /\ irq s' = irq s /\ ssctl s' = ssctl s)
  /\ ((exists s', stm32_adc_write s (0x44 + 0x20 * n) value = Ok s')
      <-> value = 6).
Proof.
  intros Hn Hl. split.
  - destruct s as [a r m e o u sp sa f sm sc no lines]. simpl in Hl.
    four_slots sm Hl.
    sequencer_cases n Hn; (eexists; split; [ reflexivity | ]);
      (split; [ reflexivity | ]);
      (split; [ | repeat split ]);
      intros k Hk Hne; sequencer_cases k Hk;
      try contradiction; reflexivity.
  - assert (E : stm32_adc_write s (0x44 + 0x20 * n) value
                = if negb (value =? 6) then HwError "ADC: Unimplemented sequence"
                  else Ok (set_ssctl (aset (ssctl s) n (u32 value)) s))
      by (sequencer_cases n Hn; reflexivity).
    rewrite E. destruct (Z.eqb_spec value 6) as [-> | Hv]; simpl.
    + split; [ reflexivity | eauto ].
    + split; [ intros [s' H]; discriminate H | contradiction ].
Qed.

Lemma trigger_sequencer_actss (s : stm32_adc_state) (n : Z) :
  actss (trigger_sequencer s n) = actss s.
Proof.
  unfold trigger_sequencer.
  destruct (_ =? 0); [ reflexivity | ].
  destruct (negb _); [ reflexivity | ].
  change (actss (stm32_adc_update ?x)) with (actss x). cbn [actss set_ris].
  destruct (fifo_write_frame (set_noise (u32 (noise s * 314159 + 1)) s) n
              (0x200 + Z.land (Z.shiftr (u32 (noise s * 314159 + 1)) 16) 7))
    as (_ & _ & Ha & _).
  exact Ha.
Qed.

Lemma trigger_sequencer_off (s : stm32_adc_state) (n : Z) :
  Z.land (actss s) (Z.shiftl 1 n) = 0 -> trigger_sequencer s n = s.
Proof.
  intros H. unfold trigger_sequencer. rewrite H. reflexivity.
Qed.

(** With one sequencer enabled, the trigger runs that sequencer alone. *)
Lemma stm32_adc_trigger_only (s : stm32_adc_state) (n line level : Z) :
  0 <= n < 4 ->
  actss s = Z.shiftl 1 n ->
  stm32_adc_trigger s line level = trigger_sequencer s n.
Proof.
  intros Hn Ha. unfold stm32_adc_trigger, sequencers. cbn [fold_left].
  sequencer_cases n Hn;
    repeat first
      [ rewrite (trigger_sequencer_off s) by (rewrite Ha; reflexivity)
      | rewrite (trigger_sequencer_off (trigger_sequencer s _))
          by (rewrite trigger_sequencer_actss, Ha; reflexivity) ];
    reflexivity.
Qed.

Lemma land_7_range (x : Z) : 0 <= Z.land x 7 < 8.
Proof.
  change 7 with (Z.ones 3). rewrite Z.land_ones by lia.
  apply Z.mod_pos_bound. lia.
Qed.

(** X26.  From the timer to the guest: when sequencer [n] alone is
    enabled, the timer is the trigger of its 8-bit field of the
    multiplexer register and its FIFO is empty, a trigger queues one
    sample that the guest reads back at 0x48 + 0x20 n.  The sample lies
    between 0x200 and 0x207, bit [n] of the raw status is set, and
    neither overflow nor underflow is reported. *)
Theorem stm32_adc_trigger_sample_read_back
  (s : stm32_adc_state) (n line level : Z) :
  0 <= n < 4 ->
  length (fifo s) = 4%nat ->
  length (data (fifo_at s n)) = 16%nat ->
  actss s = Z.shiftl 1 n ->
  Z.land (Z.shiftr (emux s) (n * 4)) 0xff = 5 ->
  Z.land (state (fifo_at s n)) STELLARIS_ADC_FIFO_EMPTY <> 0 ->
  Z.land (state (fifo_at s n)) STELLARIS_ADC_FIFO_FULL = 0 ->
  fifo_head (fifo_at s n) = fifo_tail (fifo_at s n) ->
  let s1 := stm32_adc_trigger s line level in
  exists s2 v,
    stm32_adc_read s1 (0x48 + 0x20 * n) = Ok (s2, v)
    /\ 0x200 <= v <= 0x207
    /\ Z.testbit (ris s1) n = true
    /\ ostat s2 = ostat s
    /\ ustat s2 = ustat s.
Proof.
  intros Hn Hl Hd Ha He Hempty Hfull Hht s1.
  assert (Hn' : (Z.to_nat n < length (fifo s))%nat) by lia.
  assert (Hread : forall x, stm32_adc_read x (0x48 + 0x20 * n)
                            = Ok (stm32_adc_fifo_read x n)).
  { intros x. clear - Hn. sequencer_cases n Hn; reflexivity. }
  set (s0 := set_noise (u32 (noise s * 314159 + 1)) s).
  set (sample := 0x200 + Z.land (Z.shiftr (noise s0) 16) 7).
  set (sw := stm32_adc_fifo_write s0 n sample).
  assert (Hs1 : s1 = stm32_adc_update
                       (set_ris (u32 (Z.lor (ris sw) (Z.shiftl 1 n))) sw)).
  { subst s1. rewrite (stm32_adc_trigger_only s n line level Hn Ha).
    unfold trigger_sequencer. rewrite Ha, He.
    replace (Z.land (Z.shiftl 1 n) (Z.shiftl 1 n) =? 0) with false
      by (clear - Hn; sequencer_cases n Hn; reflexivity).
    reflexivity. }
  assert (Hfifo : fifo s1 = fifo sw) by (rewrite Hs1; reflexivity).
  assert (Hu1 : ustat s1 = ustat sw) by (rewrite Hs1; reflexivity).
  assert (Ho1 : ostat s1 = ostat sw) by (rewrite Hs1; reflexivity).
  assert (Hat : fifo_at s1 n = fifo_at sw n)
    by (unfold fifo_at; rewrite Hfifo; reflexivity).
  destruct (fifo_write_room s0 n sample Hn' Hfull)
    as (Ho & Hlw & Htw & _ & _ & Hdw).
  fold sw in Ho, Hlw, Htw, Hdw.
  destruct (fifo_write_frame s0 n sample) as (Hu & _).
  fold sw in Hu.
  pose proof (fifo_write_room_not_empty s0 n sample Hn' Hfull) as Hne.
  fold sw in Hne.
  destruct (fifo_read_room s1 n)
    as (Hv & Hu2 & Ho2 & _); [ rewrite Hfifo, Hlw; exact Hn' | | ].
  { rewrite Hat. exact Hne. }
  exists (fst (stm32_adc_fifo_read s1 n)), (snd (stm32_adc_fifo_read s1 n)).
  split; [ rewrite Hread; destruct (stm32_adc_fifo_read s1 n); reflexivity | ].
  split; [ | split; [ | split ] ].
  - rewrite Hv, Hat, Hdw, Htw.
    change (fifo_at s0 n) with (fifo_at s n). rewrite Hht.
    rewrite aget_aset_eq.
    + subst sample. pose proof (land_7_range (Z.shiftr (noise s0) 16)). lia.
    + pose proof (fifo_tail_range (fifo_at s n)). lia.
  - rewrite Hs1. change (ris (stm32_adc_update ?x)) with (ris x).
    cbn [ris set_ris]. apply bit_raised. lia.
  - rewrite Ho2, Ho1, Ho. reflexivity.
  - rewrite Hu2, Hu1, Hu. reflexivity.
Qed.

Lemma land_bit (x n : Z) :
  0 <= n ->
  Z.land x (Z.shiftl 1 n) = if Z.testbit x n then Z.shiftl 1 n else 0.
Proof.
  intros Hn. apply Z.bits_inj'. intros i Hi.
  rewrite Z.land_spec, Z.shiftl_spec by exact Hi.
  destruct (Z.eq_dec i n) as [-> | Hne].
  - rewrite Z.sub_diag. change (Z.testbit 1 0) with true. rewrite andb_true_r.
    destruct (Z.testbit x n).
    + rewrite Z.shiftl_spec, Z.sub_diag by exact Hn. reflexivity.
    + rewrite Z.bits_0. reflexivity.
  - assert (E : Z.testbit 1 (i - n) = false).
    { destruct (Z.ltb_spec i n).
      - apply Z.testbit_neg_r. lia.
      - apply Z.bits_above_log2; simpl; lia. }
    rewrite E, andb_false_r.
    destruct (Z.testbit x n).
    + rewrite Z.shiftl_spec, E by exact Hi. reflexivity.
    + rewrite Z.bits_0. reflexivity.
Qed.

Lemma shiftl_1_nonzero (n : Z) : 0 <= n -> Z.shiftl 1 n <> 0.
Proof.
  intros Hn. rewrite Z.shiftl_1_l. pose proof (Z.pow_pos_nonneg 2 n). lia.
Qed.

(** X27.  The interrupt of one sequencer: once bit [n] of the raw status
    is set while bit [n] of the mask is, an update puts line [n] high; a
    write to the interrupt clear register (offset 0x0c) with bit [n] set
    then clears that bit of the raw status and lowers line [n], and
    leaves every raw status bit the value does not name. *)
Theorem stm32_adc_isc_acknowledges
  (s : stm32_adc_state) (n value : Z) :
  0 <= n < 4 ->
  length (irq s) = 4%nat ->
  Z.testbit value n = true ->
  exists s',
    stm32_adc_write s 0x0c value = Ok s'
    /\ Z.testbit (ris s') n = false
    /\ aget false (irq s') n = false
    /\ (forall m, 0 <= m < 32 -> Z.testbit value m = false ->
          Z.testbit (ris s') m = Z.testbit (ris s) m)
    /\ (forall m, 0 <= m < 4 ->
          aget false (irq s') m
          = Z.testbit (ris s') m && Z.testbit (im s) m).
Proof.
  intros Hn Hl Hv.
  exists (stm32_adc_update (set_ris (u32 (Z.land (ris s) (Z.lnot value))) s)).
  split; [ reflexivity | ].
  assert (Hris : forall m, 0 <= m < 32 ->
                   Z.testbit (u32 (Z.land (ris s) (Z.lnot value))) m
                   = Z.testbit (ris s) m && negb (Z.testbit value m)).
  { intros m Hm. unfold u32.
    rewrite Z.testbit_mod_pow2, Z.land_spec, Z.lnot_spec by lia.
    destruct (Z.ltb_spec m 32); [ reflexivity | lia ]. }
  destruct (stm32_adc_update_lines
              (set_ris (u32 (Z.land (ris s) (Z.lnot value))) s) Hl)
    as [_ Hlines].
  set (s' := stm32_adc_update _) in *.
  assert (Er : ris s' = u32 (Z.land (ris s) (Z.lnot value))) by reflexivity.
  assert (Em : im s' = im s) by reflexivity.
  assert (Hline : forall m, 0 <= m < 4 ->
             aget false (irq s') m = Z.testbit (ris s') m && Z.testbit (im s) m).
  { intros m Hm. rewrite (Hlines m Hm). unfold line_raw, line_mask.
    rewrite Em, !land_bit by lia.
    destruct (Z.testbit (ris s') m); destruct (Z.testbit (im s) m);
      rewrite ?Z.land_0_l, ?Z.land_0_r, ?Z.land_diag; try reflexivity.
    apply nonzero_true, shiftl_1_nonzero. lia. }
  assert (Hn0 : Z.testbit (ris s') n = false).
  { rewrite Er, Hris, Hv by lia. apply andb_false_r. }
  split; [ exact Hn0 | ].
  split; [ rewrite (Hline n Hn), Hn0; reflexivity | ].
  split; [ | exact Hline ].
  intros m Hm Hvm. rewrite Er, Hris, Hvm by lia. apply andb_true_r.
Qed.

(** X28.  A reset empties the four FIFOs (state word 0x100: head and
    tail at slot 0) and clears the sequencer registers, and nothing
    else: the samples stay in the slots, and the raw status, the mask,
    the enables, the multiplexer, the overflow and underflow status and
    the output lines are as before, so a pending interrupt survives a
    reset. *)
Theorem stm32_adc_reset_keeps_interrupts (s : stm32_adc_state) :
  length (fifo s) = 4%nat ->
  length (ssmux s) = 4%nat ->
  length (ssctl s) = 4%nat ->
  let s' := stm32_adc_reset s in
  (forall n, 0 <= n < 4 ->
     state (fifo_at s' n) = STELLARIS_ADC_FIFO_EMPTY
     /\ data (fifo_at s' n) = data (fifo_at s n)
     /\ aget 0 (ssmux s') n = 0
     /\ aget 0 (ssctl s') n = 0)
  /\ s' = set_fifo (fifo s') (set_ssmux (ssmux s') (set_ssctl (ssctl s') s)).
Proof.
  intros Hf Hm Hc s'. subst s'.
  destruct s as [a r m e o u sp sa f sm sc no lines]. simpl in Hf, Hm, Hc.
  four_slots f Hf. four_slots sm Hm. four_slots sc Hc.
  split; [ | vm_compute; reflexivity ].
  intros n Hn. sequencer_cases n Hn; vm_compute; repeat split.
Qed.

End AdcMore.

Lemma stm32_adc_fifo_round_trip_witness :
  let r := Adc.fifo_reads (Adc.fifo_writes Adc.stm32_adc_init 2 [7; 8; 9]) 2 3 in
  snd r = [7; 8; 9]
  /\ Adc.ostat (fst r) = 0
  /\ Adc.ustat (fst r) = 0
  /\ Z.land (Adc.state (Adc.fifo_at (fst r) 2)) Adc.STELLARIS_ADC_FIFO_EMPTY
     = Adc.STELLARIS_ADC_FIFO_EMPTY.
Proof.
  destruct (stm32_adc_fifo_round_trip Adc.stm32_adc_init 2 [7; 8; 9])
    as (H1 & H2 & H3 & _ & _ & H4).
  - vm_compute. lia.
  - reflexivity.
  - vm_compute. discriminate.
  - reflexivity.
  - reflexivity.
  - simpl. lia.
  - intros r. split; [ exact H1 | ]. split; [ exact H2 | ].
    split; [ exact H3 | exact H4 ].
Defined.

Lemma stm32_adc_fifo_head_0_never_underflows_witness :
  let s := fst (Adc.fifo_reads
                  (Adc.fifo_writes Adc.stm32_adc_init 0 Adc.sixteen_samples)
                  0 16) in
  let r := Adc.fifo_reads s 0 20 in
  Adc.ustat (fst r) = Adc.ustat s
  /\ Z.land (Adc.state (Adc.fifo_at (fst r) 0)) Adc.STELLARIS_ADC_FIFO_EMPTY = 0
  /\ length (snd r) = 20%nat
  /\ forall (i : nat) (v : Z),
      snd r !! i = Some v ->
      v = aget 0 (Adc.data (Adc.fifo_at s 0))
            ((Adc.fifo_tail (Adc.fifo_at s 0) + Z.of_nat i) mod 16).
Proof.
  intros s.
  refine (stm32_adc_fifo_head_0_never_underflows s 0 20 _ _ _).
  - vm_compute. lia.
  - vm_compute. reflexivity.
  - vm_compute. reflexivity.
Defined.

Lemma stm32_adc_sequencer_registers_witness :
  (exists s',
      Adc.stm32_adc_write Adc.stm32_adc_init 0x60 0x12345678 = Ok s'
      /\ Adc.stm32_adc_read s' 0x60 = Ok (s', 0x12301230)
      /\ Adc.stm32_adc_read s' 0x80 = Ok (s', 0))
  /\ ~ (exists s', Adc.stm32_adc_write Adc.stm32_adc_init 0x64 7 = Ok s').
Proof.
  destruct (stm32_adc_sequencer_registers Adc.stm32_adc_init 1 0x12345678)
    as [(s' & E & R & Rother & _) _]; [ lia | reflexivity | ].
  destruct (stm32_adc_sequencer_registers Adc.stm32_adc_init 1 7)
    as [_ H]; [ lia | reflexivity | ].
  split.
  - exists s'. split; [ exact E | ]. split; [ exact R | ].
    apply (Rother 2); lia.
  - intros Hex. apply H in Hex. discriminate Hex.
Defined.

Lemma stm32_adc_trigger_sample_read_back_witness :
  let s := result_get Adc.stm32_adc_init
             (Adc.stm32_adc_write
                (result_get Adc.stm32_adc_init
                   (Adc.stm32_adc_write Adc.stm32_adc_init 0x14 5))
                0x00 1) in
  let s1 := Adc.stm32_adc_trigger s 0 1 in
  exists s2 v,
    Adc.stm32_adc_read s1 0x48 = Ok (s2, v)
    /\ 0x200 <= v <= 0x207
    /\ Z.testbit (Adc.ris s1) 0 = true
    /\ Adc.ostat s2 = Adc.ostat s
    /\ Adc.ustat s2 = Adc.ustat s.
Proof.
  intros s.
  refine (stm32_adc_trigger_sample_read_back s 0 0 1 _ _ _ _ _ _ _ _).
  - lia.
  - reflexivity.
  - reflexivity.
  - reflexivity.
  - reflexivity.
  - vm_compute. discriminate.
  - reflexivity.
  - reflexivity.
Defined.

Lemma stm32_adc_isc_acknowledges_witness :
  let s0 := result_get Adc.stm32_adc_init
              (Adc.stm32_adc_write
                 (result_get Adc.stm32_adc_init
                    (Adc.stm32_adc_write
                       (result_get Adc.stm32_adc_init
                          (Adc.stm32_adc_write Adc.stm32_adc_init 0x14 5))
                       0x00 1))
                 0x08 1) in
  let s := Adc.stm32_adc_trigger s0 0 1 in
  aget false (Adc.irq s) 0 = true
  /\ exists s',
      Adc.stm32_adc_write s 0x0c 1 = Ok s'
      /\ Z.testbit (Adc.ris s') 0 = false
      /\ aget false (Adc.irq s') 0 = false.
Proof.
  intros s0 s. split; [ vm_compute; reflexivity | ].
  destruct (stm32_adc_isc_acknowledges s 0 1) as (s' & E & R & L & _).
  - lia.
  - vm_compute. reflexivity.
  - reflexivity.
  - exists s'. split; [ exact E | ]. split; [ exact R | exact L ].
Defined.

Lemma stm32_adc_reset_keeps_interrupts_witness :
  let s0 := result_get Adc.stm32_adc_init
              (Adc.stm32_adc_write
                 (result_get Adc.stm32_adc_init
                    (Adc.stm32_adc_write
                       (result_get Adc.stm32_adc_init
                          (Adc.stm32_adc_write Adc.stm32_adc_init 0x14 5))
                       0x00 1))
                 0x08 1) in
  let s := Adc.stm32_adc_trigger s0 0 1 in
  let s' := Adc.stm32_adc_reset s in
  Adc.state (Adc.fifo_at s' 0) = Adc.STELLARIS_ADC_FIFO_EMPTY
  /\ Adc.ris s' = 1
  /\ aget false (Adc.irq s') 0 = true.
Proof.
  intros s0 s s'.
  destruct (stm32_adc_reset_keeps_interrupts s) as [H E].
  - vm_compute. reflexivity.
  - vm_compute. reflexivity.
  - vm_compute. reflexivity.
  - fold s' in H, E. split; [ apply (H 0); lia | ].
    rewrite E. vm_compute. split; reflexivity.
Defined.
